(** * mcp-google-sheets: the protocol engine, the backend client and the
    credential lifecycle

    A shallow embedding of [main.go] (request dispatcher, tool registry, tool
    executor, the loop of [main]), of [sheets/client.go] (the backend client)
    and of [oauth/oauth.go] (credential provider, authorization handshake),
    with the properties the specification states about them.

    Layout:
    - [Json]        : the part of Go's [encoding/json] the program relies on;
    - [MCP]         : [main.go], over a backend whose operations return;
    - [oauth2]      : the part of [golang.org/x/oauth2] the package calls;
    - [OAuth], [OAuthConfig] : [oauth/oauth.go];
    - [api], [Sheets] : [sheets/client.go], whose methods return or panic;
    - [Process], [Loop] : [main.go] linked with [sheets/client.go]: the
      dispatcher over the real client, and the loop of [main];
    - [Samples], [Hosts], [Backend] : concrete servers, requests and worlds;
    - [JsonFacts], [MCPFacts], [MCPMore], [ProcessFacts] : properties of the
      protocol engine;
    - [OAuthFacts], [OAuthMore] : properties of the credential lifecycle;
    - [SheetsFacts] : properties of the backend client. *)

From Stdlib Require Import String Ascii List ZArith Bool Lia DecimalString.
Import ListNotations.
Local Open Scope string_scope.
Set Warnings "-register-all".

(* ------------------------------------------------------------------------- *)
(** * Go's [encoding/json], as far as the program uses it                    *)
(* ------------------------------------------------------------------------- *)

Module Json.

(** A JSON document.  An object keeps its members as the text lists them:
    order and duplicate keys are visible to Go's decoder.  The numbers of the
    model are the integers, written in decimal notation and of any size: the
    identifiers and the error codes of the protocol are integers. *)
Inductive value : Type :=
| JNull
| JBool (b : bool)
| JNumber (n : Z)
| JString (s : string)
| JArray (vs : list value)
| JObject (ms : list (string * value)).

(** A Go [interface{}] holding nil, a bool, a number, a string, a slice or a
    map.  It is named by a JSON value, nil being [JNull]:
    - a number by the integer the encoder writes for it: an [int] by its
      value, a float64 by the shortest decimal that reads back as that
      float64 (see [float64] below);
    - a map by a list of its entries, in which the last entry of a key is
      the one the map holds and the order means nothing: the encoder sorts
      the keys (see [encode] below). *)
Definition any := value.

(** [json.RawMessage]: bytes that are either one JSON value or not.  The
    scanner's description of the defect is kept for the malformed ones. *)
Inductive RawMessage : Type :=
| Malformed (msg : string)
| Wellformed (v : value).

(** The nil (or empty) message: what a [RawMessage] field holds when the
    enclosing object had no such member. *)
Definition nilRaw : RawMessage := Malformed "unexpected end of JSON input".

(** Go [error] values met in the program.  A type error of the decoder
    carries the JSON value, the Go type, and, when it arose inside a struct,
    the name of the struct's type (empty for an anonymous struct) and the path
    of the field. *)
Inductive error : Type :=
| SyntaxError (msg : string)
| UnmarshalTypeError (Value Type_ Struct Field : string)
| Errorf (msg : string).

(** [err.Error()].  The wording of the two decoder errors is the library's. *)
Definition ErrorString (e : error) : string :=
  match e with
  | SyntaxError msg => msg
  | UnmarshalTypeError v t "" "" =>
      "json: cannot unmarshal " ++ v ++ " into Go value of type " ++ t
  | UnmarshalTypeError v t s f =>
      "json: cannot unmarshal " ++ v ++ " into Go struct field " ++ s ++ "."
        ++ f ++ " of type " ++ t
  | Errorf msg => msg
  end.

(** The decoder fills in the name of the struct it is decoding into when it
    saves a type error. *)
Definition inStruct (name : string) (e : option error) : option error :=
  match e with
  | Some (UnmarshalTypeError v t _ f) => Some (UnmarshalTypeError v t name f)
  | _ => e
  end.

(** The name [reflect] prints for an anonymous struct type lists the fields
    with their tags, each tag quoted. *)
Definition dq : string := String (ascii_of_nat 34) EmptyString.
Definition bs : string := String (ascii_of_nat 92) EmptyString.
Definition tag (name : string) : string :=
  dq ++ "json:" ++ bs ++ dq ++ name ++ bs ++ dq ++ dq.

Fixpoint structFields (fields : list (string * string * string)) : string :=
  match fields with
  | [] => ""
  | [(name, type, t)] => name ++ " " ++ type ++ " " ++ tag t
  | (name, type, t) :: rest =>
      name ++ " " ++ type ++ " " ++ tag t ++ "; " ++ structFields rest
  end.

Definition structType (fields : list (string * string * string)) : string :=
  "struct { " ++ structFields fields ++ " }".

Definition kindName (v : value) : string :=
  match v with
  | JNull => "null"
  | JBool _ => "bool"
  | JNumber _ => "number"
  | JString _ => "string"
  | JArray _ => "array"
  | JObject _ => "object"
  end.

(** The text of a number of a document. *)
Definition literal (n : Z) : string := NilZero.string_of_int (Z.to_int n).

(** ** Matching object keys to struct fields

    The decoder binds a key to a field when they are equal under Unicode
    simple case folding.  The field names of the program are ASCII, so only
    ASCII letters and the two runes that fold to ASCII letters matter:
    U+017F (bytes C5 BF) folds to S and U+212A (bytes E2 84 AA) folds to K. *)
Definition upper (c : ascii) : ascii :=
  let n := nat_of_ascii c in
  if (97 <=? n)%nat && (n <=? 122)%nat then ascii_of_nat (n - 32) else c.

Definition byte_is (c : ascii) (n : nat) : bool := (nat_of_ascii c =? n)%nat.

Fixpoint foldName (s : string) : string :=
  match s with
  | EmptyString => EmptyString
  | String a t =>
      match t with
      | String b t' =>
          if byte_is a 197 && byte_is b 191 then String "S" (foldName t')
          else
            match t' with
            | String c t'' =>
                if byte_is a 226 && byte_is b 132 && byte_is c 170
                then String "K" (foldName t'')
                else String (upper a) (foldName t)
            | EmptyString => String (upper a) (foldName t)
            end
      | EmptyString => String (upper a) EmptyString
      end
  end.

Definition matches (key field : string) : bool :=
  String.eqb (foldName key) (foldName field).

(** ** Decoding into a struct

    A type mismatch does not stop the decoder: it records the first error,
    skips the offending value and goes on; the error is returned at the end
    together with whatever was stored. *)
Definition saveError (saved new : option error) : option error :=
  match saved with
  | Some _ => saved
  | None => new
  end.

Section Struct.
Context {T : Type}.
(** [set key v t]: store member [key : v] into the struct [t]. *)
Variable set : string -> value -> T -> T * option error.

Fixpoint object (ms : list (string * value)) (t : T) : T * option error :=
  match ms with
  | [] => (t, None)
  | (k, v) :: rest =>
      let '(t1, e1) := set k v t in
      let '(t2, e2) := object rest t1 in
      (t2, saveError e1 e2)
  end.

(** [json.Unmarshal(data, &t)] for a struct [t] of the type named [typ]. *)
Definition Unmarshal (typ : string) (data : RawMessage) (t : T)
  : T * option error :=
  match data with
  | Malformed msg => (t, Some (SyntaxError msg))
  | Wellformed JNull => (t, None)
  | Wellformed (JObject ms) => object ms t
  | Wellformed v => (t, Some (UnmarshalTypeError (kindName v) typ "" ""))
  end.
End Struct.

(** Stores into fields of the Go types the program declares.  [old] is what
    the field holds before the store. *)
Definition storeString (field : string) (v : value) (old : string)
  : string * option error :=
  match v with
  | JString s => (s, None)
  | JNull => (old, None)
  | _ => (old, Some (UnmarshalTypeError (kindName v) "string" "" field))
  end.

(** An array is decoded element by element into the slots of the slice, and
    the slice is cut to the length of the array.  A slot the slice did not
    have is taken to start from the zero value. *)
Fixpoint elements {A : Type} (store : value -> A -> A * option error)
  (zero : A) (vs : list value) (old : list A) : list A * option error :=
  match vs with
  | [] => ([], None)
  | v :: rest =>
      let '(a, e1) := store v (hd zero old) in
      let '(l, e2) := elements store zero rest (tl old) in
      (a :: l, saveError e1 e2)
  end.

Definition storeSlice {A : Type} (typ field : string)
  (store : value -> A -> A * option error) (zero : A)
  (v : value) (old : list A) : list A * option error :=
  match v with
  | JArray vs => elements store zero vs old
  | JNull => ([], None)
  | _ => (old, Some (UnmarshalTypeError (kindName v) typ "" field))
  end.

(** [[]string] *)
Definition storeStrings (field : string) :=
  storeSlice "[]string" field (storeString field) "".

(** [[][]string] *)
Definition storeRows (field : string) :=
  storeSlice "[][]string" field (storeStrings field) [].

(** ** Numbers bound for an [interface{}]

    The decoder hands the text of such a number to [strconv.ParseFloat]: it
    becomes the float64 nearest to it, a tie going to the even significand,
    and a number beyond the largest float64 is a type error.  The encoder
    writes a float64 with [strconv.AppendFloat(b, f, fmt, -1, 64)]: the
    shortest decimal that reads back as the same float64, the closest to it
    if there are several. *)

(** [a / 2^s] rounded to the nearest integer, a tie to the even one. *)
Definition nearestEven (a s : Z) : Z :=
  let q := Z.shiftr a s in
  let r := (a - Z.shiftl q s)%Z in
  let half := Z.shiftl 1 (s - 1) in
  if ((half <? r) || ((r =? half) && Z.odd q))%Z then (q + 1)%Z else q.

(** The value of the float64 nearest to the natural number [a]: [a] cut to
    53 significant bits. *)
Definition round64 (a : Z) : Z :=
  let s := (Z.log2 a - 52)%Z in
  if (s <=? 0)%Z then a else Z.shiftl (nearestEven a s) s.

(** [math.MaxFloat64] *)
Definition MaxFloat64 : Z := ((2 ^ 53 - 1) * 2 ^ 971)%Z.

(** Whether the decimal [c] reads as the float64 of value [f]. *)
Definition parsesTo (f c : Z) : bool := (round64 c =? f)%Z.

(** The shortest decimal that reads as [f], looked for among the multiples
    of [10^j], [10^(j-1)], ..., 1 next to [f]: the larger the power of ten,
    the fewer the digits.  Of two candidates with the same number of digits
    the closer one is taken, the even one if they are equally close. *)
Fixpoint shorten (f : Z) (j : nat) : Z :=
  match j with
  | O => f
  | S j' =>
      let p := (10 ^ Z.of_nat j)%Z in
      let lo := (f / p * p)%Z in
      let hi := (lo + p)%Z in
      match parsesTo f lo, parsesTo f hi with
      | true, true =>
          if (f - lo <? hi - f)%Z then lo
          else if (hi - f <? f - lo)%Z then hi
          else if Z.even (f / p) then lo else hi
      | true, false => lo
      | false, true => hi
      | false, false => shorten f j'
      end
  end.

(** The search starts from a power of ten above [f], so that no decimal of
    fewer digits is left out: [10^(k/3 + 2)] is above [2^(k+1)]. *)
Definition shortest (f : Z) : Z := shorten f (Z.to_nat (Z.log2 f / 3 + 2)).

(** The float64 a number of a document becomes, named by the number the
    encoder writes for it; [None] when the number is out of range. *)
Definition float64 (n : Z) : option Z :=
  let f := round64 (Z.abs n) in
  if (f <=? MaxFloat64)%Z then Some (Z.sgn n * shortest f)%Z else None.

(** A loop of the decoder over the elements of an array or the members of
    an object: every element is decoded, the first error is the one kept. *)
Section Each.
Context {A B : Type}.
Variable decode : A -> B * option error.

Fixpoint each (l : list A) : list B * option error :=
  match l with
  | [] => ([], None)
  | x :: rest =>
      let '(b, e1) := decode x in
      let '(bs, e2) := each rest in
      (b :: bs, saveError e1 e2)
  end.
End Each.

(** A value decoded into an [interface{}] that is an element of a slice or
    of a map, or the value of a field: numbers become float64, a number out
    of range leaves nil and is the error. *)
Fixpoint valueInterface (struct field : string) (v : value)
  : any * option error :=
  match v with
  | JNumber n =>
      match float64 n with
      | Some f => (JNumber f, None)
      | None =>
          (JNull, Some (UnmarshalTypeError ("number " ++ literal n) "float64"
                          struct field))
      end
  | JArray vs =>
      let '(l, e) := each (valueInterface struct field) vs in
      (JArray l, e)
  | JObject ms =>
      let '(l, e) :=
        each (fun m => let '(a, e) := valueInterface struct field (snd m) in
                       ((fst m, a), e)) ms in
      (JObject l, e)
  | _ => (v, None)
  end.

(** The store into a field of type [interface{}]: a number out of range
    leaves the field as it is. *)
Definition storeInterface (struct field : string) (v : value) (old : any)
  : any * option error :=
  match v with
  | JNumber n =>
      match float64 n with
      | Some f => (JNumber f, None)
      | None =>
          (old, Some (UnmarshalTypeError ("number " ++ literal n) "float64"
                        struct field))
      end
  | _ => valueInterface struct field v
  end.

(** Whether every number of a value is within the range of a float64. *)
Fixpoint fits (v : value) : bool :=
  match v with
  | JNumber n =>
      match float64 n with
      | Some _ => true
      | None => false
      end
  | JArray vs => forallb fits vs
  | JObject ms => forallb (fun m => fits (snd m)) ms
  | _ => true
  end.

(** [map[string]interface{}]: the entries of an object are added to the
    entries the map already has. *)
Definition storeMap (field : string) (v : value) (old : list (string * value))
  : list (string * value) * option error :=
  match v with
  | JObject ms =>
      match valueInterface "" field (JObject ms) with
      | (JObject entries, e) => ((old ++ entries)%list, e)
      | (_, e) => (old, e)
      end
  | JNull => ([], None)
  | _ => (old, Some (UnmarshalTypeError (kindName v)
                       "map[string]interface {}" "" field))
  end.

(** [[]map[string]interface{}] *)
Definition storeMaps (field : string) :=
  storeSlice "[]map[string]interface {}" field (storeMap field) [].



(** ** Encoding an [interface{}]

    The encoder writes a map with its keys sorted, each key once. *)
Fixpoint insertMember (k : string) (v : value) (ms : list (string * value))
  : list (string * value) :=
  match ms with
  | [] => [(k, v)]
  | (k', v') :: rest =>
      match String.compare k k' with
      | Lt => (k, v) :: ms
      | Eq => (k, v) :: rest
      | Gt => (k', v') :: insertMember k v rest
      end
  end.

Fixpoint encode (v : any) : value :=
  match v with
  | JArray vs => JArray (map encode vs)
  | JObject ms =>
      JObject (fold_left
                 (fun sorted m => insertMember (fst m) (encode (snd m)) sorted)
                 ms [])
  | _ => v
  end.

(** Member lookup in an object, as a Go map built from it answers: the last
    occurrence of a key wins. *)
Fixpoint lookup (k : string) (ms : list (string * value)) : option value :=
  match ms with
  | [] => None
  | (k', v) :: rest =>
      match lookup k rest with
      | Some v' => Some v'
      | None => if String.eqb k k' then Some v else None
      end
  end.

Definition get (k : string) (v : value) : option value :=
  match v with
  | JObject ms => lookup k ms
  | _ => None
  end.

End Json.

(* ------------------------------------------------------------------------- *)
(** * [main.go]: envelopes, dispatcher, registry, executor                   *)
(* ------------------------------------------------------------------------- *)

Module MCP.
Import Json.

Definition serverName : string := "mcp-google-sheets".
Definition serverVersion : string := "1.0.0".

Record MCPRequest : Type := {
  req_JSONRPC : string;
  req_ID : any;
  req_Method : string;
  req_Params : RawMessage
}.

Record MCPError : Type := {
  Code : Z;
  Message : string;
  Data : any
}.

(** [Error] is a pointer in the source: [None] is the nil pointer. *)
Record MCPResponse : Type := {
  JSONRPC : string;
  ID : any;
  Result : any;
  Error : option MCPError
}.

(** What a backend operation hands back: Go's pair [(interface{}, error)].
    The executor uses the result through [fmt.Sprintf("%v", result)] only, so
    a non-nil result is kept as the text [%v] prints for it. *)
Definition GoResult : Type := option string * option error.

Definition Sprintv (result : option string) : string :=
  match result with
  | Some text => text
  | None => "<nil>"
  end.

(** [sheets.Client]: the backend collaborator, one operation per tool, each
    taken as it answers when it returns.  The methods of [sheets/client.go]
    can also panic: [Process] below has the dispatcher over them. *)
Record Client : Type := {
  ReadSheet : string -> string -> GoResult;
  WriteSheet : string -> string -> list (list string) -> GoResult;
  AppendSheet : string -> string -> list (list string) -> GoResult;
  CreateSpreadsheet : string -> list string -> GoResult;
  GetSpreadsheetInfo : string -> GoResult;
  AddSheet : string -> string -> GoResult;
  ClearSheet : string -> string -> GoResult;
  BatchUpdate : string -> list (list (string * value)) -> GoResult
}.

(** The [ctx] field is passed to every backend call and to nothing else: it
    is part of what the operations of [Client] stand for. *)
Record MCPServer : Type := {
  sheetsClient : Client
}.

(** ** [handleInitialize] *)
Definition handleInitialize (s : MCPServer) (req : MCPRequest) : MCPResponse :=
  {| JSONRPC := "2.0";
     ID := req_ID req;
     Result := JObject [
       ("protocolVersion", JString "2024-11-05");
       ("serverInfo", JObject [("name", JString serverName);
                               ("version", JString serverVersion)]);
       ("capabilities", JObject [("tools", JObject [])])];
     Error := None |}.

(** ** [handleToolsList]

    The registry is the slice literal [tools] of the source, each Go map
    written as the object it encodes to, members in the order of the source. *)
Definition prop (type description : string) : value :=
  JObject [("type", JString type); ("description", JString description)].

Definition tools : list value := [
  JObject [
    ("name", JString "read_sheet");
    ("description", JString "Read data from a Google Sheet. Specify the spreadsheet ID and optional range (e.g., 'Sheet1!A1:D10'). If no range is provided, reads the entire first sheet.");
    ("inputSchema", JObject [
      ("type", JString "object");
      ("properties", JObject [
        ("spreadsheet_id", prop "string" "The ID of the Google Spreadsheet (from the URL)");
        ("range", prop "string" "The A1 notation range to read (e.g., 'Sheet1!A1:D10'). Optional - defaults to entire first sheet.")]);
      ("required", JArray [JString "spreadsheet_id"])])];
  JObject [
    ("name", JString "write_sheet");
    ("description", JString "Write data to a Google Sheet. Specify the spreadsheet ID, range, and data as a 2D array. Data overwrites existing content in the range.");
    ("inputSchema", JObject [
      ("type", JString "object");
      ("properties", JObject [
        ("spreadsheet_id", prop "string" "The ID of the Google Spreadsheet (from the URL)");
        ("range", prop "string" "The A1 notation range to write to (e.g., 'Sheet1!A1:D10')");
        ("values", JObject [
          ("type", JString "array");
          ("description", JString "2D array of values to write (array of rows, each row is an array of cell values)");
          ("items", JObject [
            ("type", JString "array");
            ("items", JObject [("type", JString "string")])])])]);
      ("required", JArray [JString "spreadsheet_id"; JString "range"; JString "values"])])];
  JObject [
    ("name", JString "append_sheet");
    ("description", JString "Append data to a Google Sheet. Adds new rows after the last row with data in the specified range.");
    ("inputSchema", JObject [
      ("type", JString "object");
      ("properties", JObject [
        ("spreadsheet_id", prop "string" "The ID of the Google Spreadsheet (from the URL)");
        ("range", prop "string" "The A1 notation range (e.g., 'Sheet1!A:D' or 'Sheet1')");
        ("values", JObject [
          ("type", JString "array");
          ("description", JString "2D array of values to append (array of rows)");
          ("items", JObject [
            ("type", JString "array");
            ("items", JObject [("type", JString "string")])])])]);
      ("required", JArray [JString "spreadsheet_id"; JString "range"; JString "values"])])];
  JObject [
    ("name", JString "create_spreadsheet");
    ("description", JString "Create a new Google Spreadsheet with the specified title and optional sheet names.");
    ("inputSchema", JObject [
      ("type", JString "object");
      ("properties", JObject [
        ("title", prop "string" "The title of the new spreadsheet");
        ("sheets", JObject [
          ("type", JString "array");
          ("description", JString "Optional array of sheet names to create. If not provided, creates one default sheet.");
          ("items", JObject [("type", JString "string")])])]);
      ("required", JArray [JString "title"])])];
  JObject [
    ("name", JString "get_spreadsheet_info");
    ("description", JString "Get metadata about a spreadsheet including title, sheets, and properties.");
    ("inputSchema", JObject [
      ("type", JString "object");
      ("properties", JObject [
        ("spreadsheet_id", prop "string" "The ID of the Google Spreadsheet (from the URL)")]);
      ("required", JArray [JString "spreadsheet_id"])])];
  JObject [
    ("name", JString "add_sheet");
    ("description", JString "Add a new sheet (tab) to an existing spreadsheet.");
    ("inputSchema", JObject [
      ("type", JString "object");
      ("properties", JObject [
        ("spreadsheet_id", prop "string" "The ID of the Google Spreadsheet");
        ("sheet_name", prop "string" "The name for the new sheet")]);
      ("required", JArray [JString "spreadsheet_id"; JString "sheet_name"])])];
  JObject [
    ("name", JString "clear_sheet");
    ("description", JString "Clear all data in a specified range of a Google Sheet.");
    ("inputSchema", JObject [
      ("type", JString "object");
      ("properties", JObject [
        ("spreadsheet_id", prop "string" "The ID of the Google Spreadsheet");
        ("range", prop "string" "The A1 notation range to clear (e.g., 'Sheet1!A1:D10' or 'Sheet1')")]);
      ("required", JArray [JString "spreadsheet_id"; JString "range"])])];
  JObject [
    ("name", JString "batch_update");
    ("description", JString "Perform multiple update operations on a spreadsheet in a single request. Supports formatting, adding sheets, and more complex operations.");
    ("inputSchema", JObject [
      ("type", JString "object");
      ("properties", JObject [
        ("spreadsheet_id", prop "string" "The ID of the Google Spreadsheet");
        ("requests", prop "array" "Array of update request objects (see Google Sheets API documentation for request format)")]);
      ("required", JArray [JString "spreadsheet_id"; JString "requests"])])]
].

Definition handleToolsList (s : MCPServer) (req : MCPRequest) : MCPResponse :=
  {| JSONRPC := "2.0";
     ID := req_ID req;
     Result := JObject [("tools", JArray tools)];
     Error := None |}.

(** ** The argument structs of the tool handlers

    One module per anonymous struct of the source: the record, its zero value
    and the store the decoder performs for a member, chosen by the field's
    [json] tag. *)
Module ReadSheetParams.
Record t : Type := {
  SpreadsheetID : string;
  Range : string
}.
Definition zero : t := {| SpreadsheetID := ""; Range := "" |}.
Definition typ : string :=
  structType [("SpreadsheetID", "string", "spreadsheet_id");
              ("Range", "string", "range,omitempty")].
Definition set (key : string) (v : value) (p : t) : t * option error :=
  if matches key "spreadsheet_id" then
    let '(x, e) := storeString "spreadsheet_id" v (SpreadsheetID p) in
    ({| SpreadsheetID := x; Range := Range p |}, e)
  else if matches key "range" then
    let '(x, e) := storeString "range" v (Range p) in
    ({| SpreadsheetID := SpreadsheetID p; Range := x |}, e)
  else (p, None).
End ReadSheetParams.

Module WriteSheetParams.
Record t : Type := {
  SpreadsheetID : string;
  Range : string;
  Values : list (list string)
}.
Definition zero : t := {| SpreadsheetID := ""; Range := ""; Values := [] |}.
Definition typ : string :=
  structType [("SpreadsheetID", "string", "spreadsheet_id");
              ("Range", "string", "range");
              ("Values", "[][]string", "values")].
Definition set (key : string) (v : value) (p : t) : t * option error :=
  if matches key "spreadsheet_id" then
    let '(x, e) := storeString "spreadsheet_id" v (SpreadsheetID p) in
    ({| SpreadsheetID := x; Range := Range p; Values := Values p |}, e)
  else if matches key "range" then
    let '(x, e) := storeString "range" v (Range p) in
    ({| SpreadsheetID := SpreadsheetID p; Range := x; Values := Values p |}, e)
  else if matches key "values" then
    let '(x, e) := storeRows "values" v (Values p) in
    ({| SpreadsheetID := SpreadsheetID p; Range := Range p; Values := x |}, e)
  else (p, None).
End WriteSheetParams.

Module AppendSheetParams.
Record t : Type := {
  SpreadsheetID : string;
  Range : string;
  Values : list (list string)
}.
Definition zero : t := {| SpreadsheetID := ""; Range := ""; Values := [] |}.
Definition typ : string :=
  structType [("SpreadsheetID", "string", "spreadsheet_id");
              ("Range", "string", "range");
              ("Values", "[][]string", "values")].
Definition set (key : string) (v : value) (p : t) : t * option error :=
  if matches key "spreadsheet_id" then
    let '(x, e) := storeString "spreadsheet_id" v (SpreadsheetID p) in
    ({| SpreadsheetID := x; Range := Range p; Values := Values p |}, e)
  else if matches key "range" then
    let '(x, e) := storeString "range" v (Range p) in
    ({| SpreadsheetID := SpreadsheetID p; Range := x; Values := Values p |}, e)
  else if matches key "values" then
    let '(x, e) := storeRows "values" v (Values p) in
    ({| SpreadsheetID := SpreadsheetID p; Range := Range p; Values := x |}, e)
  else (p, None).
End AppendSheetParams.

Module CreateSpreadsheetParams.
Record t : Type := {
  Title : string;
  Sheets : list string
}.
Definition zero : t := {| Title := ""; Sheets := [] |}.
Definition typ : string :=
  structType [("Title", "string", "title");
              ("Sheets", "[]string", "sheets,omitempty")].
Definition set (key : string) (v : value) (p : t) : t * option error :=
  if matches key "title" then
    let '(x, e) := storeString "title" v (Title p) in
    ({| Title := x; Sheets := Sheets p |}, e)
  else if matches key "sheets" then
    let '(x, e) := storeStrings "sheets" v (Sheets p) in
    ({| Title := Title p; Sheets := x |}, e)
  else (p, None).
End CreateSpreadsheetParams.

Module GetSpreadsheetInfoParams.
Record t : Type := {
  SpreadsheetID : string
}.
Definition zero : t := {| SpreadsheetID := "" |}.
Definition typ : string :=
  structType [("SpreadsheetID", "string", "spreadsheet_id")].
Definition set (key : string) (v : value) (p : t) : t * option error :=
  if matches key "spreadsheet_id" then
    let '(x, e) := storeString "spreadsheet_id" v (SpreadsheetID p) in
    ({| SpreadsheetID := x |}, e)
  else (p, None).
End GetSpreadsheetInfoParams.

Module AddSheetParams.
Record t : Type := {
  SpreadsheetID : string;
  SheetName : string
}.
Definition zero : t := {| SpreadsheetID := ""; SheetName := "" |}.
Definition typ : string :=
  structType [("SpreadsheetID", "string", "spreadsheet_id");
              ("SheetName", "string", "sheet_name")].
Definition set (key : string) (v : value) (p : t) : t * option error :=
  if matches key "spreadsheet_id" then
    let '(x, e) := storeString "spreadsheet_id" v (SpreadsheetID p) in
    ({| SpreadsheetID := x; SheetName := SheetName p |}, e)
  else if matches key "sheet_name" then
    let '(x, e) := storeString "sheet_name" v (SheetName p) in
    ({| SpreadsheetID := SpreadsheetID p; SheetName := x |}, e)
  else (p, None).
End AddSheetParams.

Module ClearSheetParams.
Record t : Type := {
  SpreadsheetID : string;
  Range : string
}.
Definition zero : t := {| SpreadsheetID := ""; Range := "" |}.
Definition typ : string :=
  structType [("SpreadsheetID", "string", "spreadsheet_id");
              ("Range", "string", "range")].
Definition set (key : string) (v : value) (p : t) : t * option error :=
  if matches key "spreadsheet_id" then
    let '(x, e) := storeString "spreadsheet_id" v (SpreadsheetID p) in
    ({| SpreadsheetID := x; Range := Range p |}, e)
  else if matches key "range" then
    let '(x, e) := storeString "range" v (Range p) in
    ({| SpreadsheetID := SpreadsheetID p; Range := x |}, e)
  else (p, None).
End ClearSheetParams.

Module BatchUpdateParams.
Record t : Type := {
  SpreadsheetID : string;
  Requests : list (list (string * value))
}.
Definition zero : t := {| SpreadsheetID := ""; Requests := [] |}.
Definition typ : string :=
  structType [("SpreadsheetID", "string", "spreadsheet_id");
              ("Requests", "[]map[string]interface {}", "requests")].
Definition set (key : string) (v : value) (p : t) : t * option error :=
  if matches key "spreadsheet_id" then
    let '(x, e) := storeString "spreadsheet_id" v (SpreadsheetID p) in
    ({| SpreadsheetID := x; Requests := Requests p |}, e)
  else if matches key "requests" then
    let '(x, e) := storeMaps "requests" v (Requests p) in
    ({| SpreadsheetID := SpreadsheetID p; Requests := x |}, e)
  else (p, None).
End BatchUpdateParams.

(** The envelope of [tools/call]: [Arguments] takes the member's bytes as
    they are, whatever the value. *)
Module CallParams.
Record t : Type := {
  Name : string;
  Arguments : RawMessage
}.
Definition zero : t := {| Name := ""; Arguments := nilRaw |}.
Definition typ : string :=
  structType [("Name", "string", "name");
              ("Arguments", "json.RawMessage", "arguments")].
Definition set (key : string) (v : value) (p : t) : t * option error :=
  if matches key "name" then
    let '(x, e) := storeString "name" v (Name p) in
    ({| Name := x; Arguments := Arguments p |}, e)
  else if matches key "arguments" then
    ({| Name := Name p; Arguments := Wellformed v |}, None)
  else (p, None).
End CallParams.

(** ** The tool handlers *)
Definition handleReadSheet (s : MCPServer) (args : RawMessage) : GoResult :=
  let '(params, err) :=
    Unmarshal ReadSheetParams.set ReadSheetParams.typ args ReadSheetParams.zero in
  match err with
  | Some e => (None, Some e)
  | None => ReadSheet (sheetsClient s) (ReadSheetParams.SpreadsheetID params) (ReadSheetParams.Range params)
  end.

Definition handleWriteSheet (s : MCPServer) (args : RawMessage) : GoResult :=
  let '(params, err) :=
    Unmarshal WriteSheetParams.set WriteSheetParams.typ args WriteSheetParams.zero in
  match err with
  | Some e => (None, Some e)
  | None => WriteSheet (sheetsClient s) (WriteSheetParams.SpreadsheetID params) (WriteSheetParams.Range params) (WriteSheetParams.Values params)
  end.

Definition handleAppendSheet (s : MCPServer) (args : RawMessage) : GoResult :=
  let '(params, err) :=
    Unmarshal AppendSheetParams.set AppendSheetParams.typ args AppendSheetParams.zero in
  match err with
  | Some e => (None, Some e)
  | None => AppendSheet (sheetsClient s) (AppendSheetParams.SpreadsheetID params) (AppendSheetParams.Range params) (AppendSheetParams.Values params)
  end.

Definition handleCreateSpreadsheet (s : MCPServer) (args : RawMessage) : GoResult :=
  let '(params, err) :=
    Unmarshal CreateSpreadsheetParams.set CreateSpreadsheetParams.typ args CreateSpreadsheetParams.zero in
  match err with
  | Some e => (None, Some e)
  | None => CreateSpreadsheet (sheetsClient s) (CreateSpreadsheetParams.Title params) (CreateSpreadsheetParams.Sheets params)
  end.

Definition handleGetSpreadsheetInfo (s : MCPServer) (args : RawMessage) : GoResult :=
  let '(params, err) :=
    Unmarshal GetSpreadsheetInfoParams.set GetSpreadsheetInfoParams.typ args GetSpreadsheetInfoParams.zero in
  match err with
  | Some e => (None, Some e)
  | None => GetSpreadsheetInfo (sheetsClient s) (GetSpreadsheetInfoParams.SpreadsheetID params)
  end.

Definition handleAddSheet (s : MCPServer) (args : RawMessage) : GoResult :=
  let '(params, err) :=
    Unmarshal AddSheetParams.set AddSheetParams.typ args AddSheetParams.zero in
  match err with
  | Some e => (None, Some e)
  | None => AddSheet (sheetsClient s) (AddSheetParams.SpreadsheetID params) (AddSheetParams.SheetName params)
  end.

Definition handleClearSheet (s : MCPServer) (args : RawMessage) : GoResult :=
  let '(params, err) :=
    Unmarshal ClearSheetParams.set ClearSheetParams.typ args ClearSheetParams.zero in
  match err with
  | Some e => (None, Some e)
  | None => ClearSheet (sheetsClient s) (ClearSheetParams.SpreadsheetID params) (ClearSheetParams.Range params)
  end.

Definition handleBatchUpdate (s : MCPServer) (args : RawMessage) : GoResult :=
  let '(params, err) :=
    Unmarshal BatchUpdateParams.set BatchUpdateParams.typ args BatchUpdateParams.zero in
  match err with
  | Some e => (None, Some e)
  | None => BatchUpdate (sheetsClient s) (BatchUpdateParams.SpreadsheetID params) (BatchUpdateParams.Requests params)
  end.

(** ** [handleToolsCall] *)

(** The [switch params.Name]: the handler a name selects, [None] for the
    [default] branch. *)
Definition toolHandler (s : MCPServer) (name : string)
  : option (RawMessage -> GoResult) :=
  if name =? "read_sheet" then Some (handleReadSheet s)
  else if name =? "write_sheet" then Some (handleWriteSheet s)
  else if name =? "append_sheet" then Some (handleAppendSheet s)
  else if name =? "create_spreadsheet" then Some (handleCreateSpreadsheet s)
  else if name =? "get_spreadsheet_info" then Some (handleGetSpreadsheetInfo s)
  else if name =? "add_sheet" then Some (handleAddSheet s)
  else if name =? "clear_sheet" then Some (handleClearSheet s)
  else if name =? "batch_update" then Some (handleBatchUpdate s)
  else None.

Definition errorResponse (id : any) (code : Z) (message : string) (data : any)
  : MCPResponse :=
  {| JSONRPC := "2.0";
     ID := id;
     Result := JNull;
     Error := Some {| Code := code; Message := message; Data := data |} |}.

Definition handleToolsCall (s : MCPServer) (req : MCPRequest) : MCPResponse :=
  let '(params, err) :=
    Unmarshal CallParams.set CallParams.typ (req_Params req) CallParams.zero in
  match err with
  | Some e =>
      errorResponse (req_ID req) (-32602) "Invalid params"
        (JString (ErrorString e))
  | None =>
      match toolHandler s (CallParams.Name params) with
      | None =>
          errorResponse (req_ID req) (-32601)
            ("Tool not found: " ++ CallParams.Name params) JNull
      | Some handle =>
          let '(result, err) := handle (CallParams.Arguments params) in
          match err with
          | Some e => errorResponse (req_ID req) (-32000) (ErrorString e) JNull
          | None =>
              {| JSONRPC := "2.0";
                 ID := req_ID req;
                 Result := JObject [
                   ("content", JArray [
                      JObject [("type", JString "text");
                               ("text", JString (Sprintv result))]])];
                 Error := None |}
          end
      end
  end.

(** ** [handleRequest] *)
Definition handleRequest (s : MCPServer) (req : MCPRequest) : MCPResponse :=
  if req_Method req =? "initialize" then handleInitialize s req
  else if req_Method req =? "tools/list" then handleToolsList s req
  else if req_Method req =? "tools/call" then handleToolsCall s req
  else if req_Method req =? "ping" then
    {| JSONRPC := "2.0"; ID := req_ID req; Result := JObject []; Error := None |}
  else
    errorResponse (req_ID req) (-32601)
      ("Method not found: " ++ req_Method req) JNull.

(** ** The envelopes on the wire ([main], and the struct tags)

    Encoding and decoding are followed at the level of JSON values: which
    members an envelope is written with, and which field each member of a
    document is stored into.  The identifier, the result and the data of an
    error are [interface{}] fields: a number stored into them becomes a
    float64. *)

Definition zeroRequest : MCPRequest :=
  {| req_JSONRPC := ""; req_ID := JNull; req_Method := "";
     req_Params := nilRaw |}.

Definition setRequest (key : string) (v : value) (r : MCPRequest)
  : MCPRequest * option error :=
  if matches key "jsonrpc" then
    let '(x, e) := storeString "jsonrpc" v (req_JSONRPC r) in
    ({| req_JSONRPC := x; req_ID := req_ID r; req_Method := req_Method r;
        req_Params := req_Params r |}, inStruct "MCPRequest" e)
  else if matches key "id" then
    let '(x, e) := storeInterface "MCPRequest" "id" v (req_ID r) in
    ({| req_JSONRPC := req_JSONRPC r; req_ID := x; req_Method := req_Method r;
        req_Params := req_Params r |}, e)
  else if matches key "method" then
    let '(x, e) := storeString "method" v (req_Method r) in
    ({| req_JSONRPC := req_JSONRPC r; req_ID := req_ID r; req_Method := x;
        req_Params := req_Params r |}, inStruct "MCPRequest" e)
  else if matches key "params" then
    ({| req_JSONRPC := req_JSONRPC r; req_ID := req_ID r;
        req_Method := req_Method r; req_Params := Wellformed v |}, None)
  else (r, None).

(** [json.Unmarshal(line, &req)] *)
Definition decodeRequest (line : RawMessage) : MCPRequest * option error :=
  Unmarshal setRequest "main.MCPRequest" line zeroRequest.

(** A field tagged [omitempty] whose type is [interface{}] is left out when
    it is nil, and only then. *)
Definition omitempty (key : string) (v : any) : list (string * value) :=
  match v with
  | JNull => []
  | _ => [(key, encode v)]
  end.

Definition encodeError (e : MCPError) : value :=
  JObject ([("code", JNumber (Code e)); ("message", JString (Message e))]
             ++ omitempty "data" (Data e))%list.

(** [encoder.Encode(resp)]: the fields of a struct are written in the order
    of their declaration. *)
Definition encodeResponse (r : MCPResponse) : value :=
  JObject ([("jsonrpc", JString (JSONRPC r))]
             ++ omitempty "id" (ID r)
             ++ omitempty "result" (Result r)
             ++ match Error r with
                | Some e => [("error", encodeError e)]
                | None => []
                end)%list.







(** ** Vocabulary of the properties *)

(** The names the [switch] of [handleToolsCall] knows. *)
Definition toolNames : list string :=
  ["read_sheet"; "write_sheet"; "append_sheet"; "create_spreadsheet";
   "get_spreadsheet_info"; "add_sheet"; "clear_sheet"; "batch_update"].

Definition descriptorName (tool : value) : option string :=
  match get "name" tool with
  | Some (JString name) => Some name
  | _ => None
  end.

(** A descriptor as the registry must hold it: a description that is not
    empty, a schema of type object whose property map is not empty, and a
    required list naming declared properties only. *)
Definition WellFormedDescriptor (tool : value) : Prop :=
  exists description schema properties required,
    get "description" tool = Some (JString description)
    /\ description <> ""
    /\ get "inputSchema" tool = Some schema
    /\ get "type" schema = Some (JString "object")
    /\ get "properties" schema = Some (JObject properties)
    /\ properties <> []
    /\ get "required" schema = Some (JArray required)
    /\ forall r, In r required ->
         exists key, r = JString key /\ In key (map fst properties).

(** The same, as a check that runs. *)
Definition declared (properties : list (string * value)) (r : value) : bool :=
  match r with
  | JString key => existsb (String.eqb key) (map fst properties)
  | _ => false
  end.

Definition wellFormedDescriptor (tool : value) : bool :=
  match get "description" tool, get "inputSchema" tool with
  | Some (JString description), Some schema =>
      match get "type" schema, get "properties" schema,
            get "required" schema with
      | Some (JString type), Some (JObject properties),
        Some (JArray required) =>
          negb (description =? "") && (type =? "object")
          && negb (Nat.eqb (length properties) 0)
          && forallb (declared properties) required
      | _, _, _ => false
      end
  | _, _ => false
  end.

(** The arguments of a call do not decode against the struct of the named
    tool: the handler's [json.Unmarshal] returns the error [e]. *)
Inductive ArgumentsFail : string -> RawMessage -> error -> Prop :=
| fail_read_sheet args p e :
    Unmarshal ReadSheetParams.set ReadSheetParams.typ args ReadSheetParams.zero = (p, Some e) ->
    ArgumentsFail "read_sheet" args e
| fail_write_sheet args p e :
    Unmarshal WriteSheetParams.set WriteSheetParams.typ args WriteSheetParams.zero = (p, Some e) ->
    ArgumentsFail "write_sheet" args e
| fail_append_sheet args p e :
    Unmarshal AppendSheetParams.set AppendSheetParams.typ args AppendSheetParams.zero = (p, Some e) ->
    ArgumentsFail "append_sheet" args e
| fail_create_spreadsheet args p e :
    Unmarshal CreateSpreadsheetParams.set CreateSpreadsheetParams.typ args CreateSpreadsheetParams.zero = (p, Some e) ->
    ArgumentsFail "create_spreadsheet" args e
| fail_get_spreadsheet_info args p e :
    Unmarshal GetSpreadsheetInfoParams.set GetSpreadsheetInfoParams.typ args GetSpreadsheetInfoParams.zero = (p, Some e) ->
    ArgumentsFail "get_spreadsheet_info" args e
| fail_add_sheet args p e :
    Unmarshal AddSheetParams.set AddSheetParams.typ args AddSheetParams.zero = (p, Some e) ->
    ArgumentsFail "add_sheet" args e
| fail_clear_sheet args p e :
    Unmarshal ClearSheetParams.set ClearSheetParams.typ args ClearSheetParams.zero = (p, Some e) ->
    ArgumentsFail "clear_sheet" args e
| fail_batch_update args p e :
    Unmarshal BatchUpdateParams.set BatchUpdateParams.typ args BatchUpdateParams.zero = (p, Some e) ->
    ArgumentsFail "batch_update" args e.

(** The arguments decode and the backend operation of the named tool,
    called with them, returns the error [e]. *)
Inductive BackendFails (s : MCPServer) : string -> RawMessage -> error -> Prop :=
| backend_read_sheet args p result e :
    Unmarshal ReadSheetParams.set ReadSheetParams.typ args ReadSheetParams.zero = (p, None) ->
    ReadSheet (sheetsClient s) (ReadSheetParams.SpreadsheetID p) (ReadSheetParams.Range p) = (result, Some e) ->
    BackendFails s "read_sheet" args e
| backend_write_sheet args p result e :
    Unmarshal WriteSheetParams.set WriteSheetParams.typ args WriteSheetParams.zero = (p, None) ->
    WriteSheet (sheetsClient s) (WriteSheetParams.SpreadsheetID p) (WriteSheetParams.Range p) (WriteSheetParams.Values p) = (result, Some e) ->
    BackendFails s "write_sheet" args e
| backend_append_sheet args p result e :
    Unmarshal AppendSheetParams.set AppendSheetParams.typ args AppendSheetParams.zero = (p, None) ->
    AppendSheet (sheetsClient s) (AppendSheetParams.SpreadsheetID p) (AppendSheetParams.Range p) (AppendSheetParams.Values p) = (result, Some e) ->
    BackendFails s "append_sheet" args e
| backend_create_spreadsheet args p result e :
    Unmarshal CreateSpreadsheetParams.set CreateSpreadsheetParams.typ args CreateSpreadsheetParams.zero = (p, None) ->
    CreateSpreadsheet (sheetsClient s) (CreateSpreadsheetParams.Title p) (CreateSpreadsheetParams.Sheets p) = (result, Some e) ->
    BackendFails s "create_spreadsheet" args e
| backend_get_spreadsheet_info args p result e :
    Unmarshal GetSpreadsheetInfoParams.set GetSpreadsheetInfoParams.typ args GetSpreadsheetInfoParams.zero = (p, None) ->
    GetSpreadsheetInfo (sheetsClient s) (GetSpreadsheetInfoParams.SpreadsheetID p) = (result, Some e) ->
    BackendFails s "get_spreadsheet_info" args e
| backend_add_sheet args p result e :
    Unmarshal AddSheetParams.set AddSheetParams.typ args AddSheetParams.zero = (p, None) ->
    AddSheet (sheetsClient s) (AddSheetParams.SpreadsheetID p) (AddSheetParams.SheetName p) = (result, Some e) ->
    BackendFails s "add_sheet" args e
| backend_clear_sheet args p result e :
    Unmarshal ClearSheetParams.set ClearSheetParams.typ args ClearSheetParams.zero = (p, None) ->
    ClearSheet (sheetsClient s) (ClearSheetParams.SpreadsheetID p) (ClearSheetParams.Range p) = (result, Some e) ->
    BackendFails s "clear_sheet" args e
| backend_batch_update args p result e :
    Unmarshal BatchUpdateParams.set BatchUpdateParams.typ args BatchUpdateParams.zero = (p, None) ->
    BatchUpdate (sheetsClient s) (BatchUpdateParams.SpreadsheetID p) (BatchUpdateParams.Requests p) = (result, Some e) ->
    BackendFails s "batch_update" args e.

(** A value a string field accepts: a string, or null (which leaves the
    field as it is). *)
Definition storesInString (v : value) : bool :=
  match v with
  | JString _ | JNull => true
  | _ => false
  end.

(** The params the envelope decoder accepts: null, or an object whose
    members for the name field are all strings or null. *)
Definition acceptable (params : RawMessage) : Prop :=
  match params with
  | Wellformed JNull => True
  | Wellformed (JObject ms) =>
      forall key v, In (key, v) ms -> matches key "name" = true ->
                    storesInString v = true
  | _ => False
  end.

(** Members whose keys reach none of the fields named by [tags]. *)
Definition unknownTo (tags : list string) (ms : list (string * value)) : Prop :=
  forall key v, In (key, v) ms ->
    forall tag, In tag tags -> matches key tag = false.

(** The field tags of the argument structs of the eight tools. *)
Definition argumentTags : list string :=
  ["spreadsheet_id"; "range"; "values"; "title"; "sheets"; "sheet_name";
   "requests"].

(** A member of an encoded envelope, if it was written. *)
Definition written (v : any) : option value :=
  match v with
  | JNull => None
  | _ => Some (encode v)
  end.

(** The lines the request decoder accepts: null, or an object whose members
    for the two string fields are strings or null, and whose members for
    the identifier hold no number beyond the range of a float64. *)
Definition decodable (data : RawMessage) : Prop :=
  match data with
  | Wellformed JNull => True
  | Wellformed (JObject ms) =>
      forall key v, In (key, v) ms ->
        (matches key "jsonrpc" = true \/ matches key "method" = true ->
         storesInString v = true)
        /\ (matches key "id" = true -> fits v = true)
  | _ => False
  end.

(** An identifier that is a string, or an integer a float64 holds exactly. *)
Definition plainID (id : any) : Prop :=
  (exists text, id = JString text)
  \/ (exists n, id = JNumber n /\ (Z.abs n <= 2 ^ 53)%Z).

End MCP.

(* ------------------------------------------------------------------------- *)
(** * [oauth/oauth.go]: credential provider and authorization handshake      *)
(* ------------------------------------------------------------------------- *)

(** The part of [golang.org/x/oauth2] the package calls. *)
Module oauth2.

Record Endpoint : Type := {
  AuthURL : string;
  TokenURL : string
}.

Record Config : Type := {
  ClientID : string;
  ClientSecret : string;
  RedirectURL : string;
  Scopes : list string;
  Endpoint_ : Endpoint
}.

(** The credential record. *)
Record Token : Type := {
  AccessToken : string;
  TokenType : string;
  RefreshToken : string;
  Expiry : string
}.

(** An [AuthCodeOption] sets one parameter of the authorization URL. *)
Definition AuthCodeOption : Type := (string * string)%type.
Definition AccessTypeOffline : AuthCodeOption := ("access_type", "offline").
Definition ApprovalForce : AuthCodeOption := ("prompt", "consent").

(** A URL before it is flattened to text: the address and the query
    parameters ([url.Values], one value per key). *)
Record URL : Type := {
  base : string;
  query : list (string * string)
}.

Fixpoint Set_ (k v : string) (q : list (string * string))
  : list (string * string) :=
  match q with
  | [] => [(k, v)]
  | (k', v') :: rest =>
      if String.eqb k k' then (k, v) :: rest else (k', v') :: Set_ k v rest
  end.

Fixpoint Get (k : string) (q : list (string * string)) : option string :=
  match q with
  | [] => None
  | (k', v) :: rest => if String.eqb k k' then Some v else Get k rest
  end.

Fixpoint Join (l : list string) (sep : string) : string :=
  match l with
  | [] => ""
  | [x] => x
  | x :: rest => x ++ sep ++ Join rest sep
  end.

Definition AuthCodeURL (c : Config) (state : string)
  (opts : list AuthCodeOption) : URL :=
  let v := [("response_type", "code"); ("client_id", ClientID c)] in
  let v := if String.eqb (RedirectURL c) "" then v
           else Set_ "redirect_uri" (RedirectURL c) v in
  let v := match Scopes c with
           | [] => v
           | _ => Set_ "scope" (Join (Scopes c) " ") v
           end in
  let v := if String.eqb state "" then v else Set_ "state" state v in
  {| base := AuthURL (Endpoint_ c);
     query := fold_left (fun q opt => Set_ (fst opt) (snd opt) q) opts v |}.

(** [config.Client(ctx, token)]: an HTTP client that authenticates with the
    token and renews it through the configuration. *)
Record Client : Type := {
  client_config : Config;
  client_token : Token
}.

End oauth2.

Module OAuth.
Import Json.

Definition TokenFileName : string := "token.json".
Definition RedirectURI : string := "http://localhost:8080/oauth/callback".

(** [google.Endpoint] and [sheets.SpreadsheetsScope] *)
Definition google_Endpoint : oauth2.Endpoint :=
  {| oauth2.AuthURL := "https://accounts.google.com/o/oauth2/auth";
     oauth2.TokenURL := "https://oauth2.googleapis.com/token" |}.
Definition SpreadsheetsScope : string :=
  "https://www.googleapis.com/auth/spreadsheets".

Module Config.
Record t : Type := {
  ClientID : string;
  ClientSecret : string;
  RedirectURI : string;
  TokenFile : string
}.
End Config.

Definition GetOAuthConfig (c : Config.t) : oauth2.Config :=
  {| oauth2.ClientID := Config.ClientID c;
     oauth2.ClientSecret := Config.ClientSecret c;
     oauth2.RedirectURL := Config.RedirectURI c;
     oauth2.Scopes := [SpreadsheetsScope];
     oauth2.Endpoint_ := google_Endpoint |}.

(** ** The world the package acts on *)

(** The callback server of a handshake: not started, bound and serving, or
    shut down. *)
Inductive ServerState : Type :=
| Idle
| Serving
| Closed.

(** What is written for the operator: a line of text, or the line that
    carries the authorization URL. *)
Inductive Output : Type :=
| Line (text : string)
| VisitURL (url : oauth2.URL).

Record World : Type := {
  files : string -> option string;  (* path to content, the files that open *)
  mkdirs : bool;                    (* whether [os.MkdirAll] succeeds *)
  writable : bool;                  (* whether files can be created *)
  patterns : list string;           (* registered on [http.DefaultServeMux] *)
  server : ServerState;
  stdout : list Output;
  logged : list string
}.

(** A computation of the package: it may change the world and it returns,
    or it panics. *)
Inductive Outcome (A : Type) : Type :=
| Returned (a : A)
| Panicked (msg : string).
Arguments Returned {A} a.
Arguments Panicked {A} msg.

Definition M (A : Type) : Type := World -> Outcome A * World.

Definition ret {A : Type} (a : A) : M A := fun w => (Returned a, w).

Definition bind {A B : Type} (m : M A) (k : A -> M B) : M B :=
  fun w =>
    match m w with
    | (Returned a, w') => k a w'
    | (Panicked msg, w') => (Panicked msg, w')
    end.

Notation "x <- m ;; k" := (bind m (fun x => k))
  (at level 61, m at next level, right associativity).
Notation "m ;; k" := (bind m (fun _ => k))
  (at level 61, right associativity).

Definition panic {A : Type} (msg : string) : M A := fun w => (Panicked msg, w).

(** Updates of the world, one field at a time. *)
Definition write (o : Output) (w : World) : World :=
  {| files := files w; mkdirs := mkdirs w; writable := writable w;
     patterns := patterns w; server := server w;
     stdout := (stdout w ++ [o])%list; logged := logged w |}.

Definition note (text : string) (w : World) : World :=
  {| files := files w; mkdirs := mkdirs w; writable := writable w;
     patterns := patterns w; server := server w;
     stdout := stdout w; logged := (logged w ++ [text])%list |}.

Definition turn (st : ServerState) (w : World) : World :=
  {| files := files w; mkdirs := mkdirs w; writable := writable w;
     patterns := patterns w; server := st;
     stdout := stdout w; logged := logged w |}.

Definition register (pattern : string) (w : World) : World :=
  {| files := files w; mkdirs := mkdirs w; writable := writable w;
     patterns := pattern :: patterns w; server := server w;
     stdout := stdout w; logged := logged w |}.

Definition store (path content : string) (w : World) : World :=
  {| files := fun p => if String.eqb p path then Some content else files w p;
     mkdirs := mkdirs w; writable := writable w;
     patterns := patterns w; server := server w;
     stdout := stdout w; logged := logged w |}.

Definition Println (text : string) : M unit :=
  fun w => (Returned tt, write (Line text) w).

Definition PrintURL (url : oauth2.URL) : M unit :=
  fun w => (Returned tt, write (VisitURL url) w).

Definition Log (text : string) : M unit :=
  fun w => (Returned tt, note text w).

Definition setServer (st : ServerState) : M unit :=
  fun w => (Returned tt, turn st w).

(** [http.HandleFunc]: a pattern is registered once; a second registration
    panics. *)
Definition HandleFunc (pattern : string) : M unit :=
  fun w =>
    if existsb (String.eqb pattern) (patterns w)
    then (Panicked ("http: multiple registrations for " ++ pattern), w)
    else (Returned tt, register pattern w).

(** [server.Shutdown(ctx)]: the listeners are closed first, whatever the
    state of [ctx]; a server that is shut down does not bind any more. *)
Definition Shutdown : M unit := setServer Closed.

(** [os.Open] followed by a read of the whole file. *)
Definition ReadFile (path : string) : M (error + string) :=
  fun w =>
    match files w path with
    | Some content => (Returned (inr content), w)
    | None =>
        (Returned (inl (Errorf ("open " ++ path
                                  ++ ": no such file or directory"))), w)
    end.

(** [os.MkdirAll] for the directory of [path]. *)
Definition MkdirAll (path : string) : M (option error) :=
  fun w =>
    if mkdirs w then (Returned None, w)
    else (Returned (Some (Errorf ("mkdir " ++ path ++ ": permission denied"))),
          w).

(** [os.OpenFile] with [O_RDWR|O_CREATE|O_TRUNC] and the write that follows. *)
Definition WriteFile (path content : string) : M (option error) :=
  fun w =>
    if writable w
    then (Returned None, store path content w)
    else (Returned (Some (Errorf ("open " ++ path ++ ": permission denied"))),
          w).

Fixpoint Repeat (s : string) (count : nat) : string :=
  match count with
  | O => ""
  | S n => s ++ Repeat s n
  end.

Definition newline : string := String (ascii_of_nat 10) "".

(** ** What arrives at a handshake

    The handshake waits in one [select] for the first of three signals.
    What triggers them comes from outside: a request on the callback path,
    a failure of the listener to start, or the cancellation of [ctx]. *)
Inductive Event : Type :=
| Callback (code : string)       (* the value of [code] in the query, or "" *)
| ListenFailed (err : error)
| Cancelled.

Inductive Signal : Type :=
| codeChan (code : string)
| errChan (err : error)
| ctxDone.

(** The callback handler and the goroutine around [ListenAndServe]. *)
Definition signal (ev : Event) : Signal :=
  match ev with
  | Callback code =>
      if String.eqb code "" then errChan (Errorf "no code in OAuth callback")
      else codeChan code
  | ListenFailed err =>
      errChan (Errorf ("failed to start OAuth callback server: "
                         ++ ErrorString err))
  | Cancelled => ctxDone
  end.

(** [go server.ListenAndServe()] *)
Definition ListenAndServe (ev : Event) : M unit :=
  match ev with
  | ListenFailed _ => ret tt
  | _ => setServer Serving
  end.

(** The state tokens of the authorization URLs written so far. *)
Definition emittedStates (w : World) : list string :=
  flat_map (fun o =>
              match o with
              | VisitURL url =>
                  match oauth2.Get "state" (oauth2.query url) with
                  | Some state => [state]
                  | None => []
                  end
              | Line _ => []
              end) (stdout w).

(** The authorization URLs written so far. *)
Definition emittedURLs (w : World) : list oauth2.URL :=
  flat_map (fun o =>
              match o with
              | VisitURL url => [url]
              | Line _ => []
              end) (stdout w).

Section Package.
(** The collaborators of the package: the JSON form of a token and the
    exchange of a code with the authorization server. *)
Variable decodeToken : string -> error + oauth2.Token.
Variable encodeToken : oauth2.Token -> string.
Variable Exchange : oauth2.Config -> string -> error + oauth2.Token.

(** [loadToken]: the token and a nil error, or the error. *)
Definition loadToken (c : Config.t) : M (error + oauth2.Token) :=
  f <- ReadFile (Config.TokenFile c) ;;
  match f with
  | inl err => ret (inl err)
  | inr content => ret (decodeToken content)
  end.

Definition saveToken (c : Config.t) (token : oauth2.Token)
  : M (option error) :=
  d <- MkdirAll (Config.TokenFile c) ;;
  match d with
  | Some err =>
      ret (Some (Errorf ("unable to create token directory: "
                           ++ ErrorString err)))
  | None =>
      r <- WriteFile (Config.TokenFile c) (encodeToken token) ;;
      match r with
      | Some err =>
          ret (Some (Errorf ("unable to create token file: "
                               ++ ErrorString err)))
      | None => ret None
      end
  end.

(** [saveTokenIfRefreshed] has an empty body. *)
Definition saveTokenIfRefreshed (c : Config.t) (client : oauth2.Client)
  (originalToken : oauth2.Token) : M unit :=
  ret tt.

Definition getTokenFromWeb (c : Config.t) (config : oauth2.Config)
  (ev : Event) : M (error + oauth2.Token) :=
  HandleFunc "/oauth/callback" ;;
  ListenAndServe ev ;;
  let authURL :=
    oauth2.AuthCodeURL config "state-token"
      [oauth2.AccessTypeOffline; oauth2.ApprovalForce] in
  Println (newline ++ Repeat "=" 80) ;;
  Println "GOOGLE OAUTH AUTHENTICATION REQUIRED" ;;
  Println (Repeat "=" 80) ;;
  PrintURL authURL ;;
  Println "Waiting for authorization..." ;;
  Println (Repeat "=" 80 ++ newline) ;;
  match signal ev with
  | codeChan code =>
      match Exchange config code with
      | inl err =>
          Shutdown ;;
          ret (inl (Errorf ("unable to exchange code for token: "
                              ++ ErrorString err)))
      | inr token =>
          Shutdown ;;
          ret (inr token)
      end
  | errChan err =>
      Shutdown ;;
      ret (inl err)
  | ctxDone =>
      Shutdown ;;
      ret (inl (Errorf "context cancelled"))
  end.

Definition GetClient (c : Config.t) (ev : Event)
  : M (error + oauth2.Client) :=
  let config := GetOAuthConfig c in
  loaded <- loadToken c ;;
  match loaded with
  | inr token =>
      let client :=
        {| oauth2.client_config := config; oauth2.client_token := token |} in
      saveTokenIfRefreshed c client token ;;
      ret (inr client)
  | inl _ =>
      Log "No existing token found. Starting OAuth flow..." ;;
      got <- getTokenFromWeb c config ev ;;
      match got with
      | inl err =>
          ret (inl (Errorf ("unable to get token from web: "
                              ++ ErrorString err)))
      | inr token =>
          saved <- saveToken c token ;;
          match saved with
          | Some err =>
              Log ("Warning: unable to save token: " ++ ErrorString err)
          | None => ret tt
          end ;;
          ret (inr {| oauth2.client_config := config;
                      oauth2.client_token := token |})
      end
  end.

End Package.

End OAuth.

(* ------------------------------------------------------------------------- *)
(** * Sample values                                                          *)
(* ------------------------------------------------------------------------- *)

Module Samples.
Import Json MCP.

(** A backend that is down, except that it creates spreadsheets. *)
Definition down : GoResult := (None, Some (Errorf "backend unavailable")).

Definition client : Client :=
  {| ReadSheet := fun _ _ => down;
     WriteSheet := fun _ _ _ => down;
     AppendSheet := fun _ _ _ => down;
     CreateSpreadsheet := fun title _ => (Some ("map[title:" ++ title ++ "]"), None);
     GetSpreadsheetInfo := fun _ => down;
     AddSheet := fun _ _ => down;
     ClearSheet := fun _ _ => down;
     BatchUpdate := fun _ _ => down |}.

Definition server : MCPServer := {| sheetsClient := client |}.

Definition request (id : any) (method : string) (params : RawMessage)
  : MCPRequest :=
  {| req_JSONRPC := "2.0"; req_ID := id; req_Method := method;
     req_Params := params |}.

(** [{"name": name, "arguments": arguments}] *)
Definition call (name : string) (arguments : value) : RawMessage :=
  Wellformed (JObject [("name", JString name); ("arguments", arguments)]).


(** Two installations that run the handshake. *)
Definition configA : OAuth.Config.t :=
  {| OAuth.Config.ClientID := "client-a";
     OAuth.Config.ClientSecret := "secret-a";
     OAuth.Config.RedirectURI := OAuth.RedirectURI;
     OAuth.Config.TokenFile := "a/token.json" |}.

Definition configB : OAuth.Config.t :=
  {| OAuth.Config.ClientID := "client-b";
     OAuth.Config.ClientSecret := "secret-b";
     OAuth.Config.RedirectURI := OAuth.RedirectURI;
     OAuth.Config.TokenFile := "b/token.json" |}.

Definition token : oauth2.Token :=
  {| oauth2.AccessToken := "test-access-token";
     oauth2.TokenType := "Bearer";
     oauth2.RefreshToken := "test-refresh-token";
     oauth2.Expiry := "2030-01-01T00:00:00Z" |}.

Definition encodeToken (t : oauth2.Token) : string := oauth2.AccessToken t.

Definition decodeToken (content : string) : error + oauth2.Token :=
  if content =? "test-access-token" then inr token
  else inl (SyntaxError "invalid character 'x' looking for beginning of value").

(** An authorization server that accepts the code "4/good" only. *)
Definition Exchange (config : oauth2.Config) (code : string)
  : error + oauth2.Token :=
  if code =? "4/good" then inr token
  else inl (Errorf "oauth2: cannot fetch token: 400 Bad Request").

(** A process that has not touched the network yet, without a token file. *)
Definition fresh : OAuth.World :=
  {| OAuth.files := fun _ => None;
     OAuth.mkdirs := true;
     OAuth.writable := true;
     OAuth.patterns := [];
     OAuth.server := OAuth.Idle;
     OAuth.stdout := [];
     OAuth.logged := [] |}.

(** The same process with a token stored for installation A. *)
Definition stored : OAuth.World :=
  {| OAuth.files := fun path => if path =? "a/token.json"
                                then Some "test-access-token" else None;
     OAuth.mkdirs := true;
     OAuth.writable := true;
     OAuth.patterns := [];
     OAuth.server := OAuth.Idle;
     OAuth.stdout := [];
     OAuth.logged := [] |}.

(** The ways a handshake can be resolved: a callback with a code the server
    accepts, with a code it refuses, without a code, a listener that does
    not start, a cancelled context. *)
Definition terminalPaths : list OAuth.Event :=
  [OAuth.Callback "4/good"; OAuth.Callback "4/bad"; OAuth.Callback "";
   OAuth.ListenFailed
     (Errorf "listen tcp :8080: bind: address already in use");
   OAuth.Cancelled].

End Samples.

(* ------------------------------------------------------------------------- *)
(** * [oauth/oauth.go]: loading the configuration                            *)
(* ------------------------------------------------------------------------- *)

Module OAuthConfig.
Import Json OAuth.

(** One block ([installed] or [web]) of a credentials file. *)
Module App.
Record t : Type := {
  ClientID : string;
  ClientSecret : string;
  RedirectURIs : list string
}.
Definition zero : t :=
  {| ClientID := ""; ClientSecret := ""; RedirectURIs := [] |}.
Definition typ : string :=
  structType [("ClientID", "string", "client_id");
              ("ClientSecret", "string", "client_secret");
              ("RedirectURIs", "[]string", "redirect_uris")].
(** [path] is the tag of the block: the decoder names a field by its path. *)
Definition set (path key : string) (v : value) (a : t) : t * option error :=
  if matches key "client_id" then
    let '(x, e) := storeString (path ++ ".client_id") v (ClientID a) in
    ({| ClientID := x; ClientSecret := ClientSecret a;
        RedirectURIs := RedirectURIs a |}, e)
  else if matches key "client_secret" then
    let '(x, e) := storeString (path ++ ".client_secret") v (ClientSecret a) in
    ({| ClientID := ClientID a; ClientSecret := x;
        RedirectURIs := RedirectURIs a |}, e)
  else if matches key "redirect_uris" then
    let '(x, e) := storeStrings (path ++ ".redirect_uris") v (RedirectURIs a) in
    ({| ClientID := ClientID a; ClientSecret := ClientSecret a;
        RedirectURIs := x |}, e)
  else (a, None).
(** The store into a field that is such a struct: null leaves it as it is. *)
Definition store (path : string) (v : value) (old : t) : t * option error :=
  match v with
  | JObject ms => object (set path) ms old
  | JNull => (old, None)
  | _ => (old, Some (UnmarshalTypeError (kindName v) typ "" path))
  end.
End App.

(** The struct [creds] of [LoadConfig]. *)
Module Creds.
Record t : Type := {
  Installed : App.t;
  Web : App.t
}.
Definition zero : t := {| Installed := App.zero; Web := App.zero |}.
Definition typ : string :=
  "struct { Installed " ++ App.typ ++ " " ++ tag "installed"
    ++ "; Web " ++ App.typ ++ " " ++ tag "web" ++ " }".
Definition set (key : string) (v : value) (c : t) : t * option error :=
  if matches key "installed" then
    let '(x, e) := App.store "installed" v (Installed c) in
    ({| Installed := x; Web := Web c |}, e)
  else if matches key "web" then
    let '(x, e) := App.store "web" v (Web c) in
    ({| Installed := Installed c; Web := x |}, e)
  else (c, None).
End Creds.

Section Host.
(** What the package asks of the host: the environment variables, the home
    directory, path joining, whether a path is reported as not existing,
    and the JSON syntax of a file's bytes. *)
Variable Getenv : string -> string.
Variable UserHomeDir : error + string.
Variable Join : list string -> string.
Variable notExist : string -> bool.
Variable parse : string -> RawMessage.

Definition getRedirectURI : string :=
  let uri := Getenv "GOOGLE_OAUTH_REDIRECT_URI" in
  if negb (uri =? "") then uri else RedirectURI.

(** [os.MkdirAll(configDir, 0700)], whose error the caller drops.  The
    world keeps the files that open, not the directories: the directory the
    call creates is not recorded. *)
Definition mkdirConfig (dir : string) : M (option error) :=
  fun w =>
    if mkdirs w then (Returned None, w)
    else (Returned (Some (Errorf ("mkdir " ++ dir ++ ": permission denied"))),
          w).

Definition getTokenFilePath : M string :=
  let path := Getenv "GOOGLE_OAUTH_TOKEN_FILE" in
  if negb (path =? "") then ret path
  else
    match UserHomeDir with
    | inl _ => ret TokenFileName
    | inr homeDir =>
        let configDir := Join [homeDir; ".config"; "mcp-google-sheets"] in
        mkdirConfig configDir ;;
        ret (Join [configDir; TokenFileName])
    end.

Definition LoadConfig : M (error + Config.t) :=
  let clientID := Getenv "GOOGLE_OAUTH_CLIENT_ID" in
  let clientSecret := Getenv "GOOGLE_OAUTH_CLIENT_SECRET" in
  if negb (clientID =? "") && negb (clientSecret =? "") then
    tokenFile <- getTokenFilePath ;;
    ret (inr {| Config.ClientID := clientID;
                Config.ClientSecret := clientSecret;
                Config.RedirectURI := getRedirectURI;
                Config.TokenFile := tokenFile |})
  else
    let credPath := Getenv "GOOGLE_OAUTH_CREDENTIALS" in
    let credPath :=
      if credPath =? "" then
        let homeDir := match UserHomeDir with
                       | inr dir => dir
                       | inl _ => ""
                       end in
        let inHome := Join [homeDir; ".config"; "mcp-google-sheets";
                            "oauth_credentials.json"] in
        if notExist inHome then "oauth_credentials.json" else inHome
      else credPath in
    data <- ReadFile credPath ;;
    match data with
    | inl err =>
        ret (inl (Errorf ("unable to read OAuth credentials file: "
                            ++ ErrorString err
                            ++ ". Please set GOOGLE_OAUTH_CLIENT_ID and GOOGLE_OAUTH_CLIENT_SECRET environment variables or provide oauth_credentials.json")))
    | inr content =>
        let '(creds, err) :=
          Unmarshal Creds.set Creds.typ (parse content) Creds.zero in
        match err with
        | Some e =>
            ret (inl (Errorf ("unable to parse OAuth credentials: "
                                ++ ErrorString e)))
        | None =>
            let chosen :=
              if negb (App.ClientID (Creds.Installed creds) =? "")
              then Some (Creds.Installed creds)
              else if negb (App.ClientID (Creds.Web creds) =? "")
              then Some (Creds.Web creds)
              else None in
            match chosen with
            | None =>
                ret (inl (Errorf "no valid OAuth credentials found in file"))
            | Some app =>
                let redirectURI :=
                  match App.RedirectURIs app with
                  | first :: _ => first
                  | [] => RedirectURI
                  end in
                tokenFile <- getTokenFilePath ;;
                ret (inr {| Config.ClientID := App.ClientID app;
                            Config.ClientSecret := App.ClientSecret app;
                            Config.RedirectURI := redirectURI;
                            Config.TokenFile := tokenFile |})
            end
        end
    end.

(** The path [getTokenFilePath] returns. *)
Definition tokenFilePath : string :=
  let path := Getenv "GOOGLE_OAUTH_TOKEN_FILE" in
  if negb (path =? "") then path
  else
    match UserHomeDir with
    | inl _ => TokenFileName
    | inr homeDir =>
        Join [Join [homeDir; ".config"; "mcp-google-sheets"]; TokenFileName]
    end.

End Host.

(** The variables that carry credentials, and the one for the redirect. *)
Definition credentialVariables : list string :=
  ["GOOGLE_OAUTH_CLIENT_ID"; "GOOGLE_OAUTH_CLIENT_SECRET";
   "GOOGLE_OAUTH_REDIRECT_URI"].

End OAuthConfig.

(* ------------------------------------------------------------------------- *)
(** * [sheets/client.go]: the backend collaborator                           *)
(* ------------------------------------------------------------------------- *)

(** The types of [google.golang.org/api/sheets/v4] the package reads and
    builds.  A field that is a pointer is an [option], [None] being nil. *)
Module api.
Import Json.

Module ValueRange.
Record t : Type := {
  Range : string;
  Values : list (list any)
}.
End ValueRange.

Module UpdateValuesResponse.
Record t : Type := {
  UpdatedRange : string;
  UpdatedRows : Z;
  UpdatedColumns : Z;
  UpdatedCells : Z
}.
End UpdateValuesResponse.

Module AppendValuesResponse.
Record t : Type := {
  Updates : option UpdateValuesResponse.t
}.
End AppendValuesResponse.

Module GridProperties.
Record t : Type := {
  RowCount : Z;
  ColumnCount : Z;
  FrozenRowCount : Z;
  FrozenColumnCount : Z
}.
End GridProperties.

Module SheetProperties.
Record t : Type := {
  SheetId : Z;
  Title : string;
  Index : Z;
  SheetType : string;
  GridProperties : option GridProperties.t
}.
End SheetProperties.

Module Sheet.
Record t : Type := {
  Properties : option SheetProperties.t
}.
End Sheet.

Module SpreadsheetProperties.
Record t : Type := {
  Title : string;
  Locale : string;
  TimeZone : string
}.
End SpreadsheetProperties.

Module Spreadsheet.
Record t : Type := {
  SpreadsheetId : string;
  SpreadsheetUrl : string;
  Properties : option SpreadsheetProperties.t;
  Sheets : list (option Sheet.t)
}.
End Spreadsheet.

Module AddSheetResponse.
Record t : Type := {
  Properties : option SheetProperties.t
}.
End AddSheetResponse.

Module Response.
Record t : Type := {
  AddSheet : option AddSheetResponse.t
}.
End Response.

Module BatchUpdateSpreadsheetResponse.
Record t : Type := {
  SpreadsheetId : string;
  Replies : list (option Response.t)
}.
End BatchUpdateSpreadsheetResponse.

Module ClearValuesResponse.
Record t : Type := {
  ClearedRange : string;
  SpreadsheetId : string
}.
End ClearValuesResponse.

End api.

Module Sheets.
Import Json.
Import api.

(** A call of the package returns Go's pair [(interface{}, error)], or it
    panics.  The result is the map the source builds, written as the object
    it stands for; nil is [JNull]. *)
Definition Outcome : Type := OAuth.Outcome (any * option error).

Definition nilDereference : string :=
  "runtime error: invalid memory address or nil pointer dereference".

Section Client.
(** The requests of a batch update belong to the API library; the package
    builds one kind itself, the request to add a sheet. *)
Variable Request : Type.
Variable addSheetRequest : SheetProperties.t -> Request.
(** [json.Marshal] of a value and [json.Unmarshal] of its bytes into the
    request list of a [BatchUpdateSpreadsheetRequest]. *)
Variable Marshal : value -> error + string.
Variable UnmarshalRequests : string -> error + list Request.
(** [fmt.Sprintf("%v", cell)] *)
Variable Sprint : any -> string.

(** [*sheets.Service]: each field is one call chain ending in [Do()]. *)
Record Service : Type := {
  ValuesGet : string -> string -> error + ValueRange.t;
  (* spreadsheet, range, body, ValueInputOption *)
  ValuesUpdate : string -> string -> ValueRange.t -> string
                 -> error + UpdateValuesResponse.t;
  (* spreadsheet, range, body, ValueInputOption, InsertDataOption *)
  ValuesAppend : string -> string -> ValueRange.t -> string -> string
                 -> error + AppendValuesResponse.t;
  ValuesClear : string -> string -> error + ClearValuesResponse.t;
  SpreadsheetsCreate : Spreadsheet.t -> error + Spreadsheet.t;
  SpreadsheetsGet : string -> error + Spreadsheet.t;
  SpreadsheetsBatchUpdate : string -> list Request
                            -> error + BatchUpdateSpreadsheetResponse.t
}.

Record Client : Type := {
  service : option Service
}.

Definition NewClient (service : option Service) : Client :=
  {| service := service |}.

Definition fail (prefix : string) (err : error) : Outcome :=
  OAuth.Returned (JNull, Some (Errorf (prefix ++ ErrorString err))).

Definition succeed (result : list (string * value)) : Outcome :=
  OAuth.Returned (JObject result, None).

Definition strings (row : list string) : value := JArray (map JString row).
Definition rows (values : list (list string)) : value :=
  JArray (map strings values).
Definition int (n : Z) : value := JNumber n.
Definition len {A : Type} (l : list A) : value := JNumber (Z.of_nat (length l)).

Definition ReadSheet (c : Client) (spreadsheetID readRange : string)
  : Outcome :=
  let readRange := if readRange =? "" then "Sheet1" else readRange in
  match service c with
  | None => OAuth.Panicked nilDereference
  | Some svc =>
      match ValuesGet svc spreadsheetID readRange with
      | inl err => fail "unable to retrieve data from sheet: " err
      | inr resp =>
          match ValueRange.Values resp with
          | [] =>
              succeed [("range", JString (ValueRange.Range resp));
                       ("values", rows []);
                       ("message", JString "No data found")]
          | first :: _ =>
              let stringValues :=
                map (map Sprint) (ValueRange.Values resp) in
              succeed [("range", JString (ValueRange.Range resp));
                       ("values", rows stringValues);
                       ("row_count", len stringValues);
                       ("col_count", len (map Sprint first))]
          end
      end
  end.

(** [[][]string] to [[][]interface{}], cell by cell. *)
Definition interfaceValues (values : list (list string)) : list (list any) :=
  map (map JString) values.

Definition WriteSheet (c : Client) (spreadsheetID writeRange : string)
  (values : list (list string)) : Outcome :=
  let valueRange :=
    {| ValueRange.Range := ""; ValueRange.Values := interfaceValues values |} in
  match service c with
  | None => OAuth.Panicked nilDereference
  | Some svc =>
      match ValuesUpdate svc spreadsheetID writeRange valueRange
              "USER_ENTERED" with
      | inl err => fail "unable to write data to sheet: " err
      | inr resp =>
          succeed [("updated_range",
                    JString (UpdateValuesResponse.UpdatedRange resp));
                   ("updated_rows", int (UpdateValuesResponse.UpdatedRows resp));
                   ("updated_columns",
                    int (UpdateValuesResponse.UpdatedColumns resp));
                   ("updated_cells",
                    int (UpdateValuesResponse.UpdatedCells resp));
                   ("message", JString "Data written successfully")]
      end
  end.

Definition AppendSheet (c : Client) (spreadsheetID appendRange : string)
  (values : list (list string)) : Outcome :=
  let valueRange :=
    {| ValueRange.Range := ""; ValueRange.Values := interfaceValues values |} in
  match service c with
  | None => OAuth.Panicked nilDereference
  | Some svc =>
      match ValuesAppend svc spreadsheetID appendRange valueRange
              "USER_ENTERED" "INSERT_ROWS" with
      | inl err => fail "unable to append data to sheet: " err
      | inr resp =>
          match AppendValuesResponse.Updates resp with
          | None => OAuth.Panicked nilDereference
          | Some updates =>
              succeed [("updated_range",
                        JString (UpdateValuesResponse.UpdatedRange updates));
                       ("updated_rows",
                        int (UpdateValuesResponse.UpdatedRows updates));
                       ("updated_columns",
                        int (UpdateValuesResponse.UpdatedColumns updates));
                       ("updated_cells",
                        int (UpdateValuesResponse.UpdatedCells updates));
                       ("message", JString "Data appended successfully")]
          end
      end
  end.

(** A loop whose body dereferences pointers: [None] when one of them is
    nil. *)
Fixpoint forEach {A B : Type} (body : A -> option B) (l : list A)
  : option (list B) :=
  match l with
  | [] => Some []
  | a :: rest =>
      match body a with
      | None => None
      | Some b =>
          match forEach body rest with
          | None => None
          | Some bs => Some (b :: bs)
          end
      end
  end.

Definition zeroSheetProperties : SheetProperties.t :=
  {| SheetProperties.SheetId := 0; SheetProperties.Title := "";
     SheetProperties.Index := 0; SheetProperties.SheetType := "";
     SheetProperties.GridProperties := None |}.

Definition titled (name : string) : SheetProperties.t :=
  {| SheetProperties.SheetId := 0; SheetProperties.Title := name;
     SheetProperties.Index := 0; SheetProperties.SheetType := "";
     SheetProperties.GridProperties := None |}.

(** [sheet.Properties.Title] *)
Definition sheetTitle (sheet : option Sheet.t) : option string :=
  match sheet with
  | None => None
  | Some sh =>
      match Sheet.Properties sh with
      | None => None
      | Some props => Some (SheetProperties.Title props)
      end
  end.

(** The spreadsheet [CreateSpreadsheet] sends: the title, and one sheet for
    each name. *)
Definition newSpreadsheet (title : string) (sheetNames : list string)
  : Spreadsheet.t :=
  {| Spreadsheet.SpreadsheetId := "";
     Spreadsheet.SpreadsheetUrl := "";
     Spreadsheet.Properties :=
       Some {| SpreadsheetProperties.Title := title;
               SpreadsheetProperties.Locale := "";
               SpreadsheetProperties.TimeZone := "" |};
     Spreadsheet.Sheets :=
       map (fun name => Some {| Sheet.Properties := Some (titled name) |})
         sheetNames |}.

Definition CreateSpreadsheet (c : Client) (title : string)
  (sheetNames : list string) : Outcome :=
  let spreadsheet := newSpreadsheet title sheetNames in
  match service c with
  | None => OAuth.Panicked nilDereference
  | Some svc =>
      match SpreadsheetsCreate svc spreadsheet with
      | inl err => fail "unable to create spreadsheet: " err
      | inr resp =>
          match forEach sheetTitle (Spreadsheet.Sheets resp) with
          | None => OAuth.Panicked nilDereference
          | Some sheetTitles =>
              match Spreadsheet.Properties resp with
              | None => OAuth.Panicked nilDereference
              | Some properties =>
                  succeed
                    [("spreadsheet_id",
                      JString (Spreadsheet.SpreadsheetId resp));
                     ("spreadsheet_url",
                      JString (Spreadsheet.SpreadsheetUrl resp));
                     ("title",
                      JString (SpreadsheetProperties.Title properties));
                     ("sheets", strings sheetTitles);
                     ("message", JString "Spreadsheet created successfully")]
              end
          end
      end
  end.

(** The body of the loop of [GetSpreadsheetInfo]. *)
Definition sheetInfo (sheet : option Sheet.t) : option value :=
  match sheet with
  | None => None
  | Some sh =>
      match Sheet.Properties sh with
      | None => None
      | Some props =>
          match SheetProperties.GridProperties props with
          | None => None
          | Some grid =>
              Some (JObject
                      [("sheet_id", int (SheetProperties.SheetId props));
                       ("title", JString (SheetProperties.Title props));
                       ("index", int (SheetProperties.Index props));
                       ("sheet_type",
                        JString (SheetProperties.SheetType props));
                       ("row_count", int (GridProperties.RowCount grid));
                       ("col_count", int (GridProperties.ColumnCount grid));
                       ("frozen_rows",
                        int (GridProperties.FrozenRowCount grid));
                       ("frozen_cols",
                        int (GridProperties.FrozenColumnCount grid))])
          end
      end
  end.

Definition GetSpreadsheetInfo (c : Client) (spreadsheetID : string)
  : Outcome :=
  match service c with
  | None => OAuth.Panicked nilDereference
  | Some svc =>
      match SpreadsheetsGet svc spreadsheetID with
      | inl err => fail "unable to retrieve spreadsheet info: " err
      | inr resp =>
          match forEach sheetInfo (Spreadsheet.Sheets resp) with
          | None => OAuth.Panicked nilDereference
          | Some infos =>
              match Spreadsheet.Properties resp with
              | None => OAuth.Panicked nilDereference
              | Some properties =>
                  succeed
                    [("spreadsheet_id",
                      JString (Spreadsheet.SpreadsheetId resp));
                     ("title",
                      JString (SpreadsheetProperties.Title properties));
                     ("locale",
                      JString (SpreadsheetProperties.Locale properties));
                     ("time_zone",
                      JString (SpreadsheetProperties.TimeZone properties));
                     ("spreadsheet_url",
                      JString (Spreadsheet.SpreadsheetUrl resp));
                     ("sheets", JArray infos)]
              end
          end
      end
  end.

Definition AddSheet (c : Client) (spreadsheetID sheetName : string)
  : Outcome :=
  let requests := [addSheetRequest (titled sheetName)] in
  match service c with
  | None => OAuth.Panicked nilDereference
  | Some svc =>
      match SpreadsheetsBatchUpdate svc spreadsheetID requests with
      | inl err => fail "unable to add sheet: " err
      | inr resp =>
          match BatchUpdateSpreadsheetResponse.Replies resp with
          | [] => succeed [("message", JString "Sheet added successfully")]
          | None :: _ => OAuth.Panicked nilDereference
          | Some reply :: _ =>
              match Response.AddSheet reply with
              | None =>
                  succeed [("message", JString "Sheet added successfully")]
              | Some added =>
                  match AddSheetResponse.Properties added with
                  | None => OAuth.Panicked nilDereference
                  | Some props =>
                      succeed
                        [("sheet_id", int (SheetProperties.SheetId props));
                         ("title", JString (SheetProperties.Title props));
                         ("index", int (SheetProperties.Index props));
                         ("message", JString "Sheet added successfully")]
                  end
              end
          end
      end
  end.

Definition ClearSheet (c : Client) (spreadsheetID clearRange : string)
  : Outcome :=
  match service c with
  | None => OAuth.Panicked nilDereference
  | Some svc =>
      match ValuesClear svc spreadsheetID clearRange with
      | inl err => fail "unable to clear sheet: " err
      | inr resp =>
          succeed [("cleared_range",
                    JString (ClearValuesResponse.ClearedRange resp));
                   ("message", JString "Range cleared successfully")]
      end
  end.

Definition BatchUpdate (c : Client) (spreadsheetID : string)
  (requestsData : list (list (string * value))) : Outcome :=
  match Marshal (JObject [("requests", JArray (map JObject requestsData))]) with
  | inl err => fail "unable to marshal requests: " err
  | inr requestsJSON =>
      match UnmarshalRequests requestsJSON with
      | inl err => fail "unable to unmarshal requests: " err
      | inr requests =>
          match service c with
          | None => OAuth.Panicked nilDereference
          | Some svc =>
              match SpreadsheetsBatchUpdate svc spreadsheetID requests with
              | inl err => fail "unable to batch update: " err
              | inr resp =>
                  succeed
                    [("spreadsheet_id",
                      JString (BatchUpdateSpreadsheetResponse.SpreadsheetId
                                 resp));
                     ("replies_count",
                      len (BatchUpdateSpreadsheetResponse.Replies resp));
                     ("message",
                      JString "Batch update completed successfully")]
              end
          end
      end
  end.

(** Whether every sheet of a spreadsheet can be read by the loops above. *)
Definition titledSheet (sheet : option Sheet.t) : Prop :=
  exists sh props,
    sheet = Some sh /\ Sheet.Properties sh = Some props.

Definition gridSheet (sheet : option Sheet.t) : Prop :=
  exists sh props grid,
    sheet = Some sh /\ Sheet.Properties sh = Some props
    /\ SheetProperties.GridProperties props = Some grid.

End Client.

Arguments service {Request} c.
Arguments ValuesGet {Request} s _ _.
Arguments ValuesUpdate {Request} s _ _ _ _.
Arguments ValuesAppend {Request} s _ _ _ _ _.
Arguments ValuesClear {Request} s _ _.
Arguments SpreadsheetsCreate {Request} s _.
Arguments SpreadsheetsGet {Request} s _.
Arguments SpreadsheetsBatchUpdate {Request} s _ _.
Arguments NewClient {Request} service.
Arguments ReadSheet {Request} Sprint c spreadsheetID readRange.
Arguments WriteSheet {Request} c spreadsheetID writeRange values.
Arguments AppendSheet {Request} c spreadsheetID appendRange values.
Arguments CreateSpreadsheet {Request} c title sheetNames.
Arguments GetSpreadsheetInfo {Request} c spreadsheetID.
Arguments AddSheet {Request} addSheetRequest c spreadsheetID sheetName.
Arguments ClearSheet {Request} c spreadsheetID clearRange.
Arguments BatchUpdate {Request} Marshal UnmarshalRequests c spreadsheetID
  requestsData.

(** A pair as the contract of the collaborator wants it: a result and no
    error, or an error and no result. *)
Definition oneOf (pair : any * option error) : Prop :=
  (exists ms, fst pair = JObject ms /\ snd pair = None)
  \/ (fst pair = JNull /\ exists err, snd pair = Some err).

End Sheets.

(* ------------------------------------------------------------------------- *)
(** * [main.go] linked with [sheets/client.go]                               *)
(* ------------------------------------------------------------------------- *)

(** The dispatcher as the program runs it: the handlers call the methods of
    [sheets.Client], which return or panic, and nothing in [main.go] recovers
    from a panic.  A call of the dispatcher therefore returns an envelope or
    panics. *)
Module Process.
Import Json MCP api.
Import OAuth(Returned, Panicked).

Section Server.
Variable Request : Type.
Variable addSheetRequest : SheetProperties.t -> Request.
Variable Marshal : value -> error + string.
Variable UnmarshalRequests : string -> error + list Request.
(** [fmt.Sprintf("%v", x)] *)
Variable Sprint : any -> string.

Record MCPServer : Type := {
  sheetsClient : Sheets.Client Request
}.

Definition handleInitialize (s : MCPServer) (req : MCPRequest) : MCPResponse :=
  {| JSONRPC := "2.0";
     ID := req_ID req;
     Result := JObject [
       ("protocolVersion", JString "2024-11-05");
       ("serverInfo", JObject [("name", JString serverName);
                               ("version", JString serverVersion)]);
       ("capabilities", JObject [("tools", JObject [])])];
     Error := None |}.

Definition handleToolsList (s : MCPServer) (req : MCPRequest) : MCPResponse :=
  {| JSONRPC := "2.0";
     ID := req_ID req;
     Result := JObject [("tools", JArray tools)];
     Error := None |}.

(** ** The tool handlers *)
Definition handleReadSheet (s : MCPServer) (args : RawMessage)
  : Sheets.Outcome :=
  let '(params, err) :=
    Unmarshal ReadSheetParams.set ReadSheetParams.typ args ReadSheetParams.zero in
  match err with
  | Some e => Returned (JNull, Some e)
  | None =>
      Sheets.ReadSheet Sprint (sheetsClient s)
        (ReadSheetParams.SpreadsheetID params) (ReadSheetParams.Range params)
  end.

Definition handleWriteSheet (s : MCPServer) (args : RawMessage)
  : Sheets.Outcome :=
  let '(params, err) :=
    Unmarshal WriteSheetParams.set WriteSheetParams.typ args WriteSheetParams.zero in
  match err with
  | Some e => Returned (JNull, Some e)
  | None =>
      Sheets.WriteSheet (sheetsClient s)
        (WriteSheetParams.SpreadsheetID params) (WriteSheetParams.Range params)
        (WriteSheetParams.Values params)
  end.

Definition handleAppendSheet (s : MCPServer) (args : RawMessage)
  : Sheets.Outcome :=
  let '(params, err) :=
    Unmarshal AppendSheetParams.set AppendSheetParams.typ args AppendSheetParams.zero in
  match err with
  | Some e => Returned (JNull, Some e)
  | None =>
      Sheets.AppendSheet (sheetsClient s)
        (AppendSheetParams.SpreadsheetID params)
        (AppendSheetParams.Range params) (AppendSheetParams.Values params)
  end.

Definition handleCreateSpreadsheet (s : MCPServer) (args : RawMessage)
  : Sheets.Outcome :=
  let '(params, err) :=
    Unmarshal CreateSpreadsheetParams.set CreateSpreadsheetParams.typ args CreateSpreadsheetParams.zero in
  match err with
  | Some e => Returned (JNull, Some e)
  | None =>
      Sheets.CreateSpreadsheet (sheetsClient s)
        (CreateSpreadsheetParams.Title params)
        (CreateSpreadsheetParams.Sheets params)
  end.

Definition handleGetSpreadsheetInfo (s : MCPServer) (args : RawMessage)
  : Sheets.Outcome :=
  let '(params, err) :=
    Unmarshal GetSpreadsheetInfoParams.set GetSpreadsheetInfoParams.typ args GetSpreadsheetInfoParams.zero in
  match err with
  | Some e => Returned (JNull, Some e)
  | None =>
      Sheets.GetSpreadsheetInfo (sheetsClient s)
        (GetSpreadsheetInfoParams.SpreadsheetID params)
  end.

Definition handleAddSheet (s : MCPServer) (args : RawMessage)
  : Sheets.Outcome :=
  let '(params, err) :=
    Unmarshal AddSheetParams.set AddSheetParams.typ args AddSheetParams.zero in
  match err with
  | Some e => Returned (JNull, Some e)
  | None =>
      Sheets.AddSheet addSheetRequest (sheetsClient s)
        (AddSheetParams.SpreadsheetID params) (AddSheetParams.SheetName params)
  end.

Definition handleClearSheet (s : MCPServer) (args : RawMessage)
  : Sheets.Outcome :=
  let '(params, err) :=
    Unmarshal ClearSheetParams.set ClearSheetParams.typ args ClearSheetParams.zero in
  match err with
  | Some e => Returned (JNull, Some e)
  | None =>
      Sheets.ClearSheet (sheetsClient s)
        (ClearSheetParams.SpreadsheetID params) (ClearSheetParams.Range params)
  end.

Definition handleBatchUpdate (s : MCPServer) (args : RawMessage)
  : Sheets.Outcome :=
  let '(params, err) :=
    Unmarshal BatchUpdateParams.set BatchUpdateParams.typ args BatchUpdateParams.zero in
  match err with
  | Some e => Returned (JNull, Some e)
  | None =>
      Sheets.BatchUpdate Marshal UnmarshalRequests (sheetsClient s)
        (BatchUpdateParams.SpreadsheetID params)
        (BatchUpdateParams.Requests params)
  end.

(** The [switch params.Name]. *)
Definition toolHandler (s : MCPServer) (name : string)
  : option (RawMessage -> Sheets.Outcome) :=
  if name =? "read_sheet" then Some (handleReadSheet s)
  else if name =? "write_sheet" then Some (handleWriteSheet s)
  else if name =? "append_sheet" then Some (handleAppendSheet s)
  else if name =? "create_spreadsheet" then Some (handleCreateSpreadsheet s)
  else if name =? "get_spreadsheet_info" then Some (handleGetSpreadsheetInfo s)
  else if name =? "add_sheet" then Some (handleAddSheet s)
  else if name =? "clear_sheet" then Some (handleClearSheet s)
  else if name =? "batch_update" then Some (handleBatchUpdate s)
  else None.

Definition handleToolsCall (s : MCPServer) (req : MCPRequest)
  : OAuth.Outcome MCPResponse :=
  let '(params, err) :=
    Unmarshal CallParams.set CallParams.typ (req_Params req) CallParams.zero in
  match err with
  | Some e =>
      Returned (errorResponse (req_ID req) (-32602) "Invalid params"
                  (JString (ErrorString e)))
  | None =>
      match toolHandler s (CallParams.Name params) with
      | None =>
          Returned (errorResponse (req_ID req) (-32601)
                      ("Tool not found: " ++ CallParams.Name params) JNull)
      | Some handle =>
          match handle (CallParams.Arguments params) with
          | Panicked msg => Panicked msg
          | Returned (result, Some e) =>
              Returned (errorResponse (req_ID req) (-32000) (ErrorString e)
                          JNull)
          | Returned (result, None) =>
              Returned
                {| JSONRPC := "2.0";
                   ID := req_ID req;
                   Result := JObject [
                     ("content", JArray [
                        JObject [("type", JString "text");
                                 ("text", JString (Sprint result))]])];
                   Error := None |}
          end
      end
  end.

Definition handleRequest (s : MCPServer) (req : MCPRequest)
  : OAuth.Outcome MCPResponse :=
  if req_Method req =? "initialize" then Returned (handleInitialize s req)
  else if req_Method req =? "tools/list" then Returned (handleToolsList s req)
  else if req_Method req =? "tools/call" then handleToolsCall s req
  else if req_Method req =? "ping" then
    Returned {| JSONRPC := "2.0"; ID := req_ID req; Result := JObject [];
                Error := None |}
  else
    Returned (errorResponse (req_ID req) (-32601)
                ("Method not found: " ++ req_Method req) JNull).

End Server.

Arguments sheetsClient {Request} m.
Arguments Build_MCPServer {Request} sheetsClient.
Arguments handleInitialize {Request} s req.
Arguments handleToolsList {Request} s req.
Arguments handleReadSheet {Request} Sprint s args.
Arguments handleWriteSheet {Request} s args.
Arguments handleAppendSheet {Request} s args.
Arguments handleCreateSpreadsheet {Request} s args.
Arguments handleGetSpreadsheetInfo {Request} s args.
Arguments handleAddSheet {Request} addSheetRequest s args.
Arguments handleClearSheet {Request} s args.
Arguments handleBatchUpdate {Request} Marshal UnmarshalRequests s args.
Arguments toolHandler {Request} addSheetRequest Marshal UnmarshalRequests
  Sprint s name.
Arguments handleToolsCall {Request} addSheetRequest Marshal UnmarshalRequests
  Sprint s req.
Arguments handleRequest {Request} addSheetRequest Marshal UnmarshalRequests
  Sprint s req.

End Process.

(* ------------------------------------------------------------------------- *)
(** * [main.go]: the loop of [main]                                          *)
(* ------------------------------------------------------------------------- *)

Module Loop.
Import Json MCP api.
Import OAuth(Returned, Panicked).

(** What [scanner.Scan] hands to the body of the loop: an empty line, a line
    of text, or, for a line that does not fit the scanner's buffer (64 KiB
    with [bufio.NewScanner]), no line at all: [Scan] reports false and
    [scanner.Err] is [bufio.ErrTooLong]. *)
Inductive Line : Type :=
| EmptyLine
| Text (data : RawMessage)
| TooLong.

(** How the process ends: the input is exhausted, [log.Fatalf], or a panic
    that nothing recovers. *)
Inductive Exit : Type :=
| EndOfInput
| Fatal (msg : string)
| Panic (msg : string).

(** What a run writes: the response documents on standard output and the
    messages of [log.Printf]. *)
Record Run : Type := {
  responses : list value;
  logs : list string;
  exit : Exit
}.

Section Main.
Variable Request : Type.
Variable addSheetRequest : SheetProperties.t -> Request.
Variable Marshal : value -> error + string.
Variable UnmarshalRequests : string -> error + list Request.
Variable Sprint : any -> string.

(** The loop of [main], from the call of [handleRequest] number [turn] on.
    The server struct is the same all along, the spreadsheets its client
    reaches are not: [server k] is the server as it answers call number
    [k]. *)
Fixpoint mainLoop (server : nat -> Process.MCPServer Request) (turn : nat)
  (lines : list Line) : Run :=
  match lines with
  | [] => {| responses := []; logs := []; exit := EndOfInput |}
  | TooLong :: _ =>
      {| responses := []; logs := [];
         exit := Fatal "Error reading from stdin: bufio.Scanner: token too long" |}
  | EmptyLine :: rest => mainLoop server turn rest
  | Text data :: rest =>
      let '(req, err) := decodeRequest data in
      match err with
      | Some e =>
          let run := mainLoop server turn rest in
          {| responses := responses run;
             logs := ("Error parsing request: " ++ ErrorString e) :: logs run;
             exit := exit run |}
      | None =>
          match Process.handleRequest addSheetRequest Marshal
                  UnmarshalRequests Sprint (server turn) req with
          | Panicked msg =>
              {| responses := []; logs := []; exit := Panic msg |}
          | Returned resp =>
              let run := mainLoop server (S turn) rest in
              {| responses := encodeResponse resp :: responses run;
                 logs := logs run;
                 exit := exit run |}
          end
      end
  end.

End Main.

Arguments mainLoop {Request} addSheetRequest Marshal UnmarshalRequests Sprint
  server turn lines.

End Loop.

(* ------------------------------------------------------------------------- *)
(** * More sample values                                                     *)
(* ------------------------------------------------------------------------- *)

Module Hosts.
Import Json OAuth OAuthConfig.

(** A host with credentials in the environment. *)
Definition envHost (name : string) : string :=
  if name =? "GOOGLE_OAUTH_CLIENT_ID" then "env-client-id"
  else if name =? "GOOGLE_OAUTH_CLIENT_SECRET" then "env-client-secret"
  else "".

(** A host with a client id in the environment and no secret, and a
    credentials file named by [GOOGLE_OAUTH_CREDENTIALS]. *)
Definition fileHost (name : string) : string :=
  if name =? "GOOGLE_OAUTH_CLIENT_ID" then "env-client-id"
  else if name =? "GOOGLE_OAUTH_REDIRECT_URI" then "http://custom.redirect.uri"
  else if name =? "GOOGLE_OAUTH_CREDENTIALS" then "/etc/creds.json"
  else if name =? "GOOGLE_OAUTH_TOKEN_FILE" then "/custom/token/path.json"
  else "".

(** The same host with a bare environment apart from the two paths. *)
Definition bareHost (name : string) : string :=
  if name =? "GOOGLE_OAUTH_CREDENTIALS" then "/etc/creds.json"
  else if name =? "GOOGLE_OAUTH_TOKEN_FILE" then "/custom/token/path.json"
  else "".

Definition home : error + string := inr "/home/user".

Fixpoint Join (parts : list string) : string :=
  match parts with
  | [] => ""
  | [part] => part
  | part :: rest => part ++ "/" ++ Join rest
  end.

Definition notExist (path : string) : bool := true.

(** A credentials file with both blocks. *)
Definition credentials : value :=
  JObject [
    ("installed", JObject [
       ("client_id", JString "test-installed-client-id");
       ("client_secret", JString "test-installed-client-secret");
       ("redirect_uris", JArray [JString "http://localhost:9090/callback"])]);
    ("web", JObject [
       ("client_id", JString "test-web-client-id");
       ("client_secret", JString "test-web-client-secret")])].

Definition parse (content : string) : RawMessage :=
  if content =? "both blocks" then Wellformed credentials
  else Malformed "invalid character 'x' looking for beginning of value".

Definition withCredentials : World :=
  {| files := fun path => if path =? "/etc/creds.json"
                          then Some "both blocks" else None;
     mkdirs := true;
     writable := true;
     patterns := [];
     server := Idle;
     stdout := [];
     logged := [] |}.

End Hosts.

Module Backend.
Import Json api Sheets.

(** A stand-in for the API library: requests are kept as text. *)
Definition addSheetRequest (properties : SheetProperties.t) : string :=
  "addSheet " ++ SheetProperties.Title properties.

Definition Marshal (v : value) : error + string := inr "requests".

Definition UnmarshalRequests (data : string) : error + list string :=
  inr [data].

Definition Sprint (cell : any) : string :=
  match cell with
  | JString text => text
  | JBool true => "true"
  | JBool false => "false"
  | JNull => "<nil>"
  | _ => "?"
  end.

Definition gridSheet : Sheet.t :=
  {| Sheet.Properties :=
       Some {| SheetProperties.SheetId := 0;
               SheetProperties.Title := "Sheet1";
               SheetProperties.Index := 0;
               SheetProperties.SheetType := "GRID";
               SheetProperties.GridProperties :=
                 Some {| GridProperties.RowCount := 100;
                         GridProperties.ColumnCount := 26;
                         GridProperties.FrozenRowCount := 1;
                         GridProperties.FrozenColumnCount := 0 |} |} |}.

(** A sheet that holds a chart has no grid. *)
Definition chartSheet : Sheet.t :=
  {| Sheet.Properties :=
       Some {| SheetProperties.SheetId := 7;
               SheetProperties.Title := "Chart1";
               SheetProperties.Index := 1;
               SheetProperties.SheetType := "OBJECT";
               SheetProperties.GridProperties := None |} |}.

Definition withChart : Spreadsheet.t :=
  {| Spreadsheet.SpreadsheetId := "test-spreadsheet-id";
     Spreadsheet.SpreadsheetUrl :=
       "https://docs.google.com/spreadsheets/d/test-spreadsheet-id";
     Spreadsheet.Properties :=
       Some {| SpreadsheetProperties.Title := "Test Spreadsheet";
               SpreadsheetProperties.Locale := "en_US";
               SpreadsheetProperties.TimeZone := "America/New_York" |};
     Spreadsheet.Sheets := [Some gridSheet; Some chartSheet] |}.

(** Rows of unequal width. *)
Definition ragged : ValueRange.t :=
  {| ValueRange.Range := "Sheet1!A1:C2";
     ValueRange.Values := [[JString "Name"; JString "Age"];
                           [JString "John"; JString "30"; JBool true]] |}.

Definition unavailable : error := Errorf "googleapi: Error 503".

Definition service : Service string :=
  {| ValuesGet := fun _ range =>
       if range =? "Sheet1" then inr ragged else inl unavailable;
     ValuesUpdate := fun _ _ _ _ => inl unavailable;
     ValuesAppend := fun _ _ _ _ _ =>
       inr {| AppendValuesResponse.Updates := None |};
     ValuesClear := fun _ _ => inl unavailable;
     SpreadsheetsCreate := fun request => inr request;
     SpreadsheetsGet := fun _ => inr withChart;
     SpreadsheetsBatchUpdate := fun _ _ =>
       inr {| BatchUpdateSpreadsheetResponse.SpreadsheetId := "";
              BatchUpdateSpreadsheetResponse.Replies := [] |} |}.

Definition client : Client string := NewClient (Some service).
Definition noService : Client string := NewClient None.

(** The server of the program over that client, and the server the tests
    build, whose client has no service. *)
Definition server : Process.MCPServer string :=
  {| Process.sheetsClient := client |}.
Definition bare : Process.MCPServer string :=
  {| Process.sheetsClient := noService |}.


Definition info (id : Z) : Loop.Line :=
  Loop.Text
    (Wellformed
       (JObject [("id", JNumber id); ("method", JString "tools/call");
                 ("params",
                  JObject [("name", JString "get_spreadsheet_info");
                           ("arguments",
                            JObject [("spreadsheet_id",
                                      JString "test-spreadsheet-id")])])])).

End Backend.

(* ------------------------------------------------------------------------- *)
(** * Properties of the protocol engine                                      *)
(* ------------------------------------------------------------------------- *)
(** * Properties of the numbers of the decoder                               *)
(* ------------------------------------------------------------------------- *)

Module JsonFacts.
Import Json.
Local Open Scope Z_scope.










End JsonFacts.

(* ------------------------------------------------------------------------- *)

Module MCPFacts.
Import Json MCP.

Lemma toolHandler_None (s : MCPServer) (name : string) :
  ~ In name toolNames -> toolHandler s name = None.
Proof.
  intros H. unfold toolHandler.
  repeat match goal with
  | |- context [String.eqb name ?k] =>
      destruct (String.eqb_spec name k) as [E | _];
      [ exfalso; apply H; rewrite E; unfold toolNames; simpl; tauto | ]
  end.
  reflexivity.
Qed.

Lemma toolHandler_Some (s : MCPServer) (name : string) :
  In name toolNames -> exists h, toolHandler s name = Some h.
Proof.
  unfold toolNames. simpl.
  intros H. repeat destruct H as [H | H]; try contradiction;
    subst name; eexists; reflexivity.
Qed.

(** Every envelope the dispatcher returns echoes the identifier and carries
    the protocol tag. *)
Lemma handleToolsCall_echo (s : MCPServer) (req : MCPRequest) :
  ID (handleToolsCall s req) = req_ID req
  /\ JSONRPC (handleToolsCall s req) = "2.0".
Proof.
  unfold handleToolsCall.
  destruct (Unmarshal _ _ _ _) as [params [e | ]]; [now split | ].
  destruct (toolHandler _ _) as [h | ]; [ | now split].
  destruct (h _) as [result [e | ]]; now split.
Qed.

Lemma handleRequest_echo (s : MCPServer) (req : MCPRequest) :
  ID (handleRequest s req) = req_ID req /\ JSONRPC (handleRequest s req) = "2.0".
Proof.
  unfold handleRequest.
  destruct (_ =? "initialize"); [now split | ].
  destruct (_ =? "tools/list"); [now split | ].
  destruct (_ =? "tools/call"); [apply handleToolsCall_echo | ].
  destruct (_ =? "ping"); now split.
Qed.

Lemma handleToolsCall_one_of (s : MCPServer) (req : MCPRequest) :
  (Result (handleToolsCall s req) <> JNull /\ Error (handleToolsCall s req) = None)
  \/ (Result (handleToolsCall s req) = JNull
      /\ Error (handleToolsCall s req) <> None).
Proof.
  unfold handleToolsCall.
  destruct (Unmarshal _ _ _ _) as [params [e | ]];
    [right; split; [reflexivity | discriminate] | ].
  destruct (toolHandler _ _) as [h | ];
    [ | right; split; [reflexivity | discriminate]].
  destruct (h _) as [result [e | ]].
  - right; split; [reflexivity | discriminate].
  - left; split; [discriminate | reflexivity].
Qed.

Lemma handleRequest_one_of (s : MCPServer) (req : MCPRequest) :
  (Result (handleRequest s req) <> JNull /\ Error (handleRequest s req) = None)
  \/ (Result (handleRequest s req) = JNull
      /\ Error (handleRequest s req) <> None).
Proof.
  unfold handleRequest.
  destruct (_ =? "initialize");
    [left; split; [discriminate | reflexivity] | ].
  destruct (_ =? "tools/list");
    [left; split; [discriminate | reflexivity] | ].
  destruct (_ =? "tools/call"); [apply handleToolsCall_one_of | ].
  destruct (_ =? "ping").
  - left; split; [discriminate | reflexivity].
  - right; split; [reflexivity | discriminate].
Qed.

(** The codes of the error objects the dispatcher builds. *)
Lemma handleRequest_error_code (s : MCPServer) (req : MCPRequest)
  (e : MCPError) :
  Error (handleRequest s req) = Some e ->
  In (Code e) [-32601; -32602; -32000]%Z.
Proof.
  unfold handleRequest.
  destruct (_ =? "initialize"); [discriminate | ].
  destruct (_ =? "tools/list"); [discriminate | ].
  destruct (_ =? "tools/call").
  - unfold handleToolsCall.
    destruct (Unmarshal _ _ _ _) as [params [e0 | ]].
    + intros H; inversion H; simpl; tauto.
    + destruct (toolHandler _ _) as [h | ].
      * destruct (h _) as [result [e0 | ]]; [ | discriminate].
        intros H; inversion H; simpl; tauto.
      * intros H; inversion H; simpl; tauto.
  - destruct (_ =? "ping"); [discriminate | ].
    intros H; inversion H; simpl; tauto.
Qed.

(** Over a backend whose operations return, the dispatcher, its [tools/call]
    branch included, returns one envelope that echoes the identifier and in
    which exactly one of the result and the error is present, for every
    method name, recognised or not. *)
Lemma handleRequest_result_xor_error (s : MCPServer) (req : MCPRequest) :
  ID (handleRequest s req) = req_ID req
  /\ ((Result (handleRequest s req) <> JNull
       /\ Error (handleRequest s req) = None)
      \/ (Result (handleRequest s req) = JNull
          /\ Error (handleRequest s req) <> None)).
Proof.
  split; [apply handleRequest_echo | apply handleRequest_one_of].
Qed.

(** C1. The claim does not hold of the program: there are decoded requests
    for which the dispatcher returns no envelope at all.  The request of
    [TestHandleToolsCall_WithToolError], a call of [read_sheet] on a server
    whose client has no service, makes [handleToolsCall], and the dispatcher
    with it, panic on the nil pointer, where the claim and that test expect
    an envelope with an error.  The same happens with a service, for a call
    of [get_spreadsheet_info] on a spreadsheet one of whose sheets holds a
    chart. *)
Theorem tool_call_panics_without_envelope :
  Process.handleToolsCall Backend.addSheetRequest Backend.Marshal
    Backend.UnmarshalRequests Backend.Sprint Backend.bare
    (Samples.request (JNumber 8) "tools/call"
       (Samples.call "read_sheet"
          (JObject [("spreadsheet_id", JString "test-id")])))
  = OAuth.Panicked Sheets.nilDereference
  /\ Process.handleRequest Backend.addSheetRequest Backend.Marshal
       Backend.UnmarshalRequests Backend.Sprint Backend.bare
       (Samples.request (JNumber 8) "tools/call"
          (Samples.call "read_sheet"
             (JObject [("spreadsheet_id", JString "test-id")])))
     = OAuth.Panicked Sheets.nilDereference
  /\ Process.handleRequest Backend.addSheetRequest Backend.Marshal
       Backend.UnmarshalRequests Backend.Sprint Backend.server
       (Samples.request (JNumber 9) "tools/call"
          (Samples.call "get_spreadsheet_info"
             (JObject [("spreadsheet_id", JString "test-spreadsheet-id")])))
     = OAuth.Panicked Sheets.nilDereference.
Proof. repeat split. Qed.

Lemma wellFormedDescriptor_sound (tool : value) :
  wellFormedDescriptor tool = true -> WellFormedDescriptor tool.
Proof.
  unfold wellFormedDescriptor, WellFormedDescriptor.
  destruct (get "description" tool) as [[ | | | description | | ] | ] eqn:Ed;
    try discriminate.
  destruct (get "inputSchema" tool) as [schema | ] eqn:Es; try discriminate.
  destruct (get "type" schema) as [[ | | | type | | ] | ] eqn:Et;
    try discriminate.
  destruct (get "properties" schema) as [[ | | | | | properties] | ] eqn:Ep;
    try discriminate.
  destruct (get "required" schema) as [[ | | | | required | ] | ] eqn:Er;
    try discriminate.
  intros H.
  apply andb_prop in H as [H Hreq].
  apply andb_prop in H as [H Hprops].
  apply andb_prop in H as [Hdesc Htype].
  apply String.eqb_eq in Htype. subst type.
  exists description, schema, properties, required.
  split; [reflexivity | ].
  split; [intros ->; discriminate | ].
  split; [reflexivity | ].
  split; [exact Et | ].
  split; [exact Ep | ].
  split; [intros ->; discriminate | ].
  split; [exact Er | ].
  intros r Hr.
  rewrite forallb_forall in Hreq. specialize (Hreq r Hr).
  destruct r as [ | | | key | | ]; try discriminate.
  exists key. split; [reflexivity | ].
  simpl in Hreq. apply existsb_exists in Hreq as (k & Hin & Hk).
  apply String.eqb_eq in Hk. now subst k.
Qed.

Lemma handleRequest_tools_list (s : MCPServer) (req : MCPRequest) :
  req_Method req = "tools/list" -> handleRequest s req = handleToolsList s req.
Proof. intros H. unfold handleRequest. now rewrite H. Qed.

Lemma handleRequest_tools_call (s : MCPServer) (req : MCPRequest) :
  req_Method req = "tools/call" -> handleRequest s req = handleToolsCall s req.
Proof. intros H. unfold handleRequest. now rewrite H. Qed.

(** C2. For every [tools/list] request the handler returns exactly 8 tool
    descriptors, in the order read_sheet, write_sheet, append_sheet,
    create_spreadsheet, get_spreadsheet_info, add_sheet, clear_sheet,
    batch_update; each of them has a non-empty description, an input schema
    of type "object", a non-empty properties map and a required list whose
    entries are all keys of that map. *)
Theorem tools_list_catalog (s : MCPServer) (req : MCPRequest) :
  req_Method req = "tools/list" ->
  exists descriptors,
    handleRequest s req =
      {| JSONRPC := "2.0"; ID := req_ID req;
         Result := JObject [("tools", JArray descriptors)];
         Error := None |}
    /\ length descriptors = 8
    /\ map descriptorName descriptors =
         [Some "read_sheet"; Some "write_sheet"; Some "append_sheet";
          Some "create_spreadsheet"; Some "get_spreadsheet_info";
          Some "add_sheet"; Some "clear_sheet"; Some "batch_update"]
    /\ Forall WellFormedDescriptor descriptors.
Proof.
  intros Hm. exists tools.
  rewrite (handleRequest_tools_list s req Hm).
  split; [reflexivity | ].
  split; [reflexivity | ].
  split; [reflexivity | ].
  apply Forall_forall. intros tool Hin.
  apply wellFormedDescriptor_sound.
  assert (Hall : forallb wellFormedDescriptor tools = true)
    by (vm_compute; reflexivity).
  rewrite forallb_forall in Hall. now apply Hall.
Qed.

Lemma tools_list_catalog_witness :
  exists descriptors,
    handleRequest Samples.server
      (Samples.request (JNumber 2) "tools/list" nilRaw) =
      {| JSONRPC := "2.0"; ID := JNumber 2;
         Result := JObject [("tools", JArray descriptors)];
         Error := None |}
    /\ length descriptors = 8
    /\ map descriptorName descriptors =
         [Some "read_sheet"; Some "write_sheet"; Some "append_sheet";
          Some "create_spreadsheet"; Some "get_spreadsheet_info";
          Some "add_sheet"; Some "clear_sheet"; Some "batch_update"]
    /\ Forall WellFormedDescriptor descriptors.
Proof.
  apply (tools_list_catalog Samples.server
           (Samples.request (JNumber 2) "tools/list" nilRaw)).
  reflexivity.
Defined.

(** C3. For every request whose method is none of initialize, tools/list,
    tools/call and ping (compared exactly, letter case included), the
    dispatcher returns an error response with code -32601 whose message is
    "Method not found: " followed by the method string as given. *)
Theorem unknown_method_not_found (s : MCPServer) (req : MCPRequest) :
  ~ In (req_Method req) ["initialize"; "tools/list"; "tools/call"; "ping"] ->
  handleRequest s req =
    {| JSONRPC := "2.0"; ID := req_ID req; Result := JNull;
       Error := Some {| Code := -32601;
                        Message := "Method not found: " ++ req_Method req;
                        Data := JNull |} |}.
Proof.
  intros H. unfold handleRequest.
  repeat match goal with
  | |- context [String.eqb (req_Method req) ?k] =>
      destruct (String.eqb_spec (req_Method req) k) as [E | _];
      [ exfalso; apply H; rewrite E; simpl; tauto | ]
  end.
  reflexivity.
Qed.

Lemma unknown_method_not_found_witness :
  ~ In "Ping" ["initialize"; "tools/list"; "tools/call"; "ping"]
  /\ handleRequest Samples.server (Samples.request (JString "a") "Ping" nilRaw) =
      {| JSONRPC := "2.0"; ID := JString "a"; Result := JNull;
         Error := Some {| Code := -32601;
                          Message := "Method not found: Ping";
                          Data := JNull |} |}.
Proof.
  assert (H : ~ In "Ping" ["initialize"; "tools/list"; "tools/call"; "ping"]).
  { simpl. intros [E | [E | [E | [E | []]]]]; discriminate E. }
  split; [exact H | ].
  exact (unknown_method_not_found Samples.server
           (Samples.request (JString "a") "Ping" nilRaw) H).
Defined.

(** C4. For every [tools/call] request whose params decode to a
    {name, arguments} envelope and whose name is not one of the 8 registered
    tool names, the response is an error with code -32601 whose message is
    "Tool not found: " followed by the given name. *)
Theorem unknown_tool_not_found (s : MCPServer) (req : MCPRequest)
  (params : CallParams.t) :
  req_Method req = "tools/call" ->
  Unmarshal CallParams.set CallParams.typ (req_Params req) CallParams.zero
    = (params, None) ->
  ~ In (CallParams.Name params) toolNames ->
  handleRequest s req =
    {| JSONRPC := "2.0"; ID := req_ID req; Result := JNull;
       Error := Some {| Code := -32601;
                        Message := "Tool not found: " ++ CallParams.Name params;
                        Data := JNull |} |}.
Proof.
  intros Hm Hdec Hname.
  rewrite (handleRequest_tools_call s req Hm).
  unfold handleToolsCall. rewrite Hdec.
  now rewrite (toolHandler_None s _ Hname).
Qed.

Lemma unknown_tool_not_found_witness :
  handleRequest Samples.server
    (Samples.request (JNumber 7) "tools/call"
       (Samples.call "nonexistent_tool" (JObject []))) =
    {| JSONRPC := "2.0"; ID := JNumber 7; Result := JNull;
       Error := Some {| Code := -32601;
                        Message := "Tool not found: nonexistent_tool";
                        Data := JNull |} |}.
Proof.
  apply (unknown_tool_not_found Samples.server
           (Samples.request (JNumber 7) "tools/call"
              (Samples.call "nonexistent_tool" (JObject [])))
           {| CallParams.Name := "nonexistent_tool";
              CallParams.Arguments := Wellformed (JObject []) |}).
  - reflexivity.
  - reflexivity.
  - unfold toolNames. simpl.
    intros [E | [E | [E | [E | [E | [E | [E | [E | []]]]]]]]]; discriminate E.
Defined.

(** The response to a call whose handler returns an error. *)
Lemma handleToolsCall_handler_error (s : MCPServer) (req : MCPRequest)
  (params : CallParams.t) (handle : RawMessage -> GoResult)
  (result : option string) (e : error) :
  Unmarshal CallParams.set CallParams.typ (req_Params req) CallParams.zero
    = (params, None) ->
  toolHandler s (CallParams.Name params) = Some handle ->
  handle (CallParams.Arguments params) = (result, Some e) ->
  handleToolsCall s req = errorResponse (req_ID req) (-32000) (ErrorString e) JNull.
Proof.
  intros Hdec Htool Hrun. unfold handleToolsCall.
  now rewrite Hdec, Htool, Hrun.
Qed.

Lemma ArgumentsFail_handler (s : MCPServer) (name : string)
  (args : RawMessage) (e : error) :
  ArgumentsFail name args e ->
  exists handle,
    toolHandler s name = Some handle /\ handle args = (None, Some e).
Proof.
  intros H. destruct H as [args p e H | args p e H | args p e H | args p e H
                          | args p e H | args p e H | args p e H | args p e H];
    eexists; (split; [reflexivity | ]);
    match goal with
    | |- ?h s args = _ => unfold h
    end;
    now rewrite H.
Qed.

Lemma BackendFails_handler (s : MCPServer) (name : string)
  (args : RawMessage) (e : error) :
  BackendFails s name args e ->
  exists handle result,
    toolHandler s name = Some handle /\ handle args = (result, Some e).
Proof.
  intros H.
  destruct H as [args p r e H B | args p r e H B | args p r e H B
                | args p r e H B | args p r e H B | args p r e H B
                | args p r e H B | args p r e H B];
    eexists; exists r; (split; [reflexivity | ]);
    match goal with
    | |- ?h s args = _ => unfold h
    end;
    now rewrite H.
Qed.

(** C5. For every [tools/call] request that names a registered tool, if the
    arguments fail to decode against that tool's expected shape, or if they
    decode and the backend operation fails, the response is an error with
    code -32000 whose message is the description of that failure and which
    has no data field; an argument-shape failure is thus never reported with
    the invalid-params code -32602. *)
Theorem tool_failure_is_execution_failure (s : MCPServer) (req : MCPRequest)
  (params : CallParams.t) (e : error) :
  req_Method req = "tools/call" ->
  Unmarshal CallParams.set CallParams.typ (req_Params req) CallParams.zero
    = (params, None) ->
  ArgumentsFail (CallParams.Name params) (CallParams.Arguments params) e
  \/ BackendFails s (CallParams.Name params) (CallParams.Arguments params) e ->
  handleRequest s req =
    {| JSONRPC := "2.0"; ID := req_ID req; Result := JNull;
       Error := Some {| Code := -32000; Message := ErrorString e;
                        Data := JNull |} |}.
Proof.
  intros Hm Hdec Hfail.
  rewrite (handleRequest_tools_call s req Hm).
  destruct Hfail as [Hfail | Hfail].
  - destruct (ArgumentsFail_handler s _ _ _ Hfail) as (handle & Htool & Hrun).
    exact (handleToolsCall_handler_error s req params handle None e
             Hdec Htool Hrun).
  - destruct (BackendFails_handler s _ _ _ Hfail)
      as (handle & result & Htool & Hrun).
    exact (handleToolsCall_handler_error s req params handle result e
             Hdec Htool Hrun).
Qed.

Lemma tool_failure_is_execution_failure_witness :
  handleRequest Samples.server
    (Samples.request (JNumber 1) "tools/call"
       (Samples.call "read_sheet" (JObject [("spreadsheet_id", JNumber 5)]))) =
    {| JSONRPC := "2.0"; ID := JNumber 1; Result := JNull;
       Error := Some {| Code := -32000;
                        Message := ErrorString (UnmarshalTypeError "number"
                                                  "string" ""
                                                  "spreadsheet_id");
                        Data := JNull |} |}
  /\ handleRequest Samples.server
       (Samples.request (JNumber 8) "tools/call"
          (Samples.call "read_sheet"
             (JObject [("spreadsheet_id", JString "test-id")]))) =
       {| JSONRPC := "2.0"; ID := JNumber 8; Result := JNull;
          Error := Some {| Code := -32000; Message := "backend unavailable";
                           Data := JNull |} |}.
Proof.
  split.
  - apply (tool_failure_is_execution_failure Samples.server
             (Samples.request (JNumber 1) "tools/call"
                (Samples.call "read_sheet"
                   (JObject [("spreadsheet_id", JNumber 5)])))
             {| CallParams.Name := "read_sheet";
                CallParams.Arguments :=
                  Wellformed (JObject [("spreadsheet_id", JNumber 5)]) |}
             (UnmarshalTypeError "number" "string" "" "spreadsheet_id")).
    + reflexivity.
    + reflexivity.
    + left.
      apply (fail_read_sheet _
               {| ReadSheetParams.SpreadsheetID := "";
                  ReadSheetParams.Range := "" |}).
      reflexivity.
  - apply (tool_failure_is_execution_failure Samples.server
             (Samples.request (JNumber 8) "tools/call"
                (Samples.call "read_sheet"
                   (JObject [("spreadsheet_id", JString "test-id")])))
             {| CallParams.Name := "read_sheet";
                CallParams.Arguments :=
                  Wellformed (JObject [("spreadsheet_id", JString "test-id")]) |}
             (Errorf "backend unavailable")).
    + reflexivity.
    + reflexivity.
    + right.
      apply (backend_read_sheet Samples.server _
               {| ReadSheetParams.SpreadsheetID := "test-id";
                  ReadSheetParams.Range := "" |} None).
      * reflexivity.
      * reflexivity.
Defined.

(** Members that do not reach the name field, or that store the empty
    string into it, leave the decoded name empty and raise no error. *)
Lemma object_call_empty_name (ms : list (string * value)) :
  forall p : CallParams.t,
    (forall key v, In (key, v) ms -> matches key "name" = true ->
                   v = JString "") ->
    CallParams.Name p = "" ->
    exists p', object CallParams.set ms p = (p', None)
               /\ CallParams.Name p' = "".
Proof.
  induction ms as [ | [k v] ms IH]; intros p Hms Hp.
  - exists p. now split.
  - assert (Hrest : forall key v0, In (key, v0) ms ->
                      matches key "name" = true -> v0 = JString "")
      by (intros key v0 Hin; apply Hms; now right).
    simpl. unfold CallParams.set at 1.
    destruct (matches k "name") eqn:Ek.
    + rewrite (Hms k v (or_introl eq_refl) Ek). simpl.
      destruct (IH {| CallParams.Name := "";
                      CallParams.Arguments := CallParams.Arguments p |}
                  Hrest eq_refl) as (p' & Hobj & Hname).
      rewrite Hobj. now exists p'.
    + destruct (matches k "arguments").
      * destruct (IH {| CallParams.Name := CallParams.Name p;
                        CallParams.Arguments := Wellformed v |}
                    Hrest Hp) as (p' & Hobj & Hname).
        rewrite Hobj. now exists p'.
      * destruct (IH p Hrest Hp) as (p' & Hobj & Hname).
        rewrite Hobj. now exists p'.
Qed.

(** C10, as the code has it.  For every [tools/call] request whose params is
    a JSON object in which no key is the name field's, or in which every such
    key carries the empty string, the response is the tool-not-found error:
    code -32601, message "Tool not found: " with the empty name appended,
    and not the invalid-params code -32602.  A key is the name field's when
    it equals "name" up to letter case, which is how the decoder binds keys
    to fields. *)
Theorem missing_name_is_tool_not_found (s : MCPServer) (req : MCPRequest)
  (ms : list (string * value)) :
  req_Method req = "tools/call" ->
  req_Params req = Wellformed (JObject ms) ->
  (forall key v, In (key, v) ms -> matches key "name" = true ->
                 v = JString "") ->
  handleRequest s req =
    {| JSONRPC := "2.0"; ID := req_ID req; Result := JNull;
       Error := Some {| Code := -32601; Message := "Tool not found: ";
                        Data := JNull |} |}.
Proof.
  intros Hm Hp Hms.
  rewrite (handleRequest_tools_call s req Hm).
  unfold handleToolsCall. rewrite Hp. simpl Unmarshal.
  destruct (object_call_empty_name ms CallParams.zero Hms eq_refl)
    as (p' & Hobj & Hname).
  rewrite Hobj, Hname. reflexivity.
Qed.

Lemma missing_name_is_tool_not_found_witness :
  handleRequest Samples.server
    (Samples.request (JString "a") "tools/call"
       (Wellformed (JObject [("arguments",
                              JObject [("spreadsheet_id", JString "x")])]))) =
    {| JSONRPC := "2.0"; ID := JString "a"; Result := JNull;
       Error := Some {| Code := -32601; Message := "Tool not found: ";
                        Data := JNull |} |}
  /\ handleRequest Samples.server
       (Samples.request (JString "b") "tools/call"
          (Samples.call "" (JObject []))) =
       {| JSONRPC := "2.0"; ID := JString "b"; Result := JNull;
          Error := Some {| Code := -32601; Message := "Tool not found: ";
                           Data := JNull |} |}.
Proof.
  split.
  - apply (missing_name_is_tool_not_found Samples.server
             (Samples.request (JString "a") "tools/call"
                (Wellformed
                   (JObject [("arguments",
                              JObject [("spreadsheet_id", JString "x")])])))
             [("arguments", JObject [("spreadsheet_id", JString "x")])]).
    + reflexivity.
    + reflexivity.
    + intros key v [E | []] Hk. inversion E; subst. discriminate Hk.
  - apply (missing_name_is_tool_not_found Samples.server
             (Samples.request (JString "b") "tools/call"
                (Samples.call "" (JObject [])))
             [("name", JString ""); ("arguments", JObject [])]).
    + reflexivity.
    + reflexivity.
    + intros key v [E | [E | []]] Hk; inversion E; subst;
        [reflexivity | discriminate Hk].
Defined.

(** C10 as the claim words it fails: the object below has no member called
    "name", yet its member "Name" is decoded into the name field, the tool
    runs and the response carries a result. *)
Lemma capitalised_name_key_runs_the_tool :
  lookup "name"
    [("Name", JString "create_spreadsheet");
     ("arguments", JObject [("title", JString "Budget")])] = None
  /\ handleRequest Samples.server
       (Samples.request (JNumber 1) "tools/call"
          (Wellformed
             (JObject [("Name", JString "create_spreadsheet");
                       ("arguments", JObject [("title", JString "Budget")])])))
     = {| JSONRPC := "2.0"; ID := JNumber 1;
          Result := JObject [
            ("content", JArray [
               JObject [("type", JString "text");
                        ("text", JString "map[title:Budget]")]])];
          Error := None |}.
Proof. split; reflexivity. Qed.

(** ** Encoding and decoding a response *)









End MCPFacts.

(* ------------------------------------------------------------------------- *)
(** * Properties of the credential lifecycle                                 *)
(* ------------------------------------------------------------------------- *)

Module OAuthFacts.
Import Json OAuth.

Lemma Get_Set_same (k v : string) (q : list (string * string)) :
  oauth2.Get k (oauth2.Set_ k v q) = Some v.
Proof.
  induction q as [ | [k' v'] q IH]; simpl.
  - now rewrite String.eqb_refl.
  - destruct (String.eqb k k') eqn:E; simpl.
    + now rewrite String.eqb_refl.
    + now rewrite E.
Qed.

Lemma Get_Set_other (k k0 v : string) (q : list (string * string)) :
  k <> k0 -> oauth2.Get k (oauth2.Set_ k0 v q) = oauth2.Get k q.
Proof.
  intros Hne. induction q as [ | [k' v'] q IH]; simpl.
  - destruct (String.eqb_spec k k0); [contradiction | reflexivity].
  - destruct (String.eqb_spec k0 k') as [E | E]; simpl.
    + subst k'. destruct (String.eqb_spec k k0); [contradiction | reflexivity].
    + destruct (String.eqb k k'); [reflexivity | exact IH].
Qed.

(** The URL of the handshake carries the state the package passes, the
    request for offline access and the forced consent, whatever the
    configuration. *)
Lemma AuthCodeURL_parameters (config : oauth2.Config) (state : string) :
  state <> "" ->
  let url := oauth2.AuthCodeURL config state
               [oauth2.AccessTypeOffline; oauth2.ApprovalForce] in
  oauth2.Get "state" (oauth2.query url) = Some state
  /\ oauth2.Get "access_type" (oauth2.query url) = Some "offline"
  /\ oauth2.Get "prompt" (oauth2.query url) = Some "consent".
Proof.
  intros Hstate. unfold oauth2.AuthCodeURL. cbn [oauth2.query fold_left].
  unfold oauth2.AccessTypeOffline, oauth2.ApprovalForce. cbn [fst snd].
  destruct (String.eqb_spec state "") as [E | _]; [contradiction | ].
  split; [ | split].
  - rewrite Get_Set_other by discriminate.
    rewrite Get_Set_other by discriminate.
    apply Get_Set_same.
  - rewrite Get_Set_other by discriminate. apply Get_Set_same.
  - apply Get_Set_same.
Qed.

(** ** Stepping through a computation *)

Lemma bind_returned {A B : Type} (m : M A) (k : A -> M B) (w w' : World)
  (r : B) :
  bind m k w = (Returned r, w') ->
  exists a w1, m w = (Returned a, w1) /\ k a w1 = (Returned r, w').
Proof.
  unfold bind. destruct (m w) as [[a | msg] w1]; [ | discriminate].
  intros H. now exists a, w1.
Qed.

Lemma HandleFunc_returned (pattern : string) (w w1 : World) (u : unit) :
  HandleFunc pattern w = (Returned u, w1) -> w1 = register pattern w.
Proof.
  unfold HandleFunc. destruct (existsb _ _); [discriminate | ].
  intros H. now inversion H.
Qed.

Lemma ListenAndServe_returned (ev : Event) (w w1 : World) (u : unit) :
  ListenAndServe ev w = (Returned u, w1) -> exists st, w1 = turn st w.
Proof.
  destruct ev; unfold ListenAndServe, setServer, ret; intros H;
    inversion H; subst.
  - now exists Serving.
  - exists (server w1). now destruct w1.
  - now exists Serving.
Qed.

Lemma Println_returned (text : string) (w w1 : World) (u : unit) :
  Println text w = (Returned u, w1) -> w1 = write (Line text) w.
Proof. unfold Println. intros H. now inversion H. Qed.

Lemma PrintURL_returned (url : oauth2.URL) (w w1 : World) (u : unit) :
  PrintURL url w = (Returned u, w1) -> w1 = write (VisitURL url) w.
Proof. unfold PrintURL. intros H. now inversion H. Qed.

Lemma Shutdown_then_ret {A : Type} (a r : A) (w w' : World) :
  (Shutdown ;; ret a) w = (Returned r, w') -> w' = turn Closed w.
Proof. unfold bind, Shutdown, setServer, ret. intros H. now inversion H. Qed.

Lemma stdout_write (o : Output) (w : World) :
  stdout (write o w) = (stdout w ++ [o])%list.
Proof. reflexivity. Qed.

Lemma stdout_turn (st : ServerState) (w : World) :
  stdout (turn st w) = stdout w.
Proof. reflexivity. Qed.

Lemma stdout_register (pattern : string) (w : World) :
  stdout (register pattern w) = stdout w.
Proof. reflexivity. Qed.

(** What a handshake that returns has done to the world: the callback
    pattern is registered, six lines are written, the fourth one with the
    URL, and the server is closed. *)
Lemma getTokenFromWeb_returned
  (Exchange : oauth2.Config -> string -> error + oauth2.Token)
  (c : Config.t) (config : oauth2.Config) (ev : Event) (w w' : World)
  (r : error + oauth2.Token) :
  getTokenFromWeb Exchange c config ev w = (Returned r, w') ->
  server w' = Closed
  /\ stdout w' =
       (stdout w ++
        [Line (newline ++ Repeat "=" 80);
         Line "GOOGLE OAUTH AUTHENTICATION REQUIRED";
         Line (Repeat "=" 80);
         VisitURL (oauth2.AuthCodeURL config "state-token"
                     [oauth2.AccessTypeOffline; oauth2.ApprovalForce]);
         Line "Waiting for authorization...";
         Line (Repeat "=" 80 ++ newline)])%list.
Proof.
  unfold getTokenFromWeb. intros H.
  apply bind_returned in H as (u0 & w0 & H0 & H).
  apply HandleFunc_returned in H0.
  apply bind_returned in H as (u1 & w1 & H1 & H).
  apply ListenAndServe_returned in H1 as (st & H1).
  apply bind_returned in H as (u2 & w2 & H2 & H).
  apply Println_returned in H2.
  apply bind_returned in H as (u3 & w3 & H3 & H).
  apply Println_returned in H3.
  apply bind_returned in H as (u4 & w4 & H4 & H).
  apply Println_returned in H4.
  apply bind_returned in H as (u5 & w5 & H5 & H).
  apply PrintURL_returned in H5.
  apply bind_returned in H as (u6 & w6 & H6 & H).
  apply Println_returned in H6.
  apply bind_returned in H as (u7 & w7 & H7 & H).
  apply Println_returned in H7.
  assert (Hend : w' = turn Closed w7).
  { destruct (signal ev) as [code | err | ].
    - destruct (Exchange config code) as [err | token];
        exact (Shutdown_then_ret _ _ _ _ H).
    - exact (Shutdown_then_ret _ _ _ _ H).
    - exact (Shutdown_then_ret _ _ _ _ H). }
  split.
  - rewrite Hend. reflexivity.
  - rewrite Hend, stdout_turn, H7, stdout_write, H6, stdout_write, H5,
      stdout_write, H4, stdout_write, H3, stdout_write, H2, stdout_write,
      H1, stdout_turn, H0, stdout_register.
    repeat rewrite <- app_assoc. reflexivity.
Qed.

Lemma emittedURLs_app (w w' : World) (out : list Output) :
  stdout w' = (stdout w ++ out)%list ->
  emittedURLs w' =
    (emittedURLs w ++
     flat_map (fun o => match o with
                        | VisitURL url => [url]
                        | Line _ => []
                        end) out)%list.
Proof. intros H. unfold emittedURLs. now rewrite H, flat_map_app. Qed.

(** A handshake returns unless the callback pattern was registered before,
    in which case [http.HandleFunc] panics and nothing else happens. *)
Lemma getTokenFromWeb_terminates
  (Exchange : oauth2.Config -> string -> error + oauth2.Token)
  (c : Config.t) (config : oauth2.Config) (ev : Event) (w : World) :
  if existsb (String.eqb "/oauth/callback") (patterns w)
  then getTokenFromWeb Exchange c config ev w =
         (Panicked "http: multiple registrations for /oauth/callback", w)
  else exists r w', getTokenFromWeb Exchange c config ev w = (Returned r, w').
Proof.
  destruct (existsb _ (patterns w)) eqn:E;
    unfold getTokenFromWeb, bind at 1, HandleFunc; cbv beta; rewrite E.
  - reflexivity.
  - unfold bind, Println, PrintURL, Shutdown, setServer, ret.
    destruct ev as [code | err | ];
      unfold ListenAndServe, setServer, ret, signal.
    + destruct (String.eqb code ""); [eexists; eexists; reflexivity | ].
      destruct (Exchange config code); eexists; eexists; reflexivity.
    + eexists; eexists; reflexivity.
    + eexists; eexists; reflexivity.
Qed.

(** C7, as the code has it.  In every run of the handshake that returns,
    exactly one authorization URL is written for the operator, and its state
    parameter is the fixed text "state-token" (next to the request for
    offline access and the forced consent); the token is the same in every
    session. *)
Theorem handshake_state_token_is_fixed
  (Exchange : oauth2.Config -> string -> error + oauth2.Token)
  (c : Config.t) (config : oauth2.Config) (ev : Event) (w w' : World)
  (r : error + oauth2.Token) :
  getTokenFromWeb Exchange c config ev w = (Returned r, w') ->
  exists url,
    emittedURLs w' = (emittedURLs w ++ [url])%list
    /\ oauth2.Get "state" (oauth2.query url) = Some "state-token"
    /\ oauth2.Get "access_type" (oauth2.query url) = Some "offline"
    /\ oauth2.Get "prompt" (oauth2.query url) = Some "consent".
Proof.
  intros H.
  destruct (getTokenFromWeb_returned Exchange c config ev w w' r H)
    as [_ Hout].
  exists (oauth2.AuthCodeURL config "state-token"
            [oauth2.AccessTypeOffline; oauth2.ApprovalForce]).
  split.
  - rewrite (emittedURLs_app w w' _ Hout). reflexivity.
  - apply AuthCodeURL_parameters. discriminate.
Qed.

Lemma handshake_state_token_is_fixed_witness :
  exists url,
    emittedURLs
      (snd (getTokenFromWeb Samples.Exchange Samples.configA
              (GetOAuthConfig Samples.configA) (Callback "4/good")
              Samples.fresh)) = [url]
    /\ oauth2.Get "state" (oauth2.query url) = Some "state-token"
    /\ oauth2.Get "access_type" (oauth2.query url) = Some "offline"
    /\ oauth2.Get "prompt" (oauth2.query url) = Some "consent".
Proof.
  apply (handshake_state_token_is_fixed Samples.Exchange Samples.configA
           (GetOAuthConfig Samples.configA) (Callback "4/good")
           Samples.fresh
           (snd (getTokenFromWeb Samples.Exchange Samples.configA
                   (GetOAuthConfig Samples.configA) (Callback "4/good")
                   Samples.fresh))
           (inr Samples.token)).
  reflexivity.
Defined.

(** C7 as the claim words it fails: two independent sessions, of different
    installations and resolved differently, embed the same state token. *)
Lemma state_token_repeats_across_sessions :
  emittedStates
    (snd (getTokenFromWeb Samples.Exchange Samples.configA
            (GetOAuthConfig Samples.configA) (Callback "4/good")
            Samples.fresh)) = ["state-token"]
  /\ emittedStates
       (snd (getTokenFromWeb Samples.Exchange Samples.configB
               (GetOAuthConfig Samples.configB) Cancelled
               Samples.fresh)) = ["state-token"].
Proof. split; vm_compute; reflexivity. Qed.

(** C8. In every execution of the handshake, whichever way it is resolved
    (a callback with a code followed by a successful or by a failed
    exchange, a callback without a code, a listener that fails to start, a
    cancelled context), the callback server is shut down when the handshake
    returns; and in a process that has not registered the callback pattern
    before, the handshake does return. *)
Theorem handshake_shuts_listener_down
  (Exchange : oauth2.Config -> string -> error + oauth2.Token)
  (c : Config.t) (config : oauth2.Config) (ev : Event) (w : World) :
  (forall r w', getTokenFromWeb Exchange c config ev w = (Returned r, w') ->
                server w' = Closed)
  /\ (existsb (String.eqb "/oauth/callback") (patterns w) = false ->
      exists r w', getTokenFromWeb Exchange c config ev w = (Returned r, w')
                   /\ server w' = Closed).
Proof.
  split.
  - intros r w' H.
    exact (proj1 (getTokenFromWeb_returned Exchange c config ev w w' r H)).
  - intros Hfresh.
    pose proof (getTokenFromWeb_terminates Exchange c config ev w) as Hterm.
    rewrite Hfresh in Hterm. destruct Hterm as (r & w' & H).
    exists r, w'. split; [exact H | ].
    exact (proj1 (getTokenFromWeb_returned Exchange c config ev w w' r H)).
Qed.

Lemma handshake_shuts_listener_down_witness :
  Forall (fun ev =>
            exists r w',
              getTokenFromWeb Samples.Exchange Samples.configA
                (GetOAuthConfig Samples.configA) ev Samples.fresh
              = (Returned r, w')
              /\ server w' = Closed) Samples.terminalPaths.
Proof.
  apply Forall_forall. intros ev _.
  apply (proj2 (handshake_shuts_listener_down Samples.Exchange Samples.configA
                  (GetOAuthConfig Samples.configA) ev Samples.fresh)).
  reflexivity.
Defined.

Lemma loadToken_reads_only
  (decodeToken : string -> error + oauth2.Token) (c : Config.t) (w : World) :
  snd (loadToken decodeToken c w) = w
  /\ exists r, fst (loadToken decodeToken c w) = Returned r.
Proof.
  unfold loadToken, bind, ReadFile, ret.
  destruct (files w (Config.TokenFile c)); split; try reflexivity;
    eexists; reflexivity.
Qed.

(** C9. Whenever loading the stored token record succeeds, [GetClient]
    returns a client built from that record and leaves the world as it was:
    the handshake is not entered, no authorization URL is written and no
    callback listener is bound (nor any pattern registered). *)
Theorem stored_token_skips_handshake
  (decodeToken : string -> error + oauth2.Token)
  (encodeToken : oauth2.Token -> string)
  (Exchange : oauth2.Config -> string -> error + oauth2.Token)
  (c : Config.t) (ev : Event) (w : World) (token : oauth2.Token) :
  fst (loadToken decodeToken c w) = Returned (inr token) ->
  GetClient decodeToken encodeToken Exchange c ev w =
    (Returned (inr {| oauth2.client_config := GetOAuthConfig c;
                      oauth2.client_token := token |}), w)
  /\ emittedURLs (snd (GetClient decodeToken encodeToken Exchange c ev w))
       = emittedURLs w
  /\ server (snd (GetClient decodeToken encodeToken Exchange c ev w))
       = server w
  /\ patterns (snd (GetClient decodeToken encodeToken Exchange c ev w))
       = patterns w.
Proof.
  intros Hload.
  assert (Hrun : GetClient decodeToken encodeToken Exchange c ev w =
                   (Returned (inr {| oauth2.client_config := GetOAuthConfig c;
                                     oauth2.client_token := token |}), w)).
  { destruct (loadToken_reads_only decodeToken c w) as [Hw _].
    unfold GetClient, bind.
    destruct (loadToken decodeToken c w) as [out w1].
    simpl in Hload, Hw. subst out w1. reflexivity. }
  rewrite Hrun. repeat split; reflexivity.
Qed.

Lemma stored_token_skips_handshake_witness :
  GetClient Samples.decodeToken Samples.encodeToken Samples.Exchange
    Samples.configA Cancelled Samples.stored =
    (Returned (inr {| oauth2.client_config := GetOAuthConfig Samples.configA;
                      oauth2.client_token := Samples.token |}),
     Samples.stored).
Proof.
  apply (stored_token_skips_handshake Samples.decodeToken Samples.encodeToken
           Samples.Exchange Samples.configA Cancelled Samples.stored
           Samples.token).
  reflexivity.
Defined.

End OAuthFacts.

(* ------------------------------------------------------------------------- *)
(** * Further properties of the protocol engine                              *)
(* ------------------------------------------------------------------------- *)

Module MCPMore.
Import Json MCP.

(** ** Which params the executor rejects *)

Lemma object_call_error (ms : list (string * value)) :
  forall p : CallParams.t,
    snd (object CallParams.set ms p) = None <->
    (forall key v, In (key, v) ms -> matches key "name" = true ->
                   storesInString v = true).
Proof.
  induction ms as [ | [k v] ms IH]; intros p.
  - simpl. split; [intros _ key v [] | reflexivity].
  - simpl. unfold CallParams.set at 1.
    destruct (matches k "name") eqn:Ek.
    + destruct (storeString "name" v (CallParams.Name p)) as [x e] eqn:Es.
      specialize (IH {| CallParams.Name := x;
                        CallParams.Arguments := CallParams.Arguments p |}).
      destruct (object CallParams.set ms _) as [p2 e2]. simpl in IH |- *.
      split.
      * intros H key v0 [E | Hin] Hk.
        -- inversion E; subst.
           destruct v0; simpl in Es; inversion Es; subst;
             try discriminate H; reflexivity.
        -- destruct e as [e | ]; [discriminate H | ].
           simpl in H. apply (proj1 IH H key v0 Hin Hk).
      * intros H.
        assert (Hv : storesInString v = true)
          by (apply (H k v); [now left | exact Ek]).
        assert (He : e = None)
          by (destruct v; simpl in Es; inversion Es; subst;
              try discriminate Hv; reflexivity).
        subst e. simpl. apply (proj2 IH).
        intros key v0 Hin. apply H. now right.
    + assert (Hpass : forall q : CallParams.t,
                snd (object CallParams.set ms q) = None <->
                (forall key v0, In (key, v0) ((k, v) :: ms) ->
                                matches key "name" = true ->
                                storesInString v0 = true)).
      { intros q. rewrite (IH q). split.
        - intros H key v0 [E | Hin] Hk.
          + inversion E; subst. rewrite Ek in Hk. discriminate Hk.
          + now apply (H key v0).
        - intros H key v0 Hin. apply H. now right. }
      destruct (matches k "arguments").
      * specialize (Hpass {| CallParams.Name := CallParams.Name p;
                             CallParams.Arguments := Wellformed v |}).
        destruct (object CallParams.set ms _) as [p2 e2]. exact Hpass.
      * specialize (Hpass p).
        destruct (object CallParams.set ms p) as [p2 e2]. exact Hpass.
Qed.

Lemma call_params_decode (params : RawMessage) :
  snd (Unmarshal CallParams.set CallParams.typ params CallParams.zero) = None
  <-> acceptable params.
Proof.
  destruct params as [msg | v]; simpl.
  - split; [discriminate | contradiction].
  - destruct v; simpl; try (split; [discriminate | contradiction]).
    + split; [trivial | reflexivity].
    + apply object_call_error.
Qed.

(** X1. A [tools/call] request is answered with the invalid-params error
    (code -32602, message "Invalid params", the decoder's description as
    data) exactly when its params are not acceptable to the envelope decoder:
    absent or malformed, a JSON value other than an object or null, or an
    object with a member for the name field that is neither a string nor
    null.  Acceptable params never give that code. *)
Theorem invalid_params_iff (s : MCPServer) (req : MCPRequest) :
  req_Method req = "tools/call" ->
  (~ acceptable (req_Params req) ->
   exists err,
     handleRequest s req =
       {| JSONRPC := "2.0"; ID := req_ID req; Result := JNull;
          Error := Some {| Code := -32602; Message := "Invalid params";
                           Data := JString (ErrorString err) |} |})
  /\ (acceptable (req_Params req) ->
      forall e, Error (handleRequest s req) = Some e -> Code e <> (-32602)%Z).
Proof.
  intros Hm.
  rewrite (MCPFacts.handleRequest_tools_call s req Hm).
  unfold handleToolsCall.
  pose proof (call_params_decode (req_Params req)) as Hdec.
  destruct (Unmarshal CallParams.set CallParams.typ (req_Params req)
              CallParams.zero) as [params [err | ]]; simpl in Hdec.
  - split.
    + intros _. now exists err.
    + intros Hacc. apply Hdec in Hacc. discriminate Hacc.
  - split.
    + intros Hnot. exfalso. apply Hnot. now apply Hdec.
    + intros _ e.
      destruct (toolHandler s (CallParams.Name params)) as [h | ].
      * destruct (h (CallParams.Arguments params)) as [result [e0 | ]];
          intros H; inversion H; subst; simpl; discriminate.
      * intros H; inversion H; subst; simpl; discriminate.
Qed.

Lemma invalid_params_iff_witness :
  exists err,
    handleRequest Samples.server
      (Samples.request (JNumber 6) "tools/call"
         (Wellformed (JObject [("name", JNumber 5);
                               ("name", JString "read_sheet")]))) =
      {| JSONRPC := "2.0"; ID := JNumber 6; Result := JNull;
         Error := Some {| Code := -32602; Message := "Invalid params";
                          Data := JString (ErrorString err) |} |}.
Proof.
  apply (proj1 (invalid_params_iff Samples.server
                  (Samples.request (JNumber 6) "tools/call"
                     (Wellformed (JObject [("name", JNumber 5);
                                           ("name", JString "read_sheet")])))
                  eq_refl)).
  intros H. specialize (H "name" (JNumber 5) (or_introl eq_refl) eq_refl).
  discriminate H.
Defined.

(** X2. A [tools/call] request is answered without an error exactly when its
    params decode, the name selects a handler and the handler returns a nil
    error; the result is then one content element of type "text" whose text
    is the handler's result as [%v] prints it. *)
Theorem tool_success_iff (s : MCPServer) (req : MCPRequest) :
  req_Method req = "tools/call" ->
  (Error (handleRequest s req) = None <->
   exists params handle result,
     Unmarshal CallParams.set CallParams.typ (req_Params req) CallParams.zero
       = (params, None)
     /\ toolHandler s (CallParams.Name params) = Some handle
     /\ handle (CallParams.Arguments params) = (result, None))
  /\ (forall params handle result,
        Unmarshal CallParams.set CallParams.typ (req_Params req)
          CallParams.zero = (params, None) ->
        toolHandler s (CallParams.Name params) = Some handle ->
        handle (CallParams.Arguments params) = (result, None) ->
        handleRequest s req =
          {| JSONRPC := "2.0"; ID := req_ID req;
             Result := JObject [
               ("content", JArray [
                  JObject [("type", JString "text");
                           ("text", JString (Sprintv result))]])];
             Error := None |}).
Proof.
  intros Hm.
  rewrite (MCPFacts.handleRequest_tools_call s req Hm).
  unfold handleToolsCall.
  destruct (Unmarshal CallParams.set CallParams.typ (req_Params req)
              CallParams.zero) as [params [err | ]].
  - split.
    + split; [discriminate | ].
      intros (p & h & r & H & _). discriminate H.
    + intros p h r H. discriminate H.
  - destruct (toolHandler s (CallParams.Name params)) as [h | ] eqn:Eh.
    + destruct (h (CallParams.Arguments params)) as [result [e0 | ]] eqn:Er.
      * split.
        -- split; [discriminate | ].
           intros (p & h' & r & H & Hh & Hr).
           inversion H; subst p. rewrite Eh in Hh. inversion Hh; subst h'.
           rewrite Er in Hr. discriminate Hr.
        -- intros p h' r H Hh Hr.
           inversion H; subst p. rewrite Eh in Hh. inversion Hh; subst h'.
           rewrite Er in Hr. discriminate Hr.
      * split.
        -- split; [ | reflexivity].
           intros _. now exists params, h, result.
        -- intros p h' r H Hh Hr.
           inversion H; subst p. rewrite Eh in Hh. inversion Hh; subst h'.
           rewrite Er in Hr. now inversion Hr.
    + split.
      * split; [discriminate | ].
        intros (p & h' & r & H & Hh & _).
        inversion H; subst p. rewrite Eh in Hh. discriminate Hh.
      * intros p h' r H Hh. inversion H; subst p. rewrite Eh in Hh.
        discriminate Hh.
Qed.

Lemma tool_success_iff_witness :
  handleRequest Samples.server
    (Samples.request (JString "c") "tools/call"
       (Samples.call "create_spreadsheet"
          (JObject [("title", JString "Budget")]))) =
    {| JSONRPC := "2.0"; ID := JString "c";
       Result := JObject [
         ("content", JArray [
            JObject [("type", JString "text");
                     ("text", JString "map[title:Budget]")]])];
       Error := None |}.
Proof.
  apply (proj2 (tool_success_iff Samples.server
                  (Samples.request (JString "c") "tools/call"
                     (Samples.call "create_spreadsheet"
                        (JObject [("title", JString "Budget")])))
                  eq_refl)
           {| CallParams.Name := "create_spreadsheet";
              CallParams.Arguments :=
                Wellformed (JObject [("title", JString "Budget")]) |}
           (handleCreateSpreadsheet Samples.server)
           (Some "map[title:Budget]")); reflexivity.
Defined.

(** X3. The error objects of the dispatcher come in three shapes: code
    -32601 without data (unknown method or tool), code -32602 with the
    message "Invalid params" and a text as data, code -32000 without data
    (a failed tool).  Only the invalid-params error carries data. *)
Theorem error_object_shapes (s : MCPServer) (req : MCPRequest) (e : MCPError) :
  Error (handleRequest s req) = Some e ->
  (Code e = (-32601)%Z /\ Data e = JNull)
  \/ (Code e = (-32602)%Z /\ Message e = "Invalid params"
      /\ exists text, Data e = JString text)
  \/ (Code e = (-32000)%Z /\ Data e = JNull).
Proof.
  unfold handleRequest.
  destruct (_ =? "initialize"); [discriminate | ].
  destruct (_ =? "tools/list"); [discriminate | ].
  destruct (_ =? "tools/call").
  - unfold handleToolsCall.
    destruct (Unmarshal _ _ _ _) as [params [e0 | ]].
    + intros H; inversion H; subst. right; left.
      repeat split. now eexists.
    + destruct (toolHandler _ _) as [h | ].
      * destruct (h _) as [result [e0 | ]]; [ | discriminate].
        intros H; inversion H; subst. right; right. now split.
      * intros H; inversion H; subst. left. now split.
  - destruct (_ =? "ping"); [discriminate | ].
    intros H; inversion H; subst. left. now split.
Qed.

Lemma error_object_shapes_witness :
  (Code {| Code := -32602; Message := "Invalid params";
           Data := JString "unexpected end of JSON input" |} = (-32601)%Z
   /\ Data {| Code := -32602; Message := "Invalid params";
              Data := JString "unexpected end of JSON input" |} = JNull)
  \/ (Code {| Code := -32602; Message := "Invalid params";
              Data := JString "unexpected end of JSON input" |} = (-32602)%Z
      /\ Message {| Code := -32602; Message := "Invalid params";
                    Data := JString "unexpected end of JSON input" |}
         = "Invalid params"
      /\ exists text,
           Data {| Code := -32602; Message := "Invalid params";
                   Data := JString "unexpected end of JSON input" |}
           = JString text)
  \/ (Code {| Code := -32602; Message := "Invalid params";
              Data := JString "unexpected end of JSON input" |} = (-32000)%Z
      /\ Data {| Code := -32602; Message := "Invalid params";
                 Data := JString "unexpected end of JSON input" |} = JNull).
Proof.
  apply (error_object_shapes Samples.server
           (Samples.request (JNumber 1) "tools/call" nilRaw)).
  reflexivity.
Defined.

(** X4. The registry and the executor agree: a name selects a handler in
    [handleToolsCall] exactly when [tools/list] lists a descriptor of that
    name. *)
Theorem registry_matches_dispatch (s : MCPServer) (name : string) :
  (exists handle, toolHandler s name = Some handle)
  <-> In (Some name) (map descriptorName tools).
Proof.
  change (map descriptorName tools) with (map Some toolNames).
  split.
  - intros (h & Hh).
    destruct (in_dec string_dec name toolNames) as [Hin | Hout].
    + now apply in_map.
    + rewrite (MCPFacts.toolHandler_None s name Hout) in Hh. discriminate Hh.
  - intros Hin. apply in_map_iff in Hin as (n & E & Hin).
    inversion E; subst n. now apply MCPFacts.toolHandler_Some.
Qed.

(** ** Arguments that name no field *)

Ltac skip_unknown_members set :=
  let k := fresh "k" in
  let v := fresh "v" in
  let ms := fresh "ms" in
  let IH := fresh "IH" in
  let H := fresh "H" in
  let p := fresh "p" in
  intros ms; induction ms as [ | [k v] ms IH]; intros H p;
  [ reflexivity | ];
  cbn [object]; unfold set at 1;
  repeat match goal with
  | |- context [matches k ?tag] =>
      rewrite (H k v (or_introl eq_refl) tag) by (simpl; tauto)
  end;
  rewrite IH by (intros key v0 Hin; apply (H key v0); now right);
  reflexivity.

Lemma ReadSheetParams_unknown :
  forall (ms : list (string * value)),
    unknownTo argumentTags ms ->
    forall p, object ReadSheetParams.set ms p = (p, None).
Proof. skip_unknown_members ReadSheetParams.set. Qed.

Lemma WriteSheetParams_unknown :
  forall (ms : list (string * value)),
    unknownTo argumentTags ms ->
    forall p, object WriteSheetParams.set ms p = (p, None).
Proof. skip_unknown_members WriteSheetParams.set. Qed.

Lemma AppendSheetParams_unknown :
  forall (ms : list (string * value)),
    unknownTo argumentTags ms ->
    forall p, object AppendSheetParams.set ms p = (p, None).
Proof. skip_unknown_members AppendSheetParams.set. Qed.

Lemma CreateSpreadsheetParams_unknown :
  forall (ms : list (string * value)),
    unknownTo argumentTags ms ->
    forall p, object CreateSpreadsheetParams.set ms p = (p, None).
Proof. skip_unknown_members CreateSpreadsheetParams.set. Qed.

Lemma GetSpreadsheetInfoParams_unknown :
  forall (ms : list (string * value)),
    unknownTo argumentTags ms ->
    forall p, object GetSpreadsheetInfoParams.set ms p = (p, None).
Proof. skip_unknown_members GetSpreadsheetInfoParams.set. Qed.

Lemma AddSheetParams_unknown :
  forall (ms : list (string * value)),
    unknownTo argumentTags ms ->
    forall p, object AddSheetParams.set ms p = (p, None).
Proof. skip_unknown_members AddSheetParams.set. Qed.

Lemma ClearSheetParams_unknown :
  forall (ms : list (string * value)),
    unknownTo argumentTags ms ->
    forall p, object ClearSheetParams.set ms p = (p, None).
Proof. skip_unknown_members ClearSheetParams.set. Qed.

Lemma BatchUpdateParams_unknown :
  forall (ms : list (string * value)),
    unknownTo argumentTags ms ->
    forall p, object BatchUpdateParams.set ms p = (p, None).
Proof. skip_unknown_members BatchUpdateParams.set. Qed.

(** X5. The executor does not enforce the required list of a schema and
    ignores members it has no field for: when the arguments are null, or an
    object none of whose keys reaches a field (the empty object included),
    every handler calls its backend operation with zero values, the empty
    string and the empty list. *)
Theorem missing_arguments_reach_backend (s : MCPServer) (args : RawMessage) :
  args = Wellformed JNull
  \/ (exists ms, args = Wellformed (JObject ms) /\ unknownTo argumentTags ms) ->
  handleReadSheet s args = ReadSheet (sheetsClient s) "" ""
  /\ handleWriteSheet s args = WriteSheet (sheetsClient s) "" "" []
  /\ handleAppendSheet s args = AppendSheet (sheetsClient s) "" "" []
  /\ handleCreateSpreadsheet s args = CreateSpreadsheet (sheetsClient s) "" []
  /\ handleGetSpreadsheetInfo s args = GetSpreadsheetInfo (sheetsClient s) ""
  /\ handleAddSheet s args = AddSheet (sheetsClient s) "" ""
  /\ handleClearSheet s args = ClearSheet (sheetsClient s) "" ""
  /\ handleBatchUpdate s args = BatchUpdate (sheetsClient s) "" [].
Proof.
  intros [-> | (ms & -> & Hms)].
  - repeat split; reflexivity.
  - unfold handleReadSheet, handleWriteSheet, handleAppendSheet,
      handleCreateSpreadsheet, handleGetSpreadsheetInfo, handleAddSheet,
      handleClearSheet, handleBatchUpdate, Unmarshal.
    rewrite (ReadSheetParams_unknown ms Hms),
      (WriteSheetParams_unknown ms Hms), (AppendSheetParams_unknown ms Hms),
      (CreateSpreadsheetParams_unknown ms Hms),
      (GetSpreadsheetInfoParams_unknown ms Hms),
      (AddSheetParams_unknown ms Hms), (ClearSheetParams_unknown ms Hms),
      (BatchUpdateParams_unknown ms Hms).
    repeat split; reflexivity.
Qed.

Lemma missing_arguments_reach_backend_witness :
  handleReadSheet Samples.server
    (Wellformed (JObject [("spreadsheetId", JString "abc")]))
    = ReadSheet (sheetsClient Samples.server) "" "".
Proof.
  apply (missing_arguments_reach_backend Samples.server
           (Wellformed (JObject [("spreadsheetId", JString "abc")]))).
  right. exists [("spreadsheetId", JString "abc")].
  split; [reflexivity | ].
  intros key v [E | []] tag Htag. inversion E; subst.
  simpl in Htag.
  repeat destruct Htag as [<- | Htag]; try reflexivity. contradiction.
Defined.

(** X6. The answers to initialize, tools/list and ping depend on the
    identifier only: the params, the protocol tag of the request and the
    backend play no part. *)
Theorem fixed_methods_depend_on_id_only (s s' : MCPServer)
  (req req' : MCPRequest) :
  In (req_Method req) ["initialize"; "tools/list"; "ping"] ->
  req_Method req' = req_Method req ->
  req_ID req' = req_ID req ->
  handleRequest s' req' = handleRequest s req.
Proof.
  intros Hin Hm Hid. unfold handleRequest. rewrite Hm.
  simpl in Hin. destruct Hin as [E | [E | [E | []]]]; rewrite <- E; simpl;
    unfold handleInitialize, handleToolsList; now rewrite Hid.
Qed.

Lemma fixed_methods_depend_on_id_only_witness :
  handleRequest Samples.server
    (Samples.request (JNumber 1) "ping" (Wellformed (JArray [JBool true])))
  = handleRequest {| sheetsClient := Samples.client |}
      {| req_JSONRPC := "1.0"; req_ID := JNumber 1; req_Method := "ping";
         req_Params := nilRaw |}.
Proof.
  apply (fixed_methods_depend_on_id_only
           {| sheetsClient := Samples.client |} Samples.server
           {| req_JSONRPC := "1.0"; req_ID := JNumber 1; req_Method := "ping";
              req_Params := nilRaw |}
           (Samples.request (JNumber 1) "ping"
              (Wellformed (JArray [JBool true])))).
  - simpl. tauto.
  - reflexivity.
  - reflexivity.
Defined.

(** ** The request decoder *)

Lemma saveError_None (e1 e2 : option error) :
  saveError e1 e2 = None <-> e1 = None /\ e2 = None.
Proof.
  destruct e1; simpl; split; try tauto; discriminate.
Qed.

Lemma inStruct_None (name : string) (e : option error) :
  inStruct name e = None <-> e = None.
Proof.
  destruct e as [[msg | v t s f | msg] | ]; simpl; split;
    (discriminate || reflexivity).
Qed.

(** The conversion of a value bound for an [interface{}] fails exactly on a
    number out of range. *)
Lemma valueInterface_fits (struct field : string) :
  forall v, snd (valueInterface struct field v) = None <-> fits v = true.
Proof.
  fix IH 1. intros [ | b | n | s | vs | ms]; cbn [valueInterface fits].
  - split; reflexivity.
  - split; reflexivity.
  - destruct (float64 n); simpl; split; (discriminate || reflexivity).
  - split; reflexivity.
  - assert (Hvs : snd (each (valueInterface struct field) vs) = None
                  <-> forallb fits vs = true).
    { induction vs as [ | v vs IHvs]; [split; reflexivity | ].
      cbn [each forallb].
      pose proof (IH v) as Hhead.
      destruct (valueInterface struct field v) as [a e1].
      destruct (each (valueInterface struct field) vs) as [l e2].
      cbn [snd] in Hhead, IHvs |- *.
      rewrite saveError_None, andb_true_iff, Hhead, IHvs. reflexivity. }
    destruct (each (valueInterface struct field) vs) as [l e]. exact Hvs.
  - match goal with
    | |- context [each ?f ms] =>
        assert (Hms : snd (each f ms) = None
                      <-> forallb (fun m => fits (snd m)) ms = true);
        [ | destruct (each f ms) as [l e]; exact Hms]
    end.
    induction ms as [ | [k v] ms IHms]; [split; reflexivity | ].
    cbn [each forallb snd fst].
    pose proof (IH v) as Hhead.
    destruct (valueInterface struct field v) as [a e1].
    match goal with
    | |- context [each ?f ms] => destruct (each f ms) as [l e2]
    end.
    cbn [snd] in Hhead, IHms |- *.
    rewrite saveError_None, andb_true_iff, Hhead, IHms. reflexivity.
Qed.

Lemma storeInterface_fits (struct field : string) (v : value) (old : any) :
  snd (storeInterface struct field v old) = None <-> fits v = true.
Proof.
  destruct v as [ | b | n | s | vs | ms];
    try apply valueInterface_fits.
  cbn [storeInterface fits].
  destruct (float64 n); simpl; split; (discriminate || reflexivity).
Qed.

Lemma object_request_error (ms : list (string * value)) :
  forall r : MCPRequest,
    snd (object setRequest ms r) = None <->
    (forall key v, In (key, v) ms ->
       (matches key "jsonrpc" = true \/ matches key "method" = true ->
        storesInString v = true)
       /\ (matches key "id" = true -> fits v = true)).
Proof.
  induction ms as [ | [k v] ms IH]; intros r.
  - simpl. split; [intros _ key v [] | reflexivity].
  - cbn [object].
    destruct (setRequest k v r) as [r1 e1] eqn:Hset.
    specialize (IH r1).
    destruct (object setRequest ms r1) as [r2 e2]. simpl in IH |- *.
    assert (Hhead : e1 = None <->
                    (matches k "jsonrpc" = true \/ matches k "method" = true ->
                     storesInString v = true)
                    /\ (matches k "id" = true -> fits v = true)).
    { unfold setRequest in Hset.
      destruct (matches k "jsonrpc") eqn:Ej.
      - assert (Ei : matches k "id" = false).
        { unfold matches in Ej |- *. apply String.eqb_eq in Ej.
          rewrite Ej. reflexivity. }
        rewrite Ei.
        destruct v; simpl in Hset; inversion Hset; subst; simpl;
          split; intros H;
          first [ discriminate H
                | reflexivity
                | split; [intros _; reflexivity | intros F; discriminate F]
                | destruct H as [H _]; specialize (H (or_introl eq_refl));
                  discriminate H ].
      - destruct (matches k "id") eqn:Ei.
        + assert (Em : matches k "method" = false).
          { unfold matches in Ei |- *. apply String.eqb_eq in Ei.
            rewrite Ei. reflexivity. }
          rewrite Em.
          pose proof (storeInterface_fits "MCPRequest" "id" v (req_ID r))
            as Hfits.
          destruct (storeInterface "MCPRequest" "id" v (req_ID r))
            as [x e] eqn:Hstore.
          inversion Hset; subst. simpl in Hfits. rewrite Hfits.
          split.
          * intros H. split; [intros [F | F]; discriminate F | now intros _].
          * intros [_ H]. now apply H.
        + destruct (matches k "method") eqn:Em.
          * destruct v; simpl in Hset; inversion Hset; subst; simpl;
              split; intros H;
              first [ discriminate H
                    | reflexivity
                    | split; [intros _; reflexivity | intros F; discriminate F]
                    | destruct H as [H _]; specialize (H (or_intror eq_refl));
                      discriminate H ].
          * destruct (matches k "params"); inversion Hset; subst;
              (split; [ | reflexivity]); intros _;
              (split; [intros [H | H]; discriminate H | discriminate]). }
    split.
    + intros H key v0 [E | Hin].
      * inversion E; subst. apply Hhead.
        destruct e1; [discriminate H | reflexivity].
      * destruct e1; [discriminate H | ]. simpl in H.
        apply (proj1 IH H key v0 Hin).
    + intros H.
      assert (He : e1 = None) by (apply Hhead; apply (H k v); now left).
      subst e1. simpl. apply IH. intros key v0 Hin. apply H. now right.
Qed.

(** X8. The request decoder accepts a line exactly when it is the JSON null
    or an object whose members for the protocol tag and for the method are
    strings or null and whose members for the identifier hold no number
    beyond the range of a float64; every other line (malformed text, an
    array, a number, a string, a method that is not a string, an identifier
    like 1 followed by 400 zeros) is the one the loop logs and skips. *)
Theorem decodeRequest_accepts (data : RawMessage) :
  snd (decodeRequest data) = None <-> decodable data.
Proof.
  unfold decodeRequest. destruct data as [msg | v]; simpl.
  - split; [discriminate | contradiction].
  - destruct v; simpl; try (split; [discriminate | contradiction]).
    + split; [trivial | reflexivity].
    + apply object_request_error.
Qed.

End MCPMore.

(* ------------------------------------------------------------------------- *)
(** * Further properties of the credential lifecycle                         *)
(* ------------------------------------------------------------------------- *)

Module OAuthMore.
Import Json OAuth OAuthConfig.

(** ** Loading the configuration *)

Lemma getTokenFilePath_run (Getenv : string -> string)
  (UserHomeDir : error + string) (Join : list string -> string) (w : World) :
  getTokenFilePath Getenv UserHomeDir Join w
  = (Returned (tokenFilePath Getenv UserHomeDir Join), w).
Proof.
  unfold getTokenFilePath, tokenFilePath.
  destruct (negb (Getenv "GOOGLE_OAUTH_TOKEN_FILE" =? "")); [reflexivity | ].
  destruct UserHomeDir as [err | homeDir]; [reflexivity | ].
  unfold bind, mkdirConfig, ret. destruct (mkdirs w); reflexivity.
Qed.

Lemma with_token_file {A : Type} (Getenv : string -> string)
  (UserHomeDir : error + string) (Join : list string -> string)
  (k : string -> M A) (w : World) :
  bind (getTokenFilePath Getenv UserHomeDir Join) k w
  = k (tokenFilePath Getenv UserHomeDir Join) w.
Proof. unfold bind. now rewrite getTokenFilePath_run. Qed.

Lemma LoadConfig_from_environment (Getenv : string -> string)
  (UserHomeDir : error + string) (Join : list string -> string)
  (notExist : string -> bool) (parse : string -> RawMessage) (w : World) :
  Getenv "GOOGLE_OAUTH_CLIENT_ID" <> "" ->
  Getenv "GOOGLE_OAUTH_CLIENT_SECRET" <> "" ->
  LoadConfig Getenv UserHomeDir Join notExist parse w =
    (Returned
       (inr {| Config.ClientID := Getenv "GOOGLE_OAUTH_CLIENT_ID";
               Config.ClientSecret := Getenv "GOOGLE_OAUTH_CLIENT_SECRET";
               Config.RedirectURI :=
                 if Getenv "GOOGLE_OAUTH_REDIRECT_URI" =? ""
                 then RedirectURI
                 else Getenv "GOOGLE_OAUTH_REDIRECT_URI";
               Config.TokenFile := tokenFilePath Getenv UserHomeDir Join |}),
     w).
Proof.
  intros Hid Hsecret. unfold LoadConfig.
  destruct (String.eqb_spec (Getenv "GOOGLE_OAUTH_CLIENT_ID") "");
    [contradiction | ].
  destruct (String.eqb_spec (Getenv "GOOGLE_OAUTH_CLIENT_SECRET") "");
    [contradiction | ].
  cbn [negb andb]. rewrite with_token_file.
  unfold ret, getRedirectURI.
  destruct (Getenv "GOOGLE_OAUTH_REDIRECT_URI" =? ""); reflexivity.
Qed.

(** X12. The environment comes first: when both GOOGLE_OAUTH_CLIENT_ID and
    GOOGLE_OAUTH_CLIENT_SECRET are set, [LoadConfig] returns them, with the
    redirect URI of the environment (or the default) and the path of the
    token file, whatever the files hold: no credentials file has a part in
    the configuration. *)
Theorem LoadConfig_environment_first (Getenv : string -> string)
  (UserHomeDir : error + string) (Join : list string -> string)
  (notExist : string -> bool) (parse : string -> RawMessage) (w : World) :
  Getenv "GOOGLE_OAUTH_CLIENT_ID" <> "" ->
  Getenv "GOOGLE_OAUTH_CLIENT_SECRET" <> "" ->
  fst (LoadConfig Getenv UserHomeDir Join notExist parse w) =
    Returned
      (inr {| Config.ClientID := Getenv "GOOGLE_OAUTH_CLIENT_ID";
              Config.ClientSecret := Getenv "GOOGLE_OAUTH_CLIENT_SECRET";
              Config.RedirectURI :=
                if Getenv "GOOGLE_OAUTH_REDIRECT_URI" =? ""
                then RedirectURI
                else Getenv "GOOGLE_OAUTH_REDIRECT_URI";
              Config.TokenFile := tokenFilePath Getenv UserHomeDir Join |}).
Proof.
  intros Hid Hsecret.
  now rewrite (LoadConfig_from_environment Getenv UserHomeDir Join notExist
                 parse w Hid Hsecret).
Qed.

Lemma LoadConfig_environment_first_witness :
  fst (LoadConfig Hosts.envHost Hosts.home Hosts.Join Hosts.notExist
         Hosts.parse Hosts.withCredentials) =
    Returned
      (inr {| Config.ClientID := "env-client-id";
              Config.ClientSecret := "env-client-secret";
              Config.RedirectURI := "http://localhost:8080/oauth/callback";
              Config.TokenFile :=
                "/home/user/.config/mcp-google-sheets/token.json" |}).
Proof.
  apply (LoadConfig_environment_first Hosts.envHost Hosts.home Hosts.Join
           Hosts.notExist Hosts.parse Hosts.withCredentials); discriminate.
Defined.

(** What [LoadConfig] does when the environment does not give both
    credentials. *)
Lemma LoadConfig_from_file (Getenv : string -> string)
  (UserHomeDir : error + string) (Join : list string -> string)
  (notExist : string -> bool) (parse : string -> RawMessage) (w : World) :
  Getenv "GOOGLE_OAUTH_CLIENT_ID" = ""
  \/ Getenv "GOOGLE_OAUTH_CLIENT_SECRET" = "" ->
  LoadConfig Getenv UserHomeDir Join notExist parse w =
    (let credPath :=
       if Getenv "GOOGLE_OAUTH_CREDENTIALS" =? "" then
         if notExist (Join [match UserHomeDir with
                            | inr dir => dir
                            | inl _ => ""
                            end; ".config"; "mcp-google-sheets";
                            "oauth_credentials.json"])
         then "oauth_credentials.json"
         else Join [match UserHomeDir with
                    | inr dir => dir
                    | inl _ => ""
                    end; ".config"; "mcp-google-sheets";
                    "oauth_credentials.json"]
       else Getenv "GOOGLE_OAUTH_CREDENTIALS" in
     match files w credPath with
     | None =>
         (Returned
            (inl (Errorf ("unable to read OAuth credentials file: "
                            ++ ("open " ++ credPath
                                  ++ ": no such file or directory")
                            ++ ". Please set GOOGLE_OAUTH_CLIENT_ID and GOOGLE_OAUTH_CLIENT_SECRET environment variables or provide oauth_credentials.json"))),
          w)
     | Some content =>
         match Unmarshal Creds.set Creds.typ (parse content) Creds.zero with
         | (_, Some e) =>
             (Returned (inl (Errorf ("unable to parse OAuth credentials: "
                                       ++ ErrorString e))), w)
         | (creds, None) =>
             match
               (if negb (App.ClientID (Creds.Installed creds) =? "")
                then Some (Creds.Installed creds)
                else if negb (App.ClientID (Creds.Web creds) =? "")
                then Some (Creds.Web creds)
                else None)
             with
             | None =>
                 (Returned
                    (inl (Errorf "no valid OAuth credentials found in file")),
                  w)
             | Some app =>
                 (Returned
                    (inr {| Config.ClientID := App.ClientID app;
                            Config.ClientSecret := App.ClientSecret app;
                            Config.RedirectURI :=
                              match App.RedirectURIs app with
                              | first :: _ => first
                              | [] => RedirectURI
                              end;
                            Config.TokenFile :=
                              tokenFilePath Getenv UserHomeDir Join |}),
                  w)
             end
         end
     end).
Proof.
  intros Hpartial. unfold LoadConfig.
  assert (Hcond : negb (Getenv "GOOGLE_OAUTH_CLIENT_ID" =? "")
                  && negb (Getenv "GOOGLE_OAUTH_CLIENT_SECRET" =? "") = false).
  { destruct Hpartial as [-> | ->]; [reflexivity | ].
    now rewrite andb_false_r. }
  rewrite Hcond. cbv zeta.
  set (credPath := if Getenv "GOOGLE_OAUTH_CREDENTIALS" =? "" then _ else _).
  unfold bind at 1, ReadFile.
  destruct (files w credPath) as [content | ]; [ | reflexivity].
  destruct (Unmarshal Creds.set Creds.typ (parse content) Creds.zero)
    as [creds [e | ]]; [reflexivity | ].
  destruct (negb (App.ClientID (Creds.Installed creds) =? "")).
  - now rewrite with_token_file.
  - destruct (negb (App.ClientID (Creds.Web creds) =? ""));
      [now rewrite with_token_file | reflexivity].
Qed.

(** X13. Every configuration [LoadConfig] returns has a client id that is
    not empty, and its token file is the path GOOGLE_OAUTH_TOKEN_FILE names
    whenever that variable is set, wherever the credentials came from.  The
    client secret is not checked in the same way. *)
Theorem LoadConfig_client_id_not_empty (Getenv : string -> string)
  (UserHomeDir : error + string) (Join : list string -> string)
  (notExist : string -> bool) (parse : string -> RawMessage)
  (w w' : World) (c : Config.t) :
  LoadConfig Getenv UserHomeDir Join notExist parse w = (Returned (inr c), w') ->
  Config.ClientID c <> ""
  /\ (Getenv "GOOGLE_OAUTH_TOKEN_FILE" <> "" ->
      Config.TokenFile c = Getenv "GOOGLE_OAUTH_TOKEN_FILE").
Proof.
  assert (Htoken : Getenv "GOOGLE_OAUTH_TOKEN_FILE" <> "" ->
                   tokenFilePath Getenv UserHomeDir Join
                   = Getenv "GOOGLE_OAUTH_TOKEN_FILE").
  { intros H. unfold tokenFilePath.
    destruct (String.eqb_spec (Getenv "GOOGLE_OAUTH_TOKEN_FILE") "");
      [contradiction | reflexivity]. }
  destruct (String.eqb_spec (Getenv "GOOGLE_OAUTH_CLIENT_ID") "") as [Ei | Ni].
  - rewrite (LoadConfig_from_file Getenv UserHomeDir Join notExist parse w
               (or_introl Ei)).
    cbv zeta.
    destruct (files w _) as [content | ]; [ | discriminate].
    destruct (Unmarshal Creds.set Creds.typ (parse content) Creds.zero)
      as [creds [e | ]]; [discriminate | ].
    destruct (String.eqb_spec (App.ClientID (Creds.Installed creds)) "")
      as [Ea | Na]; cbn [negb].
    + destruct (String.eqb_spec (App.ClientID (Creds.Web creds)) "")
        as [Eb | Nb]; cbn [negb]; [discriminate | ].
      intros H; inversion H; subst. now split.
    + intros H; inversion H; subst. now split.
  - destruct (String.eqb_spec (Getenv "GOOGLE_OAUTH_CLIENT_SECRET") "")
      as [Es | Ns].
    + rewrite (LoadConfig_from_file Getenv UserHomeDir Join notExist parse w
                 (or_intror Es)).
      cbv zeta.
      destruct (files w _) as [content | ]; [ | discriminate].
      destruct (Unmarshal Creds.set Creds.typ (parse content) Creds.zero)
        as [creds [e | ]]; [discriminate | ].
      destruct (String.eqb_spec (App.ClientID (Creds.Installed creds)) "")
        as [Ea | Na]; cbn [negb].
      * destruct (String.eqb_spec (App.ClientID (Creds.Web creds)) "")
          as [Eb | Nb]; cbn [negb]; [discriminate | ].
        intros H; inversion H; subst. now split.
      * intros H; inversion H; subst. now split.
    + rewrite (LoadConfig_from_environment Getenv UserHomeDir Join notExist
                 parse w Ni Ns).
      intros H; inversion H; subst. now split.
Qed.

Lemma LoadConfig_client_id_not_empty_witness :
  Config.ClientID
    {| Config.ClientID := "test-installed-client-id";
       Config.ClientSecret := "test-installed-client-secret";
       Config.RedirectURI := "http://localhost:9090/callback";
       Config.TokenFile := "/custom/token/path.json" |} <> ""
  /\ (Hosts.fileHost "GOOGLE_OAUTH_TOKEN_FILE" <> "" ->
      Config.TokenFile
        {| Config.ClientID := "test-installed-client-id";
           Config.ClientSecret := "test-installed-client-secret";
           Config.RedirectURI := "http://localhost:9090/callback";
           Config.TokenFile := "/custom/token/path.json" |}
      = Hosts.fileHost "GOOGLE_OAUTH_TOKEN_FILE").
Proof.
  apply (LoadConfig_client_id_not_empty Hosts.fileHost Hosts.home Hosts.Join
           Hosts.notExist Hosts.parse Hosts.withCredentials
           Hosts.withCredentials).
  reflexivity.
Defined.

(** X14. Credentials given by half in the environment are ignored without a
    word: when the client id or the client secret is missing there,
    [LoadConfig] reads the credentials file, and neither the variable that
    is set nor GOOGLE_OAUTH_REDIRECT_URI has any effect on the outcome. *)
Theorem partial_environment_is_ignored (Getenv Getenv' : string -> string)
  (UserHomeDir : error + string) (Join : list string -> string)
  (notExist : string -> bool) (parse : string -> RawMessage) (w : World) :
  Getenv "GOOGLE_OAUTH_CLIENT_ID" = ""
  \/ Getenv "GOOGLE_OAUTH_CLIENT_SECRET" = "" ->
  Getenv' "GOOGLE_OAUTH_CLIENT_ID" = ""
  \/ Getenv' "GOOGLE_OAUTH_CLIENT_SECRET" = "" ->
  (forall name, ~ In name credentialVariables -> Getenv' name = Getenv name) ->
  LoadConfig Getenv' UserHomeDir Join notExist parse w
  = LoadConfig Getenv UserHomeDir Join notExist parse w.
Proof.
  intros H H' Hsame.
  rewrite (LoadConfig_from_file Getenv UserHomeDir Join notExist parse w H).
  rewrite (LoadConfig_from_file Getenv' UserHomeDir Join notExist parse w H').
  assert (Hcred : Getenv' "GOOGLE_OAUTH_CREDENTIALS"
                  = Getenv "GOOGLE_OAUTH_CREDENTIALS").
  { apply Hsame. unfold credentialVariables. simpl.
    intros [E | [E | [E | []]]]; discriminate E. }
  assert (Htoken : tokenFilePath Getenv' UserHomeDir Join
                   = tokenFilePath Getenv UserHomeDir Join).
  { unfold tokenFilePath.
    assert (E : Getenv' "GOOGLE_OAUTH_TOKEN_FILE"
                = Getenv "GOOGLE_OAUTH_TOKEN_FILE").
    { apply Hsame. unfold credentialVariables. simpl.
      intros [E | [E | [E | []]]]; discriminate E. }
    now rewrite E. }
  now rewrite Hcred, Htoken.
Qed.

Lemma partial_environment_is_ignored_witness :
  LoadConfig Hosts.fileHost Hosts.home Hosts.Join Hosts.notExist Hosts.parse
    Hosts.withCredentials
  = LoadConfig Hosts.bareHost Hosts.home Hosts.Join Hosts.notExist Hosts.parse
      Hosts.withCredentials.
Proof.
  apply (partial_environment_is_ignored Hosts.bareHost Hosts.fileHost
           Hosts.home Hosts.Join Hosts.notExist Hosts.parse
           Hosts.withCredentials).
  - left. reflexivity.
  - right. reflexivity.
  - intros name Hname. unfold Hosts.fileHost, Hosts.bareHost.
    destruct (String.eqb_spec name "GOOGLE_OAUTH_CLIENT_ID") as [E | _].
    + exfalso. apply Hname. rewrite E. simpl. tauto.
    + destruct (String.eqb_spec name "GOOGLE_OAUTH_REDIRECT_URI") as [E | _];
        [ | reflexivity].
      exfalso. apply Hname. rewrite E. simpl. tauto.
Defined.

(** X15. In a credentials file the installed block wins: when it has a
    client id, the configuration takes the id, the secret and the first
    redirect URI from it (the default redirect URI if it lists none), and the
    web block is not looked at. *)
Theorem installed_block_wins (Getenv : string -> string)
  (UserHomeDir : error + string) (Join : list string -> string)
  (notExist : string -> bool) (parse : string -> RawMessage) (w : World)
  (content : string) (creds : Creds.t) :
  Getenv "GOOGLE_OAUTH_CLIENT_ID" = ""
  \/ Getenv "GOOGLE_OAUTH_CLIENT_SECRET" = "" ->
  Getenv "GOOGLE_OAUTH_CREDENTIALS" <> "" ->
  files w (Getenv "GOOGLE_OAUTH_CREDENTIALS") = Some content ->
  Unmarshal Creds.set Creds.typ (parse content) Creds.zero = (creds, None) ->
  App.ClientID (Creds.Installed creds) <> "" ->
  LoadConfig Getenv UserHomeDir Join notExist parse w =
    (Returned
       (inr {| Config.ClientID := App.ClientID (Creds.Installed creds);
               Config.ClientSecret :=
                 App.ClientSecret (Creds.Installed creds);
               Config.RedirectURI :=
                 hd RedirectURI (App.RedirectURIs (Creds.Installed creds));
               Config.TokenFile := tokenFilePath Getenv UserHomeDir Join |}),
     w).
Proof.
  intros Hpartial Hpath Hfile Hdec Hid.
  rewrite (LoadConfig_from_file Getenv UserHomeDir Join notExist parse w
             Hpartial).
  cbv zeta.
  destruct (String.eqb_spec (Getenv "GOOGLE_OAUTH_CREDENTIALS") "");
    [contradiction | ].
  rewrite Hfile, Hdec.
  destruct (String.eqb_spec (App.ClientID (Creds.Installed creds)) "");
    [contradiction | ].
  cbn [negb].
  destruct (App.RedirectURIs (Creds.Installed creds)); reflexivity.
Qed.

Lemma installed_block_wins_witness :
  LoadConfig Hosts.fileHost Hosts.home Hosts.Join Hosts.notExist Hosts.parse
    Hosts.withCredentials =
    (Returned
       (inr {| Config.ClientID := "test-installed-client-id";
               Config.ClientSecret := "test-installed-client-secret";
               Config.RedirectURI := "http://localhost:9090/callback";
               Config.TokenFile := "/custom/token/path.json" |}),
     Hosts.withCredentials).
Proof.
  apply (installed_block_wins Hosts.fileHost Hosts.home Hosts.Join
           Hosts.notExist Hosts.parse Hosts.withCredentials "both blocks"
           {| Creds.Installed :=
                {| App.ClientID := "test-installed-client-id";
                   App.ClientSecret := "test-installed-client-secret";
                   App.RedirectURIs := ["http://localhost:9090/callback"] |};
              Creds.Web :=
                {| App.ClientID := "test-web-client-id";
                   App.ClientSecret := "test-web-client-secret";
                   App.RedirectURIs := [] |} |}).
  - right. reflexivity.
  - discriminate.
  - reflexivity.
  - reflexivity.
  - discriminate.
Defined.

(** ** The handshake *)

(** What a handshake that returns leaves alone, and what it registers. *)
Lemma getTokenFromWeb_keeps
  (Exchange : oauth2.Config -> string -> error + oauth2.Token)
  (c : Config.t) (config : oauth2.Config) (ev : Event) (w w' : World)
  (r : error + oauth2.Token) :
  getTokenFromWeb Exchange c config ev w = (Returned r, w') ->
  files w' = files w /\ mkdirs w' = mkdirs w /\ writable w' = writable w
  /\ logged w' = logged w
  /\ patterns w' = "/oauth/callback" :: patterns w.
Proof.
  unfold getTokenFromWeb. intros H.
  apply OAuthFacts.bind_returned in H as (u0 & w0 & H0 & H).
  apply OAuthFacts.HandleFunc_returned in H0.
  apply OAuthFacts.bind_returned in H as (u1 & w1 & H1 & H).
  apply OAuthFacts.ListenAndServe_returned in H1 as (st & H1).
  apply OAuthFacts.bind_returned in H as (u2 & w2 & H2 & H).
  apply OAuthFacts.Println_returned in H2.
  apply OAuthFacts.bind_returned in H as (u3 & w3 & H3 & H).
  apply OAuthFacts.Println_returned in H3.
  apply OAuthFacts.bind_returned in H as (u4 & w4 & H4 & H).
  apply OAuthFacts.Println_returned in H4.
  apply OAuthFacts.bind_returned in H as (u5 & w5 & H5 & H).
  apply OAuthFacts.PrintURL_returned in H5.
  apply OAuthFacts.bind_returned in H as (u6 & w6 & H6 & H).
  apply OAuthFacts.Println_returned in H6.
  apply OAuthFacts.bind_returned in H as (u7 & w7 & H7 & H).
  apply OAuthFacts.Println_returned in H7.
  assert (Hend : w' = turn Closed w7).
  { destruct (signal ev) as [code | err | ].
    - destruct (Exchange config code) as [err | token];
        exact (OAuthFacts.Shutdown_then_ret _ _ _ _ H).
    - exact (OAuthFacts.Shutdown_then_ret _ _ _ _ H).
    - exact (OAuthFacts.Shutdown_then_ret _ _ _ _ H). }
  subst. repeat split.
Qed.

Lemma getTokenFromWeb_result
  (Exchange : oauth2.Config -> string -> error + oauth2.Token)
  (c : Config.t) (config : oauth2.Config) (ev : Event) (w w' : World)
  (r : error + oauth2.Token) :
  getTokenFromWeb Exchange c config ev w = (Returned r, w') ->
  match signal ev with
  | codeChan code =>
      match Exchange config code with
      | inr token => r = inr token
      | inl err =>
          r = inl (Errorf ("unable to exchange code for token: "
                             ++ ErrorString err))
      end
  | errChan err => r = inl err
  | ctxDone => r = inl (Errorf "context cancelled")
  end.
Proof.
  unfold getTokenFromWeb. intros H.
  apply OAuthFacts.bind_returned in H as (u0 & w0 & H0 & H).
  apply OAuthFacts.bind_returned in H as (u1 & w1 & H1 & H).
  apply OAuthFacts.bind_returned in H as (u2 & w2 & H2 & H).
  apply OAuthFacts.bind_returned in H as (u3 & w3 & H3 & H).
  apply OAuthFacts.bind_returned in H as (u4 & w4 & H4 & H).
  apply OAuthFacts.bind_returned in H as (u5 & w5 & H5 & H).
  apply OAuthFacts.bind_returned in H as (u6 & w6 & H6 & H).
  apply OAuthFacts.bind_returned in H as (u7 & w7 & H7 & H).
  destruct (signal ev) as [code | err | ].
  - destruct (Exchange config code) as [err | token];
      unfold bind, Shutdown, setServer, ret in H; now inversion H.
  - unfold bind, Shutdown, setServer, ret in H; now inversion H.
  - unfold bind, Shutdown, setServer, ret in H; now inversion H.
Qed.

(** X16. A handshake that returns yields a token in one case only: a
    callback brought a code that is not empty and the exchange of that code
    succeeded, and the token is the one the exchange gave.  A callback
    without a code, a failed exchange, a listener that does not start and a
    cancelled context each yield their own error; the exchange is attempted
    for no other code than the one received.  The handshake stores
    nothing. *)
Theorem handshake_outcome
  (Exchange : oauth2.Config -> string -> error + oauth2.Token)
  (c : Config.t) (config : oauth2.Config) (ev : Event) (w w' : World)
  (r : error + oauth2.Token) :
  getTokenFromWeb Exchange c config ev w = (Returned r, w') ->
  (forall token, r = inr token <->
                 exists code, ev = Callback code /\ code <> ""
                              /\ Exchange config code = inr token)
  /\ (ev = Callback "" -> r = inl (Errorf "no code in OAuth callback"))
  /\ (ev = Cancelled -> r = inl (Errorf "context cancelled"))
  /\ (forall err, ev = ListenFailed err ->
        r = inl (Errorf ("failed to start OAuth callback server: "
                           ++ ErrorString err)))
  /\ (forall code err, ev = Callback code -> code <> "" ->
        Exchange config code = inl err ->
        r = inl (Errorf ("unable to exchange code for token: "
                           ++ ErrorString err)))
  /\ files w' = files w.
Proof.
  intros H.
  pose proof (getTokenFromWeb_result Exchange c config ev w w' r H) as Hr.
  destruct (getTokenFromWeb_keeps Exchange c config ev w w' r H)
    as (Hfiles & _).
  split; [ | split; [ | split; [ | split; [ | split]]]]; try exact Hfiles.
  - intros token. destruct ev as [code | err | ]; simpl in Hr.
    + destruct (String.eqb_spec code "") as [E | N].
      * subst r. split; [discriminate | ].
        intros (code' & Hev & Hne & _). inversion Hev; subst.
        contradiction.
      * destruct (Exchange config code) as [err | tok] eqn:Hex; subst r.
        -- split; [discriminate | ].
           intros (code' & Hev & _ & Hex'). inversion Hev; subst.
           rewrite Hex in Hex'. discriminate Hex'.
        -- split.
           ++ intros E. inversion E; subst. now exists code.
           ++ intros (code' & Hev & _ & Hex'). inversion Hev; subst.
              rewrite Hex in Hex'. now inversion Hex'.
    + subst r. split; [discriminate | ].
      intros (code' & Hev & _). discriminate Hev.
    + subst r. split; [discriminate | ].
      intros (code' & Hev & _). discriminate Hev.
  - intros ->. exact Hr.
  - intros ->. exact Hr.
  - intros err ->. exact Hr.
  - intros code err -> Hne Hex. simpl in Hr.
    destruct (String.eqb_spec code ""); [contradiction | ].
    now rewrite Hex in Hr.
Qed.

Lemma handshake_outcome_witness :
  exists code, Callback "4/good" = Callback code /\ code <> ""
               /\ Samples.Exchange (GetOAuthConfig Samples.configA) code
                  = inr Samples.token.
Proof.
  apply (proj1 (handshake_outcome Samples.Exchange Samples.configA
                  (GetOAuthConfig Samples.configA) (Callback "4/good")
                  Samples.fresh
                  (snd (getTokenFromWeb Samples.Exchange Samples.configA
                          (GetOAuthConfig Samples.configA) (Callback "4/good")
                          Samples.fresh))
                  (inr Samples.token) eq_refl) Samples.token).
  reflexivity.
Defined.

(** X17. One handshake per process: a handshake that returned has registered
    the callback pattern for good, so that any later handshake in the same
    process, whatever its configuration and whatever would arrive, panics in
    [http.HandleFunc] before it starts a server or writes a line. *)
Theorem second_handshake_panics
  (Exchange Exchange' : oauth2.Config -> string -> error + oauth2.Token)
  (c c' : Config.t) (config config' : oauth2.Config) (ev ev' : Event)
  (w w' : World) (r : error + oauth2.Token) :
  getTokenFromWeb Exchange c config ev w = (Returned r, w') ->
  exists msg,
    getTokenFromWeb Exchange' c' config' ev' w' = (Panicked msg, w').
Proof.
  intros H.
  destruct (getTokenFromWeb_keeps Exchange c config ev w w' r H)
    as (_ & _ & _ & _ & Hpat).
  pose proof (OAuthFacts.getTokenFromWeb_terminates Exchange' c' config' ev'
                w') as Hterm.
  rewrite Hpat in Hterm. simpl in Hterm. eexists. exact Hterm.
Qed.

Lemma second_handshake_panics_witness :
  exists msg,
  getTokenFromWeb Samples.Exchange Samples.configB
    (GetOAuthConfig Samples.configB) (Callback "4/good")
    (snd (getTokenFromWeb Samples.Exchange Samples.configA
            (GetOAuthConfig Samples.configA) Cancelled Samples.fresh)) =
    (Panicked msg,
     snd (getTokenFromWeb Samples.Exchange Samples.configA
            (GetOAuthConfig Samples.configA) Cancelled Samples.fresh)).
Proof.
  apply (second_handshake_panics Samples.Exchange Samples.Exchange
           Samples.configA Samples.configB (GetOAuthConfig Samples.configA)
           (GetOAuthConfig Samples.configB) Cancelled (Callback "4/good")
           Samples.fresh
           (snd (getTokenFromWeb Samples.Exchange Samples.configA
                   (GetOAuthConfig Samples.configA) Cancelled Samples.fresh))
           (inl (Errorf "context cancelled"))).
  reflexivity.
Defined.

(** ** The token file and [GetClient] *)

Lemma saveToken_run (encodeToken : oauth2.Token -> string) (c : Config.t)
  (token : oauth2.Token) (w : World) :
  saveToken encodeToken c token w =
    if mkdirs w then
      if writable w
      then (Returned None,
            store (Config.TokenFile c) (encodeToken token) w)
      else (Returned
              (Some (Errorf ("unable to create token file: "
                               ++ ("open " ++ Config.TokenFile c
                                     ++ ": permission denied")))), w)
    else (Returned
            (Some (Errorf ("unable to create token directory: "
                             ++ ("mkdir " ++ Config.TokenFile c
                                   ++ ": permission denied")))), w).
Proof.
  unfold saveToken, bind, MkdirAll, WriteFile, ret.
  destruct (mkdirs w); [ | reflexivity].
  destruct (writable w); reflexivity.
Qed.

(** X18. A token that was saved loads back: after [saveToken] has returned a
    nil error, [loadToken] under the same configuration returns that token,
    provided the token decodes from its own encoding; no file other than
    the token file has changed. *)
Theorem saved_token_loads_back
  (decodeToken : string -> error + oauth2.Token)
  (encodeToken : oauth2.Token -> string)
  (c : Config.t) (token : oauth2.Token) (w w' : World) :
  decodeToken (encodeToken token) = inr token ->
  saveToken encodeToken c token w = (Returned None, w') ->
  loadToken decodeToken c w' = (Returned (inr token), w')
  /\ forall path, path <> Config.TokenFile c -> files w' path = files w path.
Proof.
  intros Hcodec. rewrite saveToken_run.
  destruct (mkdirs w); [ | discriminate].
  destruct (writable w); [ | discriminate].
  intros H; inversion H; subst w'. split.
  - unfold loadToken, bind, ReadFile, ret, store. cbn [files].
    rewrite String.eqb_refl. now rewrite Hcodec.
  - intros path Hpath. unfold store. cbn [files].
    destruct (String.eqb_spec path (Config.TokenFile c));
      [contradiction | reflexivity].
Qed.

Lemma saved_token_loads_back_witness :
  loadToken Samples.decodeToken Samples.configA
    (store "a/token.json" "test-access-token" Samples.fresh)
  = (Returned (inr Samples.token),
     store "a/token.json" "test-access-token" Samples.fresh).
Proof.
  apply (proj1 (saved_token_loads_back Samples.decodeToken Samples.encodeToken
                  Samples.configA Samples.token Samples.fresh
                  (store "a/token.json" "test-access-token" Samples.fresh)
                  eq_refl eq_refl)).
Defined.

Lemma bind_run {A B : Type} (m : M A) (k : A -> M B) (w w1 : World) (a : A) :
  m w = (Returned a, w1) -> bind m k w = k a w1.
Proof. intros H. unfold bind. now rewrite H. Qed.

Lemma loadToken_run (decodeToken : string -> error + oauth2.Token)
  (c : Config.t) (w : World) (r : error + oauth2.Token) :
  fst (loadToken decodeToken c w) = Returned r ->
  loadToken decodeToken c w = (Returned r, w).
Proof.
  intros H.
  destruct (OAuthFacts.loadToken_reads_only decodeToken c w) as [Hw _].
  destruct (loadToken decodeToken c w) as [out w1].
  simpl in H, Hw. now subst.
Qed.

(** [GetClient] when no token loads: it logs, runs the handshake and goes on
    from what the handshake returned. *)
Lemma GetClient_without_token
  (decodeToken : string -> error + oauth2.Token)
  (encodeToken : oauth2.Token -> string)
  (Exchange : oauth2.Config -> string -> error + oauth2.Token)
  (c : Config.t) (ev : Event) (w : World) (e0 : error) :
  fst (loadToken decodeToken c w) = Returned (inl e0) ->
  existsb (String.eqb "/oauth/callback") (patterns w) = false ->
  exists r w2,
    getTokenFromWeb Exchange c (GetOAuthConfig c) ev
      (note "No existing token found. Starting OAuth flow..." w)
    = (Returned r, w2)
    /\ GetClient decodeToken encodeToken Exchange c ev w =
       match r with
       | inl err =>
           (Returned (inl (Errorf ("unable to get token from web: "
                                     ++ ErrorString err))), w2)
       | inr token =>
           match saveToken encodeToken c token w2 with
           | (Returned (Some err), w3) =>
               (Returned (inr {| oauth2.client_config := GetOAuthConfig c;
                                 oauth2.client_token := token |}),
                note ("Warning: unable to save token: " ++ ErrorString err) w3)
           | (Returned None, w3) =>
               (Returned (inr {| oauth2.client_config := GetOAuthConfig c;
                                 oauth2.client_token := token |}), w3)
           | (Panicked msg, w3) => (Panicked msg, w3)
           end
       end.
Proof.
  intros Hload Hfresh.
  pose proof (OAuthFacts.getTokenFromWeb_terminates Exchange c
                (GetOAuthConfig c) ev
                (note "No existing token found. Starting OAuth flow..." w))
    as Hterm.
  change (patterns (note "No existing token found. Starting OAuth flow..." w))
    with (patterns w) in Hterm.
  rewrite Hfresh in Hterm. destruct Hterm as (r & w2 & Hrun).
  exists r, w2. split; [exact Hrun | ].
  unfold GetClient.
  rewrite (bind_run _ _ w w (inl e0) (loadToken_run decodeToken c w _ Hload)).
  unfold bind at 1, Log.
  rewrite (bind_run _ _ _ w2 r Hrun).
  destruct r as [err | token]; [reflexivity | ].
  unfold bind at 1.
  destruct (saveToken encodeToken c token w2) as [[[err | ] | msg] w3];
    reflexivity.
Qed.

Lemma GetClient_with_token
  (decodeToken : string -> error + oauth2.Token)
  (encodeToken : oauth2.Token -> string)
  (Exchange : oauth2.Config -> string -> error + oauth2.Token)
  (c : Config.t) (ev : Event) (w : World) (token : oauth2.Token) :
  fst (loadToken decodeToken c w) = Returned (inr token) ->
  GetClient decodeToken encodeToken Exchange c ev w =
    (Returned (inr {| oauth2.client_config := GetOAuthConfig c;
                      oauth2.client_token := token |}), w).
Proof.
  intros Hload. unfold GetClient.
  now rewrite (bind_run _ _ w w (inr token)
                 (loadToken_run decodeToken c w _ Hload)).
Qed.

(** X19. First run, then every later run: when no token loads, the callback
    brings a code the authorization server accepts, and the token file can
    be written, [GetClient] returns a client holding the exchanged token and
    leaves the token stored; any later [GetClient] under that configuration
    returns the same client from the file, without a handshake, whatever
    would arrive. *)
Theorem first_run_then_stored
  (decodeToken : string -> error + oauth2.Token)
  (encodeToken : oauth2.Token -> string)
  (Exchange : oauth2.Config -> string -> error + oauth2.Token)
  (c : Config.t) (code : string) (token : oauth2.Token) (w : World)
  (e0 : error) :
  fst (loadToken decodeToken c w) = Returned (inl e0) ->
  existsb (String.eqb "/oauth/callback") (patterns w) = false ->
  code <> "" ->
  Exchange (GetOAuthConfig c) code = inr token ->
  mkdirs w = true -> writable w = true ->
  decodeToken (encodeToken token) = inr token ->
  exists w1,
    GetClient decodeToken encodeToken Exchange c (Callback code) w =
      (Returned (inr {| oauth2.client_config := GetOAuthConfig c;
                        oauth2.client_token := token |}), w1)
    /\ forall ev,
         GetClient decodeToken encodeToken Exchange c ev w1 =
           (Returned (inr {| oauth2.client_config := GetOAuthConfig c;
                             oauth2.client_token := token |}), w1).
Proof.
  intros Hload Hfresh Hcode Hex Hmk Hwr Hcodec.
  destruct (GetClient_without_token decodeToken encodeToken Exchange c
              (Callback code) w e0 Hload Hfresh) as (r & w2 & Hrun & Hget).
  pose proof (getTokenFromWeb_result Exchange c (GetOAuthConfig c)
                (Callback code) _ w2 r Hrun) as Hr.
  simpl in Hr. destruct (String.eqb_spec code ""); [contradiction | ].
  rewrite Hex in Hr. subst r.
  destruct (getTokenFromWeb_keeps Exchange c (GetOAuthConfig c)
              (Callback code) _ w2 _ Hrun) as (_ & Hmk2 & Hwr2 & _).
  cbn [mkdirs writable note] in Hmk2, Hwr2.
  rewrite saveToken_run, Hmk2, Hmk, Hwr2, Hwr in Hget.
  exists (store (Config.TokenFile c) (encodeToken token) w2).
  split; [exact Hget | ].
  intros ev.
  apply GetClient_with_token.
  unfold loadToken, bind, ReadFile, ret, store. cbn [files].
  rewrite String.eqb_refl. now rewrite Hcodec.
Qed.

Lemma first_run_then_stored_witness :
  exists w1,
    GetClient Samples.decodeToken Samples.encodeToken Samples.Exchange
      Samples.configA (Callback "4/good") Samples.fresh =
      (Returned (inr {| oauth2.client_config := GetOAuthConfig Samples.configA;
                        oauth2.client_token := Samples.token |}), w1)
    /\ forall ev,
         GetClient Samples.decodeToken Samples.encodeToken Samples.Exchange
           Samples.configA ev w1 =
           (Returned
              (inr {| oauth2.client_config := GetOAuthConfig Samples.configA;
                      oauth2.client_token := Samples.token |}), w1).
Proof.
  apply (first_run_then_stored Samples.decodeToken Samples.encodeToken
           Samples.Exchange Samples.configA "4/good" Samples.token
           Samples.fresh
           (Errorf "open a/token.json: no such file or directory"));
    try reflexivity.
  discriminate.
Defined.

(** X20. A handshake that fails is fatal to [GetClient]: when no token
    loads and what arrives is anything but a code the authorization server
    accepts, [GetClient] returns an error that starts with "unable to get
    token from web: ", and no file has been written. *)
Theorem failed_handshake_is_fatal
  (decodeToken : string -> error + oauth2.Token)
  (encodeToken : oauth2.Token -> string)
  (Exchange : oauth2.Config -> string -> error + oauth2.Token)
  (c : Config.t) (ev : Event) (w : World) (e0 : error) :
  fst (loadToken decodeToken c w) = Returned (inl e0) ->
  existsb (String.eqb "/oauth/callback") (patterns w) = false ->
  (forall code token, ev = Callback code ->
     Exchange (GetOAuthConfig c) code = inr token -> code = "") ->
  exists err w',
    GetClient decodeToken encodeToken Exchange c ev w =
      (Returned (inl (Errorf ("unable to get token from web: "
                                ++ ErrorString err))), w')
    /\ files w' = files w.
Proof.
  intros Hload Hfresh Hbad.
  destruct (GetClient_without_token decodeToken encodeToken Exchange c ev w
              e0 Hload Hfresh) as (r & w2 & Hrun & Hget).
  pose proof (getTokenFromWeb_result Exchange c (GetOAuthConfig c) ev _ w2 r
                Hrun) as Hr.
  destruct (getTokenFromWeb_keeps Exchange c (GetOAuthConfig c) ev _ w2 r
              Hrun) as (Hfiles & _).
  assert (Herr : exists err, r = inl err).
  { destruct ev as [code | err | ]; simpl in Hr.
    - destruct (String.eqb_spec code "") as [E | N];
        [eexists; exact Hr | ].
      destruct (Exchange (GetOAuthConfig c) code) as [err | token] eqn:Hex;
        [eexists; exact Hr | ].
      exfalso. apply N. exact (Hbad code token eq_refl Hex).
    - eexists; exact Hr.
    - eexists; exact Hr. }
  destruct Herr as (err & ->).
  exists err, w2. split; [exact Hget | exact Hfiles].
Qed.

Lemma failed_handshake_is_fatal_witness :
  exists err w',
    GetClient Samples.decodeToken Samples.encodeToken Samples.Exchange
      Samples.configA (Callback "4/bad") Samples.fresh =
      (Returned (inl (Errorf ("unable to get token from web: "
                                ++ ErrorString err))), w')
    /\ files w' = files Samples.fresh.
Proof.
  apply (failed_handshake_is_fatal Samples.decodeToken Samples.encodeToken
           Samples.Exchange Samples.configA (Callback "4/bad") Samples.fresh
           (Errorf "open a/token.json: no such file or directory")).
  - reflexivity.
  - reflexivity.
  - intros code token E. inversion E; subst. discriminate.
Defined.

(** X21. A token that cannot be saved is not fatal: when no token loads, the
    handshake yields a token and [saveToken] returns an error, [GetClient]
    still returns a client holding that token; the failure only leaves a
    warning in the log. *)
Theorem unsaved_token_is_not_fatal
  (decodeToken : string -> error + oauth2.Token)
  (encodeToken : oauth2.Token -> string)
  (Exchange : oauth2.Config -> string -> error + oauth2.Token)
  (c : Config.t) (code : string) (token : oauth2.Token) (w : World)
  (e0 : error) :
  fst (loadToken decodeToken c w) = Returned (inl e0) ->
  existsb (String.eqb "/oauth/callback") (patterns w) = false ->
  code <> "" ->
  Exchange (GetOAuthConfig c) code = inr token ->
  mkdirs w = false \/ writable w = false ->
  exists err w',
    GetClient decodeToken encodeToken Exchange c (Callback code) w =
      (Returned (inr {| oauth2.client_config := GetOAuthConfig c;
                        oauth2.client_token := token |}), w')
    /\ logged w' =
         (logged w ++
          ["No existing token found. Starting OAuth flow...";
           ("Warning: unable to save token: " ++ ErrorString err)%string])%list.
Proof.
  intros Hload Hfresh Hcode Hex Hfs.
  destruct (GetClient_without_token decodeToken encodeToken Exchange c
              (Callback code) w e0 Hload Hfresh) as (r & w2 & Hrun & Hget).
  pose proof (getTokenFromWeb_result Exchange c (GetOAuthConfig c)
                (Callback code) _ w2 r Hrun) as Hr.
  simpl in Hr. destruct (String.eqb_spec code ""); [contradiction | ].
  rewrite Hex in Hr. subst r.
  destruct (getTokenFromWeb_keeps Exchange c (GetOAuthConfig c)
              (Callback code) _ w2 _ Hrun) as (_ & Hmk2 & Hwr2 & Hlog2 & _).
  cbn [mkdirs writable logged note] in Hmk2, Hwr2, Hlog2.
  rewrite saveToken_run, Hmk2, Hwr2 in Hget.
  destruct (mkdirs w) eqn:Hmk.
  - destruct Hfs as [Hfs | Hfs]; [discriminate Hfs | ].
    rewrite Hfs in Hget.
    eexists. eexists. split; [exact Hget | ].
    cbn [logged note]. rewrite Hlog2, <- app_assoc. reflexivity.
  - eexists. eexists. split; [exact Hget | ].
    cbn [logged note]. rewrite Hlog2, <- app_assoc. reflexivity.
Qed.

Lemma unsaved_token_is_not_fatal_witness :
  exists err w',
    GetClient Samples.decodeToken Samples.encodeToken Samples.Exchange
      Samples.configA (Callback "4/good")
      {| files := fun _ => None; mkdirs := true; writable := false;
         patterns := []; server := Idle; stdout := []; logged := [] |} =
      (Returned (inr {| oauth2.client_config := GetOAuthConfig Samples.configA;
                        oauth2.client_token := Samples.token |}), w')
    /\ logged w' =
         ([] ++
          ["No existing token found. Starting OAuth flow...";
           ("Warning: unable to save token: " ++ ErrorString err)%string])%list.
Proof.
  apply (unsaved_token_is_not_fatal Samples.decodeToken Samples.encodeToken
           Samples.Exchange Samples.configA "4/good" Samples.token
           {| files := fun _ => None; mkdirs := true; writable := false;
              patterns := []; server := Idle; stdout := []; logged := [] |}
           (Errorf "open a/token.json: no such file or directory"));
    try reflexivity.
  - discriminate.
  - right. reflexivity.
Defined.

End OAuthMore.

(* ------------------------------------------------------------------------- *)
(** * Properties of the backend collaborator                                 *)
(* ------------------------------------------------------------------------- *)

Module SheetsFacts.
Import Json api Sheets.
Import OAuth(Returned, Panicked).

Lemma forEach_None {A B : Type} (body : A -> option B) (l : list A) :
  forEach body l = None <-> exists a, In a l /\ body a = None.
Proof.
  induction l as [ | a l IH]; simpl.
  - split; [discriminate | intros (a & [] & _)].
  - destruct (body a) as [b | ] eqn:Hb.
    + destruct (forEach body l) as [bs | ].
      * split; [discriminate | ].
        intros (x & [E | Hin] & Hx).
        -- subst x. rewrite Hb in Hx. discriminate Hx.
        -- assert (Hc : Some bs = None)
             by (apply (proj2 IH); now exists x).
           discriminate Hc.
      * split; [ | reflexivity].
        intros _. destruct (proj1 IH eq_refl) as (x & Hin & Hx).
        exists x. split; [now right | exact Hx].
    + split; [ | reflexivity].
      intros _. exists a. split; [now left | exact Hb].
Qed.

Lemma forEach_length {A B : Type} (body : A -> option B) (l : list A)
  (bs : list B) :
  forEach body l = Some bs -> length bs = length l.
Proof.
  revert bs. induction l as [ | a l IH]; intros bs; simpl.
  - intros H; now inversion H.
  - destruct (body a) as [b | ]; [ | discriminate].
    destruct (forEach body l) as [bs' | ]; [ | discriminate].
    intros H; inversion H; subst. simpl. now rewrite (IH bs' eq_refl).
Qed.

Section Operations.
Context {Request : Type}.
Variable addSheetRequest : SheetProperties.t -> Request.
Variable Marshal : value -> error + string.
Variable UnmarshalRequests : string -> error + list Request.
Variable Sprint : any -> string.

Lemma fail_oneOf (prefix : string) (err : error) (pair : any * option error) :
  fail prefix err = Returned pair -> oneOf pair.
Proof.
  unfold fail. intros H; inversion H; subst. right. split; [reflexivity | ].
  now eexists.
Qed.

Lemma succeed_oneOf (result : list (string * value))
  (pair : any * option error) :
  succeed result = Returned pair -> oneOf pair.
Proof.
  unfold succeed. intros H; inversion H; subst. left. now exists result.
Qed.

Ltac settle :=
  repeat match goal with
  | |- fail _ _ = Returned _ -> _ => apply fail_oneOf
  | |- succeed _ = Returned _ -> _ => apply succeed_oneOf
  | |- Panicked _ = Returned _ -> _ => discriminate
  | |- context [match ?x with _ => _ end] => destruct x
  end.

(** X22. The contract of the collaborator: whenever one of the eight
    operations returns, it returns either a result (a map) and a nil error,
    or a nil result and an error; never both, never neither. *)
Theorem operations_return_result_or_error (c : Client Request)
  (id range name title : string) (values : list (list string))
  (names : list string) (requests : list (list (string * value)))
  (pair : any * option error) :
  ReadSheet Sprint c id range = Returned pair
  \/ WriteSheet c id range values = Returned pair
  \/ AppendSheet c id range values = Returned pair
  \/ CreateSpreadsheet c title names = Returned pair
  \/ GetSpreadsheetInfo c id = Returned pair
  \/ AddSheet addSheetRequest c id name = Returned pair
  \/ ClearSheet c id range = Returned pair
  \/ BatchUpdate Marshal UnmarshalRequests c id requests = Returned pair ->
  oneOf pair.
Proof.
  intros [H | [H | [H | [H | [H | [H | [H | H]]]]]]]; revert H.
  - unfold ReadSheet. settle.
  - unfold WriteSheet. settle.
  - unfold AppendSheet. settle.
  - unfold CreateSpreadsheet. settle.
  - unfold GetSpreadsheetInfo. settle.
  - unfold AddSheet. settle.
  - unfold ClearSheet. settle.
  - unfold BatchUpdate. settle.
Qed.

(** X23. A client without a service does not fail gracefully: every
    operation panics on the nil pointer instead of returning an error.
    [BatchUpdate] alone returns an error first when its requests do not
    convert. *)
Theorem nil_service_panics (c : Client Request)
  (id range name title : string) (values : list (list string))
  (names : list string) (requestsData : list (list (string * value))) :
  service c = None ->
  ReadSheet Sprint c id range = Panicked nilDereference
  /\ WriteSheet c id range values = Panicked nilDereference
  /\ AppendSheet c id range values = Panicked nilDereference
  /\ CreateSpreadsheet c title names = Panicked nilDereference
  /\ GetSpreadsheetInfo c id = Panicked nilDereference
  /\ AddSheet addSheetRequest c id name = Panicked nilDereference
  /\ ClearSheet c id range = Panicked nilDereference
  /\ (forall data requests,
        Marshal (JObject [("requests", JArray (map JObject requestsData))])
          = inr data ->
        UnmarshalRequests data = inr requests ->
        BatchUpdate Marshal UnmarshalRequests c id requestsData
          = Panicked nilDereference).
Proof.
  intros Hnil.
  unfold ReadSheet, WriteSheet, AppendSheet, CreateSpreadsheet,
    GetSpreadsheetInfo, AddSheet, ClearSheet, BatchUpdate.
  rewrite Hnil. repeat split.
  intros data requests Hm Hu. now rewrite Hm, Hu.
Qed.

Lemma lookup_rows (a b c d : value) :
  Json.lookup "range"
    [("range", a); ("values", b); ("row_count", c); ("col_count", d)] = Some a
  /\ Json.lookup "values"
       [("range", a); ("values", b); ("row_count", c); ("col_count", d)]
     = Some b
  /\ Json.lookup "row_count"
       [("range", a); ("values", b); ("row_count", c); ("col_count", d)]
     = Some c
  /\ Json.lookup "col_count"
       [("range", a); ("values", b); ("row_count", c); ("col_count", d)]
     = Some d
  /\ Json.lookup "message"
       [("range", a); ("values", b); ("row_count", c); ("col_count", d)]
     = None.
Proof. repeat split. Qed.

(** X24. What [ReadSheet] asks for and reports.  An empty range stands for
    "Sheet1".  With at least one row in the answer: every row and every cell is returned, each cell as the text [%v]
    prints for it, the row count is the number of rows and the column count
    is the width of the first row, whatever the width of the others.
    Without rows: the result has the message "No data found", an empty value
    list, and no counts at all. *)
Theorem ReadSheet_reports (c : Client Request) (svc : Service Request)
  (id range : string) (resp : ValueRange.t) :
  service c = Some svc ->
  ValuesGet svc id (if range =? "" then "Sheet1" else range) = inr resp ->
  exists result,
    ReadSheet Sprint c id range = Returned (JObject result, None)
    /\ Json.lookup "range" result = Some (JString (ValueRange.Range resp))
    /\ Json.lookup "values" result
       = Some (JArray
                 (map (fun row =>
                         JArray (map (fun cell => JString (Sprint cell)) row))
                    (ValueRange.Values resp)))
    /\ match ValueRange.Values resp with
       | [] =>
           Json.lookup "message" result = Some (JString "No data found")
           /\ Json.lookup "row_count" result = None
           /\ Json.lookup "col_count" result = None
       | first :: _ =>
           Json.lookup "message" result = None
           /\ Json.lookup "row_count" result
              = Some (JNumber (Z.of_nat (length (ValueRange.Values resp))))
           /\ Json.lookup "col_count" result
              = Some (JNumber (Z.of_nat (length first)))
       end.
Proof.
  intros Hsvc Hget. unfold ReadSheet.
  rewrite Hsvc, Hget.
  destruct (ValueRange.Values resp) as [ | first rest] eqn:Hvalues.
  - eexists. split; [reflexivity | ]. repeat split.
  - eexists. split; [reflexivity | ].
    match goal with
    | |- context [Json.lookup "range"
                    [("range", ?a); ("values", ?b); ("row_count", ?c);
                     ("col_count", ?d)]] =>
        destruct (lookup_rows a b c d) as (Hr & Hv & Hn & Hm & Hg)
    end.
    rewrite Hr, Hv, Hn, Hm, Hg.
    unfold rows, strings, len. rewrite !length_map, !map_map.
    split; [reflexivity | ].
    split.
    + f_equal. f_equal. apply map_ext. intros row. now rewrite map_map.
    + repeat split.
Qed.

(** X25. [GetSpreadsheetInfo] panics exactly when the API answers with a
    spreadsheet that has a sheet without grid properties (a sheet holding a
    chart is one), a sheet without properties, a nil sheet, or no
    properties of its own; an API error is returned as an error, not as a
    panic. *)
Theorem GetSpreadsheetInfo_panics (c : Client Request) (svc : Service Request)
  (id : string) :
  service c = Some svc ->
  (exists msg, GetSpreadsheetInfo c id = Panicked msg) <->
  exists resp,
    SpreadsheetsGet svc id = inr resp
    /\ (~ Forall gridSheet (Spreadsheet.Sheets resp)
        \/ Spreadsheet.Properties resp = None).
Proof.
  intros Hsvc. unfold GetSpreadsheetInfo. rewrite Hsvc.
  destruct (SpreadsheetsGet svc id) as [err | resp].
  - split; [intros (msg & H); discriminate H | ].
    intros (resp & H & _). discriminate H.
  - assert (Hgrid : forEach sheetInfo (Spreadsheet.Sheets resp) = None
                    <-> ~ Forall gridSheet (Spreadsheet.Sheets resp)).
    { rewrite forEach_None. split.
      - intros (sheet & Hin & Hinfo) Hall.
        rewrite Forall_forall in Hall.
        destruct (Hall sheet Hin) as (sh & props & grid & -> & Hp & Hg).
        simpl in Hinfo. rewrite Hp, Hg in Hinfo. discriminate Hinfo.
      - intros Hnot.
        destruct (forEach sheetInfo (Spreadsheet.Sheets resp)) as [infos | ]
          eqn:Heach.
        + exfalso. apply Hnot. apply Forall_forall. intros sheet Hin.
          destruct (sheetInfo sheet) as [info | ] eqn:Hinfo.
          * unfold sheetInfo in Hinfo.
            destruct sheet as [sh | ]; [ | discriminate].
            destruct (Sheet.Properties sh) as [props | ] eqn:Hp;
              [ | discriminate].
            destruct (SheetProperties.GridProperties props) as [grid | ]
              eqn:Hg; [ | discriminate].
            now exists sh, props, grid.
          * assert (Hc : forEach sheetInfo (Spreadsheet.Sheets resp) = None)
              by (apply forEach_None; now exists sheet).
            rewrite Heach in Hc. discriminate Hc.
        + now apply forEach_None. }
    destruct (forEach sheetInfo (Spreadsheet.Sheets resp)) as [infos | ].
    + destruct (Spreadsheet.Properties resp) as [properties | ] eqn:Hprops.
      * split; [intros (msg & H); discriminate H | ].
        intros (resp' & E & [Hnot | Hnone]); inversion E; subst resp'.
        -- assert (Hc : Some infos = None) by now apply Hgrid.
           discriminate Hc.
        -- rewrite Hprops in Hnone. discriminate Hnone.
      * split; [ | intros _; now eexists].
        intros _. exists resp. split; [reflexivity | now right].
    + split; [ | intros _; now eexists].
      intros _. exists resp. split; [reflexivity | ].
      left. now apply Hgrid.
Qed.

(** X26. The other panics of the package, given a service.  [AppendSheet]
    panics exactly when the API answers without updates; [AddSheet] exactly
    when the first reply is nil or names an added sheet without properties;
    [CreateSpreadsheet] exactly when the answer lacks its properties or has
    a sheet that is nil or without properties. *)
Theorem response_panics (c : Client Request) (svc : Service Request)
  (id range name title : string) (values : list (list string))
  (names : list string) :
  service c = Some svc ->
  ((exists msg, AppendSheet c id range values = Panicked msg) <->
   ValuesAppend svc id range
     {| ValueRange.Range := ""; ValueRange.Values := interfaceValues values |}
     "USER_ENTERED" "INSERT_ROWS"
   = inr {| AppendValuesResponse.Updates := None |})
  /\ ((exists msg, AddSheet addSheetRequest c id name = Panicked msg) <->
      exists resp rest,
        SpreadsheetsBatchUpdate svc id [addSheetRequest (titled name)]
          = inr resp
        /\ (BatchUpdateSpreadsheetResponse.Replies resp = None :: rest
            \/ BatchUpdateSpreadsheetResponse.Replies resp
               = Some {| Response.AddSheet :=
                           Some {| AddSheetResponse.Properties := None |} |}
                   :: rest))
  /\ ((exists msg, CreateSpreadsheet c title names = Panicked msg) <->
      exists resp,
        SpreadsheetsCreate svc (newSpreadsheet title names) = inr resp
        /\ (~ Forall titledSheet (Spreadsheet.Sheets resp)
            \/ Spreadsheet.Properties resp = None)).
Proof.
  intros Hsvc. split; [ | split].
  - unfold AppendSheet. rewrite Hsvc.
    destruct (ValuesAppend svc id range _ _ _) as [err | [[updates | ]]].
    + split; [intros (msg & H); discriminate H | discriminate].
    + split; [intros (msg & H); discriminate H | discriminate].
    + split; [reflexivity | intros _; now eexists].
  - unfold AddSheet. rewrite Hsvc.
    destruct (SpreadsheetsBatchUpdate svc id _) as [err | resp].
    + split; [intros (msg & H); discriminate H | ].
      intros (resp & rest & H & _). discriminate H.
    + destruct (BatchUpdateSpreadsheetResponse.Replies resp)
        as [ | [[[[[props | ]] | ]] | ] rest] eqn:Hreplies.
      * split; [intros (msg & H); discriminate H | ].
        intros (resp' & rest' & E & [H | H]); inversion E; subst resp';
          rewrite Hreplies in H; discriminate H.
      * split; [intros (msg & H); discriminate H | ].
        intros (resp' & rest' & E & [H | H]); inversion E; subst resp';
          rewrite Hreplies in H; discriminate H.
      * split; [ | intros _; now eexists].
        intros _. exists resp, rest. split; [reflexivity | now right].
      * split; [intros (msg & H); discriminate H | ].
        intros (resp' & rest' & E & [H | H]); inversion E; subst resp';
          rewrite Hreplies in H; discriminate H.
      * split; [ | intros _; now eexists].
        intros _. exists resp, rest. split; [reflexivity | now left].
  - unfold CreateSpreadsheet. rewrite Hsvc.
    destruct (SpreadsheetsCreate svc _) as [err | resp].
    + split; [intros (msg & H); discriminate H | ].
      intros (resp & H & _). discriminate H.
    + assert (Htitles : forEach sheetTitle (Spreadsheet.Sheets resp) = None
                        <-> ~ Forall titledSheet (Spreadsheet.Sheets resp)).
      { rewrite forEach_None. split.
        - intros (sheet & Hin & Htitle) Hall.
          rewrite Forall_forall in Hall.
          destruct (Hall sheet Hin) as (sh & props & -> & Hp).
          simpl in Htitle. rewrite Hp in Htitle. discriminate Htitle.
        - intros Hnot.
          destruct (forEach sheetTitle (Spreadsheet.Sheets resp))
            as [titles | ] eqn:Heach; [ | now apply forEach_None].
          exfalso. apply Hnot. apply Forall_forall. intros sheet Hin.
          destruct (sheetTitle sheet) as [t | ] eqn:Htitle.
          + unfold sheetTitle in Htitle.
            destruct sheet as [sh | ]; [ | discriminate].
            destruct (Sheet.Properties sh) as [props | ] eqn:Hp;
              [ | discriminate].
            now exists sh, props.
          + assert (Hc : forEach sheetTitle (Spreadsheet.Sheets resp) = None)
              by (apply forEach_None; now exists sheet).
            rewrite Heach in Hc. discriminate Hc. }
      destruct (forEach sheetTitle (Spreadsheet.Sheets resp)) as [titles | ].
      * destruct (Spreadsheet.Properties resp) as [properties | ] eqn:Hprops.
        -- split; [intros (msg & H); discriminate H | ].
           intros (resp' & E & [Hnot | Hnone]); inversion E; subst resp'.
           ++ assert (Hc : Some titles = None) by now apply Htitles.
              discriminate Hc.
           ++ rewrite Hprops in Hnone. discriminate Hnone.
        -- split; [ | intros _; now eexists].
           intros _. exists resp. split; [reflexivity | now right].
      * split; [ | intros _; now eexists].
        intros _. exists resp. split; [reflexivity | ].
        left. now apply Htitles.
Qed.

(** X27. Given a service, [ReadSheet], [WriteSheet], [ClearSheet] and
    [BatchUpdate] never panic: whatever the API answers, each of them
    returns. *)
Theorem plain_operations_return (c : Client Request) (svc : Service Request)
  (id range : string) (values : list (list string))
  (requests : list (list (string * value))) :
  service c = Some svc ->
  (exists pair, ReadSheet Sprint c id range = Returned pair)
  /\ (exists pair, WriteSheet c id range values = Returned pair)
  /\ (exists pair, ClearSheet c id range = Returned pair)
  /\ (exists pair,
        BatchUpdate Marshal UnmarshalRequests c id requests = Returned pair).
Proof.
  intros Hsvc.
  unfold ReadSheet, WriteSheet, ClearSheet, BatchUpdate. rewrite Hsvc.
  repeat split.
  - destruct (ValuesGet svc id _) as [err | resp]; [now eexists | ].
    destruct (ValueRange.Values resp); now eexists.
  - destruct (ValuesUpdate svc id range _ _); now eexists.
  - destruct (ValuesClear svc id range); now eexists.
  - destruct (Marshal _) as [err | data]; [now eexists | ].
    destruct (UnmarshalRequests data) as [err | reqs]; [now eexists | ].
    destruct (SpreadsheetsBatchUpdate svc id reqs); now eexists.
Qed.

End Operations.

Lemma operations_return_result_or_error_witness :
  WriteSheet Backend.client "test-id" "A1" [["x"]]
    = Returned
        (JNull,
         Some (Errorf "unable to write data to sheet: googleapi: Error 503"))
  /\ oneOf
       (JNull,
        Some (Errorf "unable to write data to sheet: googleapi: Error 503")).
Proof.
  split; [reflexivity | ].
  apply (operations_return_result_or_error
           Backend.addSheetRequest Backend.Marshal Backend.UnmarshalRequests
           Backend.Sprint Backend.client "test-id" "A1" "Sheet2" "Title"
           [["x"]] [] []).
  right. left. reflexivity.
Defined.

Lemma nil_service_panics_witness :
  service Backend.noService = None
  /\ ClearSheet Backend.noService "test-id" "A1" = Panicked nilDereference.
Proof.
  split; [reflexivity | ].
  apply (nil_service_panics
           Backend.addSheetRequest Backend.Marshal Backend.UnmarshalRequests
           Backend.Sprint Backend.noService "test-id" "A1" "Sheet2" "Title"
           [] [] []).
  reflexivity.
Defined.

Lemma ReadSheet_reports_witness :
  exists result,
    ReadSheet Backend.Sprint Backend.client "test-id" ""
      = Returned (JObject result, None)
    /\ Json.lookup "row_count" result = Some (JNumber 2)
    /\ Json.lookup "col_count" result = Some (JNumber 2).
Proof.
  destruct (ReadSheet_reports Backend.Sprint Backend.client Backend.service
              "test-id" "" Backend.ragged eq_refl eq_refl)
    as (result & Hread & _ & _ & Hrows).
  exists result. split; [exact Hread | ].
  simpl in Hrows. destruct Hrows as (_ & Hr & Hc). now split.
Defined.

Lemma GetSpreadsheetInfo_panics_witness :
  exists msg, GetSpreadsheetInfo Backend.client "test-id" = Panicked msg.
Proof.
  apply (GetSpreadsheetInfo_panics Backend.client Backend.service "test-id"
           eq_refl).
  exists Backend.withChart. split; [reflexivity | ].
  left. intros Hall. simpl in Hall.
  inversion Hall as [ | ? ? _ Hrest]; subst.
  inversion Hrest as [ | ? ? Hchart _]; subst.
  destruct Hchart as (sh & props & grid & Hsh & Hp & Hg).
  inversion Hsh; subst sh. simpl in Hp. inversion Hp; subst props.
  discriminate Hg.
Defined.

Lemma response_panics_witness :
  exists msg, AppendSheet Backend.client "test-id" "A1" [["x"]] = Panicked msg.
Proof.
  apply (response_panics Backend.addSheetRequest Backend.client
           Backend.service "test-id" "A1" "Sheet2" "Title" [["x"]] []
           eq_refl).
  reflexivity.
Defined.

Lemma plain_operations_return_witness :
  exists pair,
    BatchUpdate Backend.Marshal Backend.UnmarshalRequests Backend.client
      "test-id" [] = Returned pair.
Proof.
  apply (plain_operations_return Backend.Marshal Backend.UnmarshalRequests
           Backend.Sprint Backend.client Backend.service "test-id" "A1" []
           [] eq_refl).
Defined.

End SheetsFacts.

(* ------------------------------------------------------------------------- *)
(** * Properties of the dispatcher over the real client, and of the loop     *)
(* ------------------------------------------------------------------------- *)

Module ProcessFacts.
Import Json MCP api Loop.
Import OAuth(Returned, Panicked).

Section Facts.
Context {Request : Type}.
Variable addSheetRequest : SheetProperties.t -> Request.
Variable Marshal : value -> error + string.
Variable UnmarshalRequests : string -> error + list Request.
Variable Sprint : any -> string.

Local Abbreviation handleRequest :=
  (Process.handleRequest addSheetRequest Marshal UnmarshalRequests Sprint).
Local Abbreviation handleToolsCall :=
  (Process.handleToolsCall addSheetRequest Marshal UnmarshalRequests Sprint).
Local Abbreviation toolHandler :=
  (Process.toolHandler addSheetRequest Marshal UnmarshalRequests Sprint).
Local Abbreviation mainLoop :=
  (Loop.mainLoop addSheetRequest Marshal UnmarshalRequests Sprint).

(** An envelope the dispatcher returns echoes the identifier, carries the
    protocol tag and has a result or an error, not both. *)
Lemma handleToolsCall_returned (s : Process.MCPServer Request)
  (req : MCPRequest) (r : MCPResponse) :
  handleToolsCall s req = Returned r ->
  ID r = req_ID req /\ JSONRPC r = "2.0"
  /\ ((Result r <> JNull /\ Error r = None)
      \/ (Result r = JNull /\ Error r <> None)).
Proof.
  unfold Process.handleToolsCall.
  destruct (Unmarshal _ _ _ _) as [params [e | ]].
  - intros H; inversion H. repeat split. right. split;
      [reflexivity | discriminate].
  - destruct (Process.toolHandler _ _ _ _ _ _) as [handle | ].
    + destruct (handle _) as [[result [e | ]] | msg]; intros H; inversion H.
      * repeat split. right. split; [reflexivity | discriminate].
      * repeat split. left. split; [discriminate | reflexivity].
    + intros H; inversion H. repeat split. right. split;
        [reflexivity | discriminate].
Qed.

Lemma handleRequest_returned (s : Process.MCPServer Request)
  (req : MCPRequest) (r : MCPResponse) :
  handleRequest s req = Returned r ->
  ID r = req_ID req /\ JSONRPC r = "2.0"
  /\ ((Result r <> JNull /\ Error r = None)
      \/ (Result r = JNull /\ Error r <> None)).
Proof.
  unfold Process.handleRequest.
  destruct (_ =? "initialize").
  { intros H; inversion H. repeat split. left. split;
      [discriminate | reflexivity]. }
  destruct (_ =? "tools/list").
  { intros H; inversion H. repeat split. left. split;
      [discriminate | reflexivity]. }
  destruct (_ =? "tools/call"); [apply handleToolsCall_returned | ].
  destruct (_ =? "ping"); intros H; inversion H; repeat split.
  - left. split; [discriminate | reflexivity].
  - right. split; [reflexivity | discriminate].
Qed.

(** X28. With a service behind the client, the dispatcher returns an envelope
    for every request except some calls of four tools: a request that makes
    it panic is a [tools/call] whose params decode and name [append_sheet],
    [create_spreadsheet], [get_spreadsheet_info] or [add_sheet].  Every
    other method, params that do not decode, an unknown tool and the four
    other tools never panic. *)
Theorem only_four_tools_panic (s : Process.MCPServer Request)
  (svc : Sheets.Service Request) (req : MCPRequest) (msg : string) :
  Sheets.service (Process.sheetsClient s) = Some svc ->
  handleRequest s req = Panicked msg ->
  req_Method req = "tools/call"
  /\ exists params,
       Unmarshal CallParams.set CallParams.typ (req_Params req)
         CallParams.zero = (params, None)
       /\ In (CallParams.Name params)
            ["append_sheet"; "create_spreadsheet"; "get_spreadsheet_info";
             "add_sheet"].
Proof.
  intros Hsvc. unfold Process.handleRequest.
  destruct (_ =? "initialize"); [discriminate | ].
  destruct (_ =? "tools/list"); [discriminate | ].
  destruct (String.eqb_spec (req_Method req) "tools/call") as [Hm | _].
  2: { destruct (_ =? "ping"); discriminate. }
  intros H. split; [exact Hm | ].
  unfold Process.handleToolsCall in H.
  destruct (Unmarshal CallParams.set CallParams.typ (req_Params req)
              CallParams.zero) as [params [e | ]] eqn:Hdec;
    [discriminate H | ].
  exists params. split; [reflexivity | ].
  unfold Process.toolHandler in H.
  destruct (String.eqb_spec (CallParams.Name params) "read_sheet") as [E | _].
  { exfalso. unfold Process.handleReadSheet, Sheets.ReadSheet in H.
    destruct (Unmarshal ReadSheetParams.set _ _ _) as [p [e | ]]; [discriminate H | ].
    rewrite Hsvc in H.
    destruct (Sheets.ValuesGet svc _ _) as [err | resp]; [discriminate H | ].
    destruct (ValueRange.Values resp); discriminate H. }
  destruct (String.eqb_spec (CallParams.Name params) "write_sheet") as [E | _].
  { exfalso. unfold Process.handleWriteSheet, Sheets.WriteSheet in H.
    destruct (Unmarshal WriteSheetParams.set _ _ _) as [p [e | ]]; [discriminate H | ].
    rewrite Hsvc in H.
    destruct (Sheets.ValuesUpdate svc _ _ _ _); discriminate H. }
  destruct (String.eqb_spec (CallParams.Name params) "append_sheet")
    as [E | _]; [rewrite E; simpl; tauto | ].
  destruct (String.eqb_spec (CallParams.Name params) "create_spreadsheet")
    as [E | _]; [rewrite E; simpl; tauto | ].
  destruct (String.eqb_spec (CallParams.Name params) "get_spreadsheet_info")
    as [E | _]; [rewrite E; simpl; tauto | ].
  destruct (String.eqb_spec (CallParams.Name params) "add_sheet")
    as [E | _]; [rewrite E; simpl; tauto | ].
  destruct (String.eqb_spec (CallParams.Name params) "clear_sheet") as [E | _].
  { exfalso. unfold Process.handleClearSheet, Sheets.ClearSheet in H.
    destruct (Unmarshal ClearSheetParams.set _ _ _) as [p [e | ]]; [discriminate H | ].
    rewrite Hsvc in H.
    destruct (Sheets.ValuesClear svc _ _); discriminate H. }
  destruct (String.eqb_spec (CallParams.Name params) "batch_update")
    as [E | _]; [ | discriminate H].
  exfalso. unfold Process.handleBatchUpdate, Sheets.BatchUpdate in H.
  destruct (Unmarshal BatchUpdateParams.set _ _ _) as [p [e | ]]; [discriminate H | ].
  destruct (Marshal _) as [err | data]; [discriminate H | ].
  destruct (UnmarshalRequests data) as [err | reqs]; [discriminate H | ].
  rewrite Hsvc in H.
  destruct (Sheets.SpreadsheetsBatchUpdate svc _ reqs); discriminate H.
Qed.

(** ** The loop *)

Lemma encodeResponse_members (r : MCPResponse) :
  get "jsonrpc" (encodeResponse r) = Some (JString (JSONRPC r))
  /\ get "id" (encodeResponse r) = written (ID r)
  /\ get "result" (encodeResponse r) = written (Result r)
  /\ get "error" (encodeResponse r) = option_map encodeError (Error r).
Proof.
  destruct r as [tag id result err]. unfold encodeResponse.
  cbn [JSONRPC ID Result Error].
  destruct id; destruct result; destruct err; repeat split; reflexivity.
Qed.

(** X10. A line too long for the scanner ends the server: when the lines
    before it are served to the end, they are answered as if the input
    ended there, and then the run stops with a fatal error; the lines after
    it are never read. *)
Theorem too_long_line_is_fatal (server : nat -> Process.MCPServer Request)
  (before after : list Line) :
  forall turn,
    exit (mainLoop server turn before) = EndOfInput ->
    responses (mainLoop server turn (before ++ TooLong :: after))
      = responses (mainLoop server turn before)
    /\ logs (mainLoop server turn (before ++ TooLong :: after))
       = logs (mainLoop server turn before)
    /\ exit (mainLoop server turn (before ++ TooLong :: after))
       = Fatal "Error reading from stdin: bufio.Scanner: token too long".
Proof.
  induction before as [ | [ | data | ] before IH]; intros turn Hend.
  - repeat split.
  - apply IH. exact Hend.
  - cbn [app Loop.mainLoop] in Hend |- *.
    destruct (decodeRequest data) as [req [e | ]].
    + cbn [responses logs exit] in Hend |- *.
      destruct (IH turn Hend) as (Hr & Hl & He).
      rewrite Hr, Hl, He. repeat split.
    + destruct (Process.handleRequest _ _ _ _ _ _) as [resp | msg].
      * cbn [responses logs exit] in Hend |- *.
        destruct (IH (S turn) Hend) as (Hr & Hl & He).
        rewrite Hr, Hl, He. repeat split.
      * discriminate Hend.
  - discriminate Hend.
Qed.


(** X11. Every document the loop writes answers one decoded line: it is the
    encoding of the envelope the dispatcher returned for that request, it
    carries the tag "2.0", the identifier as the decoder read it unless that
    is null (then no id member is written), and a result member or an error
    member, never both. *)
Theorem loop_documents (server : nat -> Process.MCPServer Request)
  (lines : list Line) (doc : value) :
  forall turn,
    In doc (responses (mainLoop server turn lines)) ->
    exists data req k resp,
      In (Text data) lines
      /\ decodeRequest data = (req, None)
      /\ handleRequest (server k) req = Returned resp
      /\ doc = encodeResponse resp
      /\ get "jsonrpc" doc = Some (JString "2.0")
      /\ get "id" doc = written (req_ID req)
      /\ ((get "result" doc <> None /\ get "error" doc = None)
          \/ (get "result" doc = None /\ get "error" doc <> None)).
Proof.
  induction lines as [ | [ | data | ] lines IH]; intros turn;
    cbn [Loop.mainLoop responses].
  - intros [].
  - intros H. destruct (IH turn H) as (d & r & k & resp & Hin & Hrest).
    exists d, r, k, resp. split; [now right | exact Hrest].
  - destruct (decodeRequest data) as [req [e | ]] eqn:Hdec.
    + cbn [responses]. intros H.
      destruct (IH turn H) as (d & r & k & resp & Hin & Hrest).
      exists d, r, k, resp. split; [now right | exact Hrest].
    + destruct (Process.handleRequest _ _ _ _ (server turn) req)
        as [resp | msg] eqn:Hrun; cbn [responses]; [ | intros []].
      intros [E | H].
      * exists data, req, turn, resp. split; [now left | ].
        split; [exact Hdec | ]. split; [exact Hrun | ].
        split; [now symmetry | ]. subst doc.
        destruct (encodeResponse_members resp) as (Htag & Hid & Hres & Herr).
        destruct (handleRequest_returned (server turn) req resp Hrun)
          as (Hecho & Htwo & Hone).
        rewrite Htag, Hid, Hres, Herr, Htwo, Hecho.
        split; [reflexivity | ]. split; [reflexivity | ].
        destruct Hone as [[Hr He] | [Hr He]].
        -- left. rewrite He. split; [ | reflexivity].
           destruct (Result resp); try discriminate. contradiction.
        -- right. rewrite Hr. split; [reflexivity | ].
           destruct (Error resp); [discriminate | contradiction].
      * destruct (IH (S turn) H) as (d & r & k & resp' & Hin & Hrest).
        exists d, r, k, resp'. split; [now right | exact Hrest].
  - intros [].
Qed.

End Facts.

Lemma only_four_tools_panic_witness :
  req_Method
    (Samples.request (JNumber 9) "tools/call"
       (Samples.call "get_spreadsheet_info"
          (JObject [("spreadsheet_id", JString "test-spreadsheet-id")])))
  = "tools/call"
  /\ exists params,
       Unmarshal CallParams.set CallParams.typ
         (req_Params
            (Samples.request (JNumber 9) "tools/call"
               (Samples.call "get_spreadsheet_info"
                  (JObject [("spreadsheet_id",
                             JString "test-spreadsheet-id")]))))
         CallParams.zero = (params, None)
       /\ In (CallParams.Name params)
            ["append_sheet"; "create_spreadsheet"; "get_spreadsheet_info";
             "add_sheet"].
Proof.
  apply (only_four_tools_panic Backend.addSheetRequest Backend.Marshal
           Backend.UnmarshalRequests Backend.Sprint Backend.server
           Backend.service
           (Samples.request (JNumber 9) "tools/call"
              (Samples.call "get_spreadsheet_info"
                 (JObject [("spreadsheet_id",
                            JString "test-spreadsheet-id")])))
           Sheets.nilDereference).
  - reflexivity.
  - reflexivity.
Defined.

Lemma too_long_line_is_fatal_witness :
  responses
    (Loop.mainLoop Backend.addSheetRequest Backend.Marshal
       Backend.UnmarshalRequests Backend.Sprint (fun _ => Backend.server) 0
       ([Text (Wellformed (JObject [("method", JString "ping")]))]
          ++ TooLong
          :: [Text (Wellformed (JObject [("method", JString "ping")]))]))
  = [JObject [("jsonrpc", JString "2.0"); ("result", JObject [])]].
Proof.
  rewrite (proj1 (too_long_line_is_fatal Backend.addSheetRequest
                    Backend.Marshal Backend.UnmarshalRequests Backend.Sprint
                    (fun _ => Backend.server)
                    [Text (Wellformed (JObject [("method", JString "ping")]))]
                    [Text (Wellformed (JObject [("method", JString "ping")]))]
                    0%nat eq_refl)).
  reflexivity.
Defined.


Lemma loop_documents_witness :
  exists data req k resp,
    In (Text data)
      [Text (Wellformed (JObject [("id", JNumber 9007199254740993);
                                  ("method", JString "ping")]))]
    /\ decodeRequest data = (req, None)
    /\ Process.handleRequest Backend.addSheetRequest Backend.Marshal
         Backend.UnmarshalRequests Backend.Sprint
         ((fun _ : nat => Backend.server) k) req = Returned resp
    /\ JObject [("jsonrpc", JString "2.0"); ("id", JNumber 9007199254740992);
                ("result", JObject [])]
       = encodeResponse resp
    /\ get "jsonrpc"
         (JObject [("jsonrpc", JString "2.0");
                   ("id", JNumber 9007199254740992);
                   ("result", JObject [])]) = Some (JString "2.0")
    /\ get "id"
         (JObject [("jsonrpc", JString "2.0");
                   ("id", JNumber 9007199254740992);
                   ("result", JObject [])]) = written (req_ID req)
    /\ ((get "result"
           (JObject [("jsonrpc", JString "2.0");
                     ("id", JNumber 9007199254740992);
                     ("result", JObject [])]) <> None
         /\ get "error"
              (JObject [("jsonrpc", JString "2.0");
                        ("id", JNumber 9007199254740992);
                        ("result", JObject [])]) = None)
        \/ (get "result"
              (JObject [("jsonrpc", JString "2.0");
                        ("id", JNumber 9007199254740992);
                        ("result", JObject [])]) = None
            /\ get "error"
                 (JObject [("jsonrpc", JString "2.0");
                           ("id", JNumber 9007199254740992);
                           ("result", JObject [])]) <> None)).
Proof.
  apply (loop_documents Backend.addSheetRequest Backend.Marshal
           Backend.UnmarshalRequests Backend.Sprint (fun _ => Backend.server)
           [Text (Wellformed (JObject [("id", JNumber 9007199254740993);
                                       ("method", JString "ping")]))]
           _ 0%nat).
  left. vm_compute. reflexivity.
Defined.

End ProcessFacts.
